(** * The PPTX quiz service (cloud-run-pptx/main.py), embedded and verified

    The service extracts the text of a presentation, groups the slides into
    chunks, asks a language model for multiple-choice questions per chunk,
    stores the quiz in Firestore and reports progress in a job document.  Two
    further handlers convert a presentation to PDF through LibreOffice, and a
    third prints an HTML page to PDF; these check a Firebase token first.

    Part I embeds the Python functions, one module per component; the
    libraries the service calls (python-pptx, the language model, Firestore,
    Cloud Storage, the file system, LibreOffice) appear as data the functions
    read or as an explicit world they change.  Part II states and proves the
    properties. *)

From Stdlib Require Import ZArith Lia Sorted.
From Stdlib Require QArith.
From stdpp Require Import gmap strings list fin_maps.

Local Open Scope Z_scope.

(* stdpp's solvers clear hypotheses by name; the notice is of no interest here. *)
#[local] Set Warnings "-clear-no-such-hyp".

(** A Python [str] is a sequence of Unicode code points. *)
Abbreviation char := N.
Abbreviation text := (list N).

(* ===================================================================== *)
(** * Part I: the model *)
(* ===================================================================== *)

(** ** Python values and built-ins used by the service *)
Module Py.

(** Source literals are written as UTF-8 strings and decoded to code points. *)
Fixpoint utf8_decode (bs : list N) : text :=
  match bs with
  | [] => []
  | b1 :: r1 =>
    if (b1 <? 128)%N then b1 :: utf8_decode r1
    else match r1 with
    | [] => [b1]
    | b2 :: r2 =>
      if (b1 <? 224)%N then ((b1 - 192) * 64 + (b2 - 128))%N :: utf8_decode r2
      else match r2 with
      | [] => [b1]
      | b3 :: r3 =>
        if (b1 <? 240)%N
        then ((b1 - 224) * 4096 + (b2 - 128) * 64 + (b3 - 128))%N :: utf8_decode r3
        else match r3 with
        | [] => [b1]
        | b4 :: r4 =>
          ((b1 - 240) * 262144 + (b2 - 128) * 4096 + (b3 - 128) * 64 + (b4 - 128))%N
            :: utf8_decode r4
        end
      end
    end
  end.

Definition u (s : string) : text :=
  utf8_decode (map Ascii.N_of_ascii (String.list_ascii_of_string s)).
Arguments u : simpl never.

(** The exceptions the modelled code can meet. *)
Inductive exn_kind :=
  | ValueError | TypeError | KeyError | NotFound
  | TimeoutExpired | CalledProcessError | OtherError.

Record exn := Exn { exn_kind_of : exn_kind; exn_text : text }.

(** A computation that returns or raises. *)
Inductive result (A : Type) :=
  | Ok (a : A)
  | Raise (e : exn).
Arguments Ok {A} a.
Arguments Raise {A} e.

(** [str.isspace] on one code point; [\s] of [re] on [str] patterns and
    [str.strip()] use the same table. *)
Definition isspace (c : char) : bool :=
  ((9 <=? c) && (c <=? 13) || (28 <=? c) && (c <=? 32) || (c =? 133) || (c =? 160)
   || (c =? 5760) || (8192 <=? c) && (c <=? 8202) || (c =? 8232) || (c =? 8233)
   || (c =? 8239) || (c =? 8287) || (c =? 12288))%N.

Fixpoint lstrip (s : text) : text :=
  match s with
  | [] => []
  | c :: s' => if isspace c then lstrip s' else s
  end.

Definition rstrip (s : text) : text := rev (lstrip (rev s)).

(** [s.strip()] *)
Definition strip (s : text) : text := rstrip (lstrip s).

(** [sep.join(parts)] *)
Fixpoint join (sep : text) (parts : list text) : text :=
  match parts with
  | [] => []
  | p :: ps =>
    match ps with
    | [] => p
    | _ :: _ => p ++ sep ++ join sep ps
    end
  end.

(** [s.split(sep)] for a separator of one code point. *)
Fixpoint split (sep : char) (s : text) : list text :=
  match s with
  | [] => [[]]
  | c :: s' =>
    if (c =? sep)%N then [] :: split sep s'
    else match split sep s' with
         | [] => [[c]]
         | l :: ls => (c :: l) :: ls
         end
  end.

Definition newline : char := 10%N.

(** Truth value of a [str]: the empty string is false. *)
Definition truthy (s : text) : bool :=
  match s with [] => false | _ :: _ => true end.

(** A slice index brought into [0, n], as [list.__getitem__] does. *)
Definition clamp_index (n i : Z) : Z :=
  if i <? 0 then Z.max 0 (n + i) else Z.min i n.

(** [l[lo:hi]] *)
Definition slice {A} (l : list A) (lo hi : Z) : list A :=
  let n := Z.of_nat (length l) in
  let lo' := clamp_index n lo in
  let hi' := clamp_index n hi in
  take (Z.to_nat (hi' - lo')) (drop (Z.to_nat lo') l).

(** [l[:hi]] *)
Definition slice_to {A} (l : list A) (hi : Z) : list A := slice l 0 hi.

(** [range(start, stop, step)]; [range] raises ValueError on a zero step. *)
Fixpoint range_up (fuel : nat) (i stop step : Z) : list Z :=
  match fuel with
  | O => []
  | S fuel' => if i <? stop then i :: range_up fuel' (i + step) stop step else []
  end.

Fixpoint range_down (fuel : nat) (i stop step : Z) : list Z :=
  match fuel with
  | O => []
  | S fuel' => if stop <? i then i :: range_down fuel' (i + step) stop step else []
  end.

Definition range (start stop step : Z) : result (list Z) :=
  if step =? 0 then Raise (Exn ValueError (u "range() arg 3 must not be zero"))
  else if 0 <? step then Ok (range_up (Z.to_nat (stop - start)) start stop step)
  else Ok (range_down (Z.to_nat (start - stop)) start stop step).

(** [str(n)] for an [int]. *)
Fixpoint uint_text (d : Decimal.uint) : text :=
  match d with
  | Decimal.Nil => []
  | Decimal.D0 d' => 48%N :: uint_text d'
  | Decimal.D1 d' => 49%N :: uint_text d'
  | Decimal.D2 d' => 50%N :: uint_text d'
  | Decimal.D3 d' => 51%N :: uint_text d'
  | Decimal.D4 d' => 52%N :: uint_text d'
  | Decimal.D5 d' => 53%N :: uint_text d'
  | Decimal.D6 d' => 54%N :: uint_text d'
  | Decimal.D7 d' => 55%N :: uint_text d'
  | Decimal.D8 d' => 56%N :: uint_text d'
  | Decimal.D9 d' => 57%N :: uint_text d'
  end.

Definition str_of_int (z : Z) : text :=
  match Z.to_int z with
  | Decimal.Pos d => uint_text d
  | Decimal.Neg d => 45%N :: uint_text d
  end.

End Py.

(** ** The regular expressions of the extractor ([re] on [str]) *)
Module Re.

Section WithUnicode.

(** The decimal digits beyond ASCII are those of the interpreter's Unicode
    database (general category Nd), which grows from one Unicode version to
    the next: the table is a parameter. *)
Variable nd_table : char -> bool.

(** [\d] *)
Definition isdecimal (c : char) : bool :=
  if (c <? 128)%N then (48 <=? c)%N && (c <=? 57)%N else nd_table c.

(** A literal character under [re.IGNORECASE]: an ASCII letter matches both
    of its cases; the other characters of the service's patterns have no
    case. *)
Definition swapcase (c : char) : char :=
  if ((65 <=? c) && (c <=? 90))%N then (c + 32)%N
  else if ((97 <=? c) && (c <=? 122))%N then (c - 32)%N
  else c.

Definition ichar (c x : char) : bool := ((x =? c) || (x =? swapcase c))%N.

Inductive regex :=
  | Bol                              (* ^ *)
  | Eol                              (* $ *)
  | Lit (c : char)                   (* a literal, compared ignoring case *)
  | Star (p : char -> bool)          (* cls* *)
  | Plus (p : char -> bool)          (* cls+ *)
  | Seq (r1 r2 : regex)
  | Alt (r1 r2 : regex).

(** [cls*] followed by [k], trying every number of repetitions. *)
Fixpoint star_then (p : char -> bool) (k : text -> bool) (s : text) : bool :=
  k s ||
  match s with
  | [] => false
  | c :: s' => p c && star_then p k s'
  end.

(** Backtracking match of [r] at the head of [s]; [at_start] says that no
    character has been consumed yet.  Without [re.MULTILINE], [^] holds at
    the start only and [$] at the end or before a final newline. *)
Fixpoint match_here (r : regex) (at_start : bool) (s : text)
    (k : bool -> text -> bool) : bool :=
  match r with
  | Bol => at_start && k at_start s
  | Eol =>
    match s with
    | [] => k at_start s
    | [c] => (c =? Py.newline)%N && k at_start s
    | _ => false
    end
  | Lit c =>
    match s with
    | [] => false
    | x :: s' => ichar c x && k false s'
    end
  | Star p =>
    k at_start s ||
    match s with
    | [] => false
    | c :: s' => p c && star_then p (k false) s'
    end
  | Plus p =>
    match s with
    | [] => false
    | c :: s' => p c && star_then p (k false) s'
    end
  | Seq r1 r2 => match_here r1 at_start s (fun b s' => match_here r2 b s' k)
  | Alt r1 r2 => match_here r1 at_start s k || match_here r2 at_start s k
  end.

(** [pattern.match(s) is not None] *)
Definition re_match (r : regex) (s : text) : bool :=
  match_here r true s (fun _ _ => true).

Fixpoint lits (cs : text) : regex :=
  match cs with
  | [] => Star (fun _ => false)
  | [c] => Lit c
  | c :: cs' => Seq (Lit c) (lits cs')
  end.

(** [re.compile(r'^\d+$|^페이지\s*\d+|^Page\s*\d+|^\d+\s*/\s*\d+$', re.IGNORECASE)] *)
Definition page_num_pattern : regex :=
  Alt (Seq Bol (Seq (Plus isdecimal) Eol))
 (Alt (Seq Bol (Seq (lits (Py.u "페이지")) (Seq (Star Py.isspace) (Plus isdecimal))))
 (Alt (Seq Bol (Seq (lits (Py.u "Page")) (Seq (Star Py.isspace) (Plus isdecimal))))
      (Seq Bol (Seq (Plus isdecimal) (Seq (Star Py.isspace) (Seq (Lit 47%N)
           (Seq (Star Py.isspace) (Seq (Plus isdecimal) Eol)))))))).

End WithUnicode.

End Re.

(** ** Text Extractor: [extract_text_from_pptx] *)
Module Extractor.

(** What the extractor reads of a python-pptx shape. *)
Record Shape := {
  has_text_frame : bool;
  is_title : bool;                 (* shape == slide.shapes.title *)
  shape_text : text;               (* shape.text *)
  paragraphs : list text;          (* p.text for p in shape.text_frame.paragraphs *)
  has_table : bool;
  table_rows : list (list text)    (* cell.text for each cell of each row *)
}.

(** [slide.shapes] and [prs.slides] *)
Abbreviation Slide := (list Shape).
Abbreviation Presentation := (list (list Shape)).

(** One entry of [slides_data]. *)
Record SlideRecord := {
  slide_num : Z;
  title : text;
  content : text
}.

(** The paragraphs of a text frame that are not blank, stripped. *)
Definition paragraph_parts (ps : list text) : list text :=
  filter (fun t => Py.truthy t = true) (map Py.strip ps).

(** The rows of a table: the non-blank cells joined by [" | "]. *)
Definition row_parts (rows : list (list text)) : list text :=
  omap (fun cells =>
          let row_texts := filter (fun t => Py.truthy t = true) (map Py.strip cells) in
          match row_texts with
          | [] => None
          | _ :: _ => Some (Py.join (Py.u " | ") row_texts)
          end) rows.

(** The body of [for shape in slide.shapes], on the pair (title, content_parts). *)
Definition shape_step (acc : text * list text) (sh : Shape) : text * list text :=
  let '(title, parts) := acc in
  let '(title, parts) :=
    if has_text_frame sh then
      if is_title sh then (Py.strip (shape_text sh), parts)
      else (title, parts ++ paragraph_parts (paragraphs sh))
    else (title, parts) in
  if has_table sh then (title, parts ++ row_parts (table_rows sh))
  else (title, parts).

Definition slide_title_parts (sl : Slide) : text * list text :=
  fold_left shape_step sl ([], []).

Definition slide_title (sl : Slide) : text := fst (slide_title_parts sl).
Definition content_parts (sl : Slide) : list text := snd (slide_title_parts sl).

(** [footer_candidates[text] = footer_candidates.get(text, 0) + 1] for the
    parts shorter than 50 characters. *)
Definition count_part (fc : gmap text nat) (t : text) : gmap text nat :=
  if (length t <? 50)%nat then <[t := (default 0 (fc !! t) + 1)%nat]> fc else fc.

Record loop_state := {
  next_num : Z;                       (* enumerate(prs.slides, 1) *)
  footer_candidates : gmap text nat;
  slides_data : list SlideRecord
}.

(** The body of [for slide_num, slide in enumerate(prs.slides, 1)]. *)
Definition slide_step (st : loop_state) (sl : Slide) : loop_state :=
  let '(title, parts) := slide_title_parts sl in
  let fc := fold_left count_part parts (footer_candidates st) in
  let content := Py.join [Py.newline] parts in
  {| next_num := next_num st + 1;
     footer_candidates := fc;
     slides_data :=
       if Py.truthy title || Py.truthy content
       then slides_data st ++ [{| slide_num := next_num st; title := title; content := content |}]
       else slides_data st |}.

Definition scan (prs : Presentation) : loop_state :=
  fold_left slide_step prs
    {| next_num := 1; footer_candidates := ∅; slides_data := [] |}.

(** [{text for text, count in footer_candidates.items()
      if count >= total_slides * 0.5 and count > 2}]; the comparison with the
    float [total_slides * 0.5] is the integer comparison [total <= 2 * count]. *)
Definition footers_to_remove (fc : gmap text nat) (total_slides : nat) : gset text :=
  dom (filter (fun kv => (total_slides <= 2 * kv.2 /\ 2 < kv.2)%nat) fc).

Section WithUnicode.

Variable nd_table : char -> bool.

(** [page_num_pattern.match(line.strip())] *)
Definition is_page_number_line (line : text) : bool :=
  Re.re_match (Re.page_num_pattern nd_table) (Py.strip line).

(** The lines of a slide's content that are kept. *)
Definition filter_lines (footers : gset text) (lines : list text) : list text :=
  filter (fun line => (line ∉ footers) /\ is_page_number_line line = false) lines.

Definition clean_slide (footers : gset text) (s : SlideRecord) : SlideRecord :=
  {| slide_num := slide_num s;
     title := title s;
     content := Py.join [Py.newline]
                  (filter_lines footers (Py.split Py.newline (content s))) |}.

(** [extract_text_from_pptx], from the parsed presentation on. *)
Definition extract_text_from_pptx (prs : Presentation) : list SlideRecord :=
  let st := scan prs in
  let total_slides := length (slides_data st) in
  let footers := footers_to_remove (footer_candidates st) total_slides in
  map (clean_slide footers) (slides_data st).

End WithUnicode.

(** *** Notions used to state the extractor's properties *)

(** The lines of a slide's content. *)
Definition lines (s : SlideRecord) : list text := Py.split Py.newline (content s).

(** How often [t] is among the parts of a list. *)
Definition count (t : text) (parts : list text) : nat :=
  length (filter (fun x => x = t) parts).

(** How often [t] is a content part in the whole presentation, and on how
    many slides. *)
Definition occurrences (prs : Presentation) (t : text) : nat :=
  count t (concat (map content_parts prs)).

Definition slides_with (prs : Presentation) (t : text) : nat :=
  length (filter (fun sl => t ∈ content_parts sl) prs).

End Extractor.

(** ** Chunker: [chunk_slides] *)
Module Chunker.

Import Extractor.

(** What one slide adds to [chunk_text]. *)
Definition render_slide (s : SlideRecord) : text :=
  [Py.newline] ++ Py.u "[슬라이드 " ++ Py.str_of_int (slide_num s) ++ Py.u "]" ++ [Py.newline]
  ++ (if Py.truthy (title s) then Py.u "제목: " ++ title s ++ [Py.newline] else [])
  ++ (if Py.truthy (content s) then content s ++ [Py.newline] else []).

Arguments render_slide : simpl never.

(** [chunk_text] after the inner loop over a group. *)
Definition render_group (g : list SlideRecord) : text :=
  fold_left (fun chunk_text s => chunk_text ++ render_slide s) g [].

(** The body of [for i in range(0, len(slides_data), chunk_size)]. *)
Definition chunk_step (slides : list SlideRecord) (chunk_size : Z)
    (chunks : list text) (i : Z) : list text :=
  let chunk_text := render_group (Py.slice slides i (i + chunk_size)) in
  if Py.truthy (Py.strip chunk_text) then chunks ++ [Py.strip chunk_text] else chunks.

Definition chunk_slides (slides : list SlideRecord) (chunk_size : Z)
    : Py.result (list text) :=
  match Py.range 0 (Z.of_nat (length slides)) chunk_size with
  | Py.Raise e => Py.Raise e
  | Py.Ok idx => Py.Ok (fold_left (chunk_step slides chunk_size) idx [])
  end.

(** *** Notions used to state the chunker's properties *)

(** Consecutive groups of [k] elements, the last one possibly shorter. *)
Fixpoint groups_of {A} (fuel k : nat) (l : list A) : list (list A) :=
  match fuel with
  | O => []
  | S fuel' =>
    match l with
    | [] => []
    | _ :: _ => take k l :: groups_of fuel' k (drop k l)
    end
  end.

(** The text of the chunk made from a group. *)
Definition chunk_text (g : list SlideRecord) : text := Py.strip (render_group g).

(** Seven slides numbered 1 to 7. *)
Definition seven_slides : list SlideRecord :=
  map (fun n => {| slide_num := n; title := Py.u "T"; content := Py.str_of_int (10 * n) |})
      [1; 2; 3; 4; 5; 6; 7].

End Chunker.

(** ** Question Generator: [generate_quiz_from_chunk] *)
Module Generator.

(** A Python [float] as [json.loads] yields it. *)
Inductive pyfloat :=
  | Finite (q : QArith_base.Q)
  | Nan
  | Inf (negative : bool).

(** The values [json.loads] returns; an object keeps its keys in order. *)
#[local] Set Warnings "-register-all".
Inductive json :=
  | JNull
  | JBool (b : bool)
  | JInt (z : Z)
  | JFloat (f : pyfloat)
  | JStr (s : text)
  | JArr (items : list json)
  | JObj (fields : list (text * json)).
#[local] Set Warnings "register-all".

(** An entry of [validated_questions]: the values are stored as parsed. *)
Record QuestionRecord := {
  question : json;
  choices : json;
  answer_index : json;
  explanation : json;
  topic : json
}.

Definition type_error : Py.exn := Py.Exn Py.TypeError [].
Definition key_error (k : text) : Py.exn := Py.Exn Py.KeyError k.

Definition text_eqb (a b : text) : bool := bool_decide (a = b).

Fixpoint is_prefix (p s : text) : bool :=
  match p, s with
  | [], _ => true
  | _ :: _, [] => false
  | a :: p', b :: s' => (a =? b)%N && is_prefix p' s'
  end.

(** [needle in hay] for two [str]. *)
Fixpoint is_substring (needle hay : text) : bool :=
  is_prefix needle hay ||
  match hay with
  | [] => false
  | _ :: hay' => is_substring needle hay'
  end.

Fixpoint assoc (k : text) (fields : list (text * json)) : option json :=
  match fields with
  | [] => None
  | (k', v) :: rest => if text_eqb k k' then Some v else assoc k rest
  end.

(** [for q in questions]: the items of a list, the keys of a dict, the
    characters of a str; the other values are not iterable. *)
Definition iterate (v : json) : Py.result (list json) :=
  match v with
  | JArr items => Py.Ok items
  | JObj fields => Py.Ok (map (fun kv => JStr (fst kv)) fields)
  | JStr s => Py.Ok (map (fun c => JStr [c]) s)
  | _ => Py.Raise type_error
  end.

(** [key in q] for a [str] key. *)
Definition contains (q : json) (key : text) : Py.result bool :=
  match q with
  | JObj fields => Py.Ok (bool_decide (is_Some (assoc key fields)))
  | JArr items =>
    Py.Ok (existsb (fun x => match x with JStr s => text_eqb s key | _ => false end) items)
  | JStr s => Py.Ok (is_substring key s)
  | _ => Py.Raise type_error
  end.

(** [all(key in q for key in keys)]: stops at the first false. *)
Fixpoint has_all (q : json) (keys : list text) : Py.result bool :=
  match keys with
  | [] => Py.Ok true
  | key :: keys' =>
    match contains q key with
    | Py.Raise e => Py.Raise e
    | Py.Ok false => Py.Ok false
    | Py.Ok true => has_all q keys'
    end
  end.

(** [q[key]] for a [str] key: only a dict can be indexed by a str. *)
Definition getitem (q : json) (key : text) : Py.result json :=
  match q with
  | JObj fields =>
    match assoc key fields with
    | Some v => Py.Ok v
    | None => Py.Raise (key_error key)
    end
  | _ => Py.Raise type_error
  end.

(** [len(v)] *)
Definition len (v : json) : Py.result Z :=
  match v with
  | JArr items => Py.Ok (Z.of_nat (length items))
  | JStr s => Py.Ok (Z.of_nat (length s))
  | JObj fields => Py.Ok (Z.of_nat (length fields))
  | _ => Py.Raise type_error
  end.

Definition Qz (z : Z) : QArith_base.Q := QArith_base.inject_Z z.

(** [0 <= v] *)
Definition zero_le (v : json) : Py.result bool :=
  match v with
  | JInt z => Py.Ok (0 <=? z)
  | JBool _ => Py.Ok true
  | JFloat (Finite q) => Py.Ok (QArith_base.Qle_bool (Qz 0) q)
  | JFloat Nan => Py.Ok false
  | JFloat (Inf negative) => Py.Ok (negb negative)
  | _ => Py.Raise type_error
  end.

(** [v < n] for an [int] [n] *)
Definition less_than (v : json) (n : Z) : Py.result bool :=
  match v with
  | JInt z => Py.Ok (z <? n)
  | JBool b => Py.Ok ((if b then 1 else 0) <? n)
  | JFloat (Finite q) => Py.Ok (negb (QArith_base.Qle_bool (Qz n) q))
  | JFloat Nan => Py.Ok false
  | JFloat (Inf negative) => Py.Ok negative
  | _ => Py.Raise type_error
  end.

(** [v[:5]]: a list or a str is sliced; a dict cannot be. *)
Definition first_five (v : json) : Py.result json :=
  match v with
  | JArr items => Py.Ok (JArr (Py.slice_to items 5))
  | JStr s => Py.Ok (JStr (Py.slice_to s 5))
  | _ => Py.Raise type_error
  end.

(** [q.get('topic', '')] *)
Definition get_or_empty (q : json) (key : text) : Py.result json :=
  match q with
  | JObj fields => Py.Ok (default (JStr []) (assoc key fields))
  | _ => Py.Raise type_error
  end.

Definition bind {A B} (m : Py.result A) (f : A -> Py.result B) : Py.result B :=
  match m with
  | Py.Ok a => f a
  | Py.Raise e => Py.Raise e
  end.

#[local] Notation "x <- m ;; k" := (bind m (fun x => k))
  (at level 100, m at next level, right associativity).

Definition required_keys : list text :=
  [Py.u "question"; Py.u "choices"; Py.u "answer_index"; Py.u "explanation"].

(** The body of [for q in questions]: [Some] record when [q] is accepted,
    [None] when it is skipped; an exception leaves the loop. *)
Definition validate (q : json) : Py.result (option QuestionRecord) :=
  present <- has_all q required_keys ;;
  if negb present then Py.Ok None else
  cs <- getitem q (Py.u "choices") ;;
  n <- len cs ;;
  if negb (4 <=? n) then Py.Ok None else
  ai <- getitem q (Py.u "answer_index") ;;
  nonneg <- zero_le ai ;;
  if negb nonneg then Py.Ok None else
  cs' <- getitem q (Py.u "choices") ;;
  n' <- len cs' ;;
  below <- less_than ai n' ;;
  if negb below then Py.Ok None else
  qu <- getitem q (Py.u "question") ;;
  cs5 <- (c <- getitem q (Py.u "choices") ;; first_five c) ;;
  ai' <- getitem q (Py.u "answer_index") ;;
  ex <- getitem q (Py.u "explanation") ;;
  tp <- get_or_empty q (Py.u "topic") ;;
  Py.Ok (Some {| question := qu; choices := cs5; answer_index := ai';
                 explanation := ex; topic := tp |}).

Fixpoint validate_loop (qs : list json) (validated : list QuestionRecord)
    : Py.result (list QuestionRecord) :=
  match qs with
  | [] => Py.Ok validated
  | q :: qs' =>
    r <- validate q ;;
    validate_loop qs' (match r with Some rec => validated ++ [rec] | None => validated end)
  end.

(** The validation block of [generate_quiz_from_chunk], on the value of
    [json.loads(json_str)]. *)
Definition validate_questions (questions : json) : Py.result (list QuestionRecord) :=
  qs <- iterate questions ;;
  validate_loop qs [].

(** What the call of the model and the search for JSON in its reply give. *)
Inductive llm_reply :=
  | ApiError (e : Py.exn)        (* generate_content or response.text raises *)
  | NoJson                       (* neither a fenced json block nor a bracketed list *)
  | BadJson (e : Py.exn)         (* json.loads raises *)
  | Parsed (questions : json).   (* json.loads returns *)

(** [generate_quiz_from_chunk], from the reply on: every exception of the
    [try] block is caught and gives the empty list. *)
Definition generate_quiz_from_chunk (reply : llm_reply) : list QuestionRecord :=
  match reply with
  | ApiError _ => []
  | NoJson => []
  | BadJson _ => []
  | Parsed questions =>
    match validate_questions questions with
    | Py.Ok validated => validated
    | Py.Raise _ => []
    end
  end.

End Generator.

(** ** Firestore documents and the Job Tracker: [update_job_status] *)
Module Firestore.

Inductive value :=
  | VStr (s : text)
  | VInt (z : Z)
  | ServerTimestamp            (* the sentinel firestore.SERVER_TIMESTAMP *)
  | VTimestamp (t : Z).        (* a time the server has written *)

(** A document maps field names to values; a collection maps document
    identifiers to documents. *)
Abbreviation document := (gmap string value).
Abbreviation collection := (gmap text (gmap string value)).

(** The server replaces the sentinel by its time when it commits a write. *)
Definition resolve (now : Z) (v : value) : value :=
  match v with
  | ServerTimestamp => VTimestamp now
  | _ => v
  end.

(** [DocumentReference.update(field_updates)]: the given fields are written
    into the existing document and its other fields are kept; the call raises
    NotFound when the document does not exist. *)
Definition update (now : Z) (c : collection) (id : text) (field_updates : document)
    : Py.result collection :=
  match c !! id with
  | None => Py.Raise (Py.Exn Py.NotFound id)
  | Some doc => Py.Ok (<[id := (resolve now <$> field_updates) ∪ doc]> c)
  end.

End Firestore.

Module JobTracker.

Import Firestore.

(** [update_data], the dict that [update_job_status] builds: the three fixed
    fields, then [update_data.update(kwargs)]. *)
Definition update_data (status : text) (progress : Z) (kwargs : document) : document :=
  kwargs ∪ <["status" := VStr status]>
             (<["progress" := VInt progress]>
               (<["updatedAt" := ServerTimestamp]> ∅)).

(** [update_job_status(job_id, status, progress, **kwargs)] on the collection
    quizJobs. *)
Definition update_job_status (now : Z) (quizJobs : collection)
    (job_id : text) (status : text) (progress : Z) (kwargs : document)
    : Py.result collection :=
  update now quizJobs job_id (update_data status progress kwargs).

End JobTracker.

(** ** HTTP responses and the scratch files of the handlers *)
Module Http.

Inductive body :=
  | ErrorJson (error : text)                       (* {'error': ...} *)
  | QuizJson (quizId : text) (questionCount : Z)   (* {'success': True, 'quizId', 'questionCount'} *)
  | PdfJson                                        (* {'success': True, 'pdfBase64': ...} *)
  | PdfFile                                        (* send_file(pdf_path) *)
  | Preflight                                      (* the CORS preflight answer *)
  | ServerError.                                   (* Flask's answer to an exception that leaves the handler *)

Record Response := { status_code : Z; payload : body }.

End Http.

Module Scratch.

(** The scratch paths of the handlers: a temporary file made by
    [NamedTemporaryFile(suffix='.pptx')], a directory made by [mkdtemp()],
    both under a name the library picks, and the PDF that LibreOffice writes
    into the directory under the stem of the presentation's name. *)
Inductive path :=
  | TmpPptx (stem : N)
  | TmpDir (name : N)
  | PdfIn (dir : N) (stem : N).

#[export] Instance path_eq_dec : EqDecision path.
Proof. solve_decision. Defined.

Definition path_code (p : path) : N + N + N * N :=
  match p with
  | TmpPptx a => inl (inl a)
  | TmpDir d => inl (inr d)
  | PdfIn d a => inr (d, a)
  end.

Definition path_of_code (c : N + N + N * N) : path :=
  match c with
  | inl (inl a) => TmpPptx a
  | inl (inr d) => TmpDir d
  | inr (d, a) => PdfIn d a
  end.

#[export] Instance path_countable : Countable path.
Proof. apply (inj_countable' path_code path_of_code). by intros []. Defined.

(** The paths that exist. *)
Abbreviation files := (gset path).

(** [if os.path.exists(p): os.unlink(p)] (or [os.rmdir] of an emptied directory) *)
Definition remove_if_exists (p : path) (fs : files) : files := fs ∖ {[p]}.

End Scratch.

(** ** Conversion endpoints: [convert_pdf] and [convert_to_pdf_direct] *)
Module Convert.

Import Http Scratch.

(** How [subprocess.run([libreoffice ...], check=True, timeout=120)] ends:
    the time runs out, or the process exits with a return code, having
    written the PDF into the output directory or not. *)
Inductive subprocess_outcome :=
  | TimedOut
  | Exited (returncode : Z) (stderr : text) (pdf_written : bool).

(** The names [tempfile] picks for a request. *)
Record names := { pptx_stem : N; dir_name : N }.

Definition pptx_path (nm : names) : path := TmpPptx (pptx_stem nm).
Definition output_dir (nm : names) : path := TmpDir (dir_name nm).
(** [os.path.join(output_dir, os.path.basename(pptx_path).replace('.pptx', '.pdf'))] *)
Definition pdf_path (nm : names) : path := PdfIn (dir_name nm) (pptx_stem nm).

(** The [try] block around the subprocess, up to the test for the output
    file: the files afterwards, and whether the PDF is there or what was
    raised. *)
Definition run_libreoffice (nm : names) (out : subprocess_outcome) (fs : files)
    : files * Py.result bool :=
  let fs1 := fs ∪ {[output_dir nm]} in                 (* tempfile.mkdtemp() *)
  match out with
  | TimedOut => (fs1, Py.Raise (Py.Exn Py.TimeoutExpired []))
  | Exited rc stderr written =>
    let fs2 := if written then fs1 ∪ {[pdf_path nm]} else fs1 in
    if rc =? 0 then (fs2, Py.Ok (bool_decide (pdf_path nm ∈ fs2)))
    else (fs2, Py.Raise (Py.Exn Py.CalledProcessError stderr))
  end.

(** The three [except] clauses shared by the two handlers. *)
Definition conversion_error (e : Py.exn) : Response :=
  match Py.exn_kind_of e with
  | Py.TimeoutExpired =>
    {| status_code := 504; payload := ErrorJson (Py.u "PDF 변환 시간 초과 (120초)") |}
  | Py.CalledProcessError =>
    {| status_code := 500;
       payload := ErrorJson (Py.u "LibreOffice 변환 실패: " ++ Py.exn_text e) |}
  | _ => {| status_code := 500; payload := ErrorJson (Py.exn_text e) |}
  end.

Definition missing_output : Response :=
  {| status_code := 500;
     payload := ErrorJson (Py.u "PDF 변환 결과 파일을 찾을 수 없습니다.") |}.

(** *** [/convert-pdf] *)
Record upload := {
  is_options : bool;             (* request.method == 'OPTIONS' *)
  token_valid : bool;            (* verify_firebase_token(request) is not None *)
  has_file : bool                (* 'file' in request.files *)
}.

(** The handler returns its response and the files as it leaves them, with
    the callback it has registered with [resp.call_on_close].  A response
    built by [send_file] is a direct-passthrough response: the server is
    given the file wrapper itself as the iterable to send and to close, not
    the response, so the callbacks registered on the response are never
    run. *)
Record served := {
  response : Response;
  files_at_return : files;
  on_close : files -> files;
  direct_passthrough : bool
}.

Definition no_callback (fs : files) : files := fs.

(** [cleanup], registered on the successful response of [convert_pdf]. *)
Definition cleanup (nm : names) (fs : files) : files :=
  remove_if_exists (output_dir nm) (remove_if_exists (pdf_path nm) fs).

Definition convert_pdf (req : upload) (nm : names) (out : subprocess_outcome)
    (fs : files) : served :=
  if is_options req then
    {| response := {| status_code := 200; payload := Preflight |};
       files_at_return := fs; on_close := no_callback; direct_passthrough := false |}
  else if negb (token_valid req) then
    {| response := {| status_code := 401; payload := ErrorJson (Py.u "인증 실패") |};
       files_at_return := fs; on_close := no_callback; direct_passthrough := false |}
  else if negb (has_file req) then
    {| response := {| status_code := 400; payload := ErrorJson (Py.u "file이 필요합니다.") |};
       files_at_return := fs; on_close := no_callback; direct_passthrough := false |}
  else
    let fs0 := fs ∪ {[pptx_path nm]} in                (* NamedTemporaryFile, save *)
    let '(fs1, r) := run_libreoffice nm out fs0 in
    let fs2 := remove_if_exists (pptx_path nm) fs1 in  (* finally *)
    match r with
    | Py.Raise e =>
      {| response := conversion_error e; files_at_return := fs2;
         on_close := no_callback; direct_passthrough := false |}
    | Py.Ok false =>
      {| response := missing_output; files_at_return := fs2;
         on_close := no_callback; direct_passthrough := false |}
    | Py.Ok true =>
      {| response := {| status_code := 200; payload := PdfFile |};
         files_at_return := fs2; on_close := cleanup nm;
         direct_passthrough := true |}
    end.

(** *** [/convert-to-pdf-direct] *)
Inductive direct_request :=
  | NoPayload                    (* pptxBase64 absent or empty *)
  | BadBase64 (e : Py.exn)       (* base64.b64decode raises *)
  | Payload.                     (* base64 of a file *)

Definition convert_to_pdf_direct (req : direct_request) (nm : names)
    (out : subprocess_outcome) (fs : files) : served :=
  match req with
  | NoPayload =>
    {| response := {| status_code := 400;
                      payload := ErrorJson (Py.u "pptxBase64가 필요합니다.") |};
       files_at_return := fs; on_close := no_callback; direct_passthrough := false |}
  | BadBase64 e =>
    {| response := {| status_code := 500; payload := ErrorJson (Py.exn_text e) |};
       files_at_return := fs; on_close := no_callback; direct_passthrough := false |}
  | Payload =>
    let fs0 := fs ∪ {[pptx_path nm]} in                (* NamedTemporaryFile, write *)
    let '(fs1, r) := run_libreoffice nm out fs0 in
    match r with
    | Py.Raise e =>
      {| response := conversion_error e;
         files_at_return := remove_if_exists (pptx_path nm) fs1;
         on_close := no_callback; direct_passthrough := false |}
    | Py.Ok false =>
      {| response := missing_output;
         files_at_return := remove_if_exists (pptx_path nm) fs1;
         on_close := no_callback; direct_passthrough := false |}
    | Py.Ok true =>
      (* os.unlink(pdf_path); os.rmdir(output_dir); then the finally block *)
      {| response := {| status_code := 200; payload := PdfJson |};
         files_at_return :=
           remove_if_exists (pptx_path nm)
             (remove_if_exists (output_dir nm) (remove_if_exists (pdf_path nm) fs1));
         on_close := no_callback; direct_passthrough := false |}
    end
  end.

(** A POST with a valid token and a file. *)
Definition authorized_upload : upload :=
  {| is_options := false; token_valid := true; has_file := true |}.

(** The scratch files left once the response has been sent: the callback
    runs when the server closes the response, which it does not do for a
    direct-passthrough response. *)
Definition files_after (s : served) : files :=
  if direct_passthrough s then files_at_return s else on_close s (files_at_return s).

(** The scratch paths a request creates. *)
Definition scratch_of (nm : names) : files :=
  {[pptx_path nm; output_dir nm; pdf_path nm]}.

End Convert.

(** ** Pipeline Orchestrator: [process_pptx] *)
Module Pipeline.

Import Extractor Generator Firestore Http Scratch.

(** A stored presentation: [Presentation(path)] parses it or raises. *)
Inductive PptxFile :=
  | Corrupt (e : Py.exn)
  | Deck (prs : Presentation).

(** The JSON body of a request: a field is [None] when absent. *)
Record Request := {
  jobId : option text;
  storagePath : option text;
  userId : option text;
  folderName : option text;
  difficulty : option text;
  questionCount : option Z;
  tags : option (list text);
  keywords : option (list text)
}.

(** An entry of ['questions'] in the quiz document. *)
Record QuizQuestion := {
  q_id : text;
  q_type : text;
  q_text : json;
  q_choices : json;
  q_answer : json;
  q_explanation : json;
  q_topic : json
}.

(** [quiz_data], the document written to the collection quizzes. *)
Record QuizDocument := {
  quiz_title : text;
  quiz_type : text;
  quiz_tags : list text;
  questions : list QuizQuestion;
  creatorId : text;
  isPublic : bool;
  totalQuestions : Z;
  sourceType : text;
  slideCount : Z;
  quiz_keywords : list text;
  createdAt : Z;
  updatedAt : Z
}.

(** The steps of a run that read or change the world around it, in order. *)
Inductive event :=
  | JobUpdate (job_id : text) (data : document)     (* update_job_status *)
  | Extracted (slides_data : list SlideRecord)      (* extract_text_from_pptx returns *)
  | Generate (chunk : text) (validated : list QuestionRecord)
                                                    (* generate_quiz_from_chunk *)
  | QuizSet (quiz_id : text)                        (* quiz_ref.set(quiz_data) *)
  | BlobDelete (storage_path : text).               (* blob.delete() is called *)

(** The world a run changes. *)
Record World := {
  now : Z;                                  (* the Firestore server's time *)
  quizJobs : collection;                    (* the collection quizJobs *)
  quizzes : gmap text QuizDocument;         (* the collection quizzes *)
  bucket : gmap text PptxFile;              (* the Storage bucket *)
  scratch : files;                          (* local temporary files *)
  llm_calls : nat;                          (* calls of the model so far *)
  trace : list event
}.

(** What a run takes from outside: the model's reply to each call, the name
    [tempfile] picks, the identifier Firestore gives the new quiz, and what
    [blob.delete()] raises when it fails (the service account may not delete,
    the call does not get through). *)
Record Env := {
  llm : nat -> text -> text -> list text -> llm_reply;
  tmp_stem : N;
  auto_id : text;
  delete_error : option Py.exn
}.

Definition M (A : Type) : Type := World -> World * Py.result A.

Definition ret {A} (a : A) : M A := fun w => (w, Py.Ok a).
Definition raise {A} (e : Py.exn) : M A := fun w => (w, Py.Raise e).
Definition bind {A B} (m : M A) (f : A -> M B) : M B :=
  fun w => match m w with
           | (w1, Py.Ok a) => f a w1
           | (w1, Py.Raise e) => (w1, Py.Raise e)
           end.

(** [try: m finally: fin] *)
Definition try_finally {A} (m : M A) (fin : World -> World) : M A :=
  fun w => let '(w1, r) := m w in (fin w1, r).

#[local] Notation "x <- m ;; k" := (bind m (fun x => k))
  (at level 100, m at next level, right associativity).
#[local] Notation "m ;;; k" := (bind m (fun _ => k))
  (at level 100, right associativity).

Definition add_event (ev : event) (w : World) : World :=
  {| now := now w; quizJobs := quizJobs w; quizzes := quizzes w; bucket := bucket w;
     scratch := scratch w; llm_calls := llm_calls w; trace := trace w ++ [ev] |}.

Definition set_jobs (c : collection) (w : World) : World :=
  {| now := now w; quizJobs := c; quizzes := quizzes w; bucket := bucket w;
     scratch := scratch w; llm_calls := llm_calls w; trace := trace w |}.

Definition set_quizzes (q : gmap text QuizDocument) (w : World) : World :=
  {| now := now w; quizJobs := quizJobs w; quizzes := q; bucket := bucket w;
     scratch := scratch w; llm_calls := llm_calls w; trace := trace w |}.

Definition set_bucket (b : gmap text PptxFile) (w : World) : World :=
  {| now := now w; quizJobs := quizJobs w; quizzes := quizzes w; bucket := b;
     scratch := scratch w; llm_calls := llm_calls w; trace := trace w |}.

Definition set_scratch (fs : files) (w : World) : World :=
  {| now := now w; quizJobs := quizJobs w; quizzes := quizzes w; bucket := bucket w;
     scratch := fs; llm_calls := llm_calls w; trace := trace w |}.

Definition count_llm_call (w : World) : World :=
  {| now := now w; quizJobs := quizJobs w; quizzes := quizzes w; bucket := bucket w;
     scratch := scratch w; llm_calls := S (llm_calls w); trace := trace w |}.

(** The status strings. *)
Definition processing : text := Py.u "processing".
Definition completed : text := Py.u "completed".
Definition failed : text := Py.u "failed".

(** [update_job_status(...)] as a step of the run. *)
Definition job_update (job_id status : text) (progress : Z) (kwargs : document) : M unit :=
  fun w =>
    let w1 := add_event (JobUpdate job_id (JobTracker.update_data status progress kwargs)) w in
    match JobTracker.update_job_status (now w) (quizJobs w) job_id status progress kwargs with
    | Py.Ok c => (set_jobs c w1, Py.Ok tt)
    | Py.Raise e => (w1, Py.Raise e)
    end.

Definition message (m : text) : document := <["message" := VStr m]> ∅.
Definition error (m : text) : document := <["error" := VStr m]> ∅.

Definition truthy_field (o : option text) : bool :=
  match o with
  | Some s => Py.truthy s
  | None => false
  end.

Definition json_error (code : Z) (m : text) : Response :=
  {| status_code := code; payload := ErrorJson m |}.

Section Run.

Variable nd_table : char -> bool.

(** [int((i / n) * 60)] in the interpreter's double-precision arithmetic. *)
Variable scale60 : nat -> nat -> Z.

Variable env : Env.

(** [generate_quiz_from_chunk(chunk, difficulty, keywords)] as a step. *)
Definition generate (chunk difficulty : text) (kws : list text) : M (list QuestionRecord) :=
  fun w =>
    let validated :=
      generate_quiz_from_chunk (llm env (llm_calls w) chunk difficulty kws) in
    (add_event (Generate chunk validated) (count_llm_call w), Py.Ok validated).

(** [for i, chunk in enumerate(chunks)], from index [i] on, with
    [n = len(chunks)]. *)
Fixpoint generate_loop (job_id difficulty : text) (kws : list text) (question_count : Z)
    (n : nat) (chunks : list text) (i : nat) (all_questions : list QuestionRecord)
    : M (list QuestionRecord) :=
  match chunks with
  | [] => ret all_questions
  | chunk :: rest =>
    job_update job_id processing (25 + scale60 i n)
      (message (Py.u "퀴즈 생성 중... (" ++ Py.str_of_int (Z.of_nat i + 1) ++ Py.u "/"
                ++ Py.str_of_int (Z.of_nat n) ++ Py.u ")")) ;;;
    questions <- generate chunk difficulty kws ;;
    let all_questions := all_questions ++ questions in
    if question_count <=? Z.of_nat (length all_questions) then ret all_questions
    else generate_loop job_id difficulty kws question_count n rest (S i) all_questions
  end.

Definition quiz_question (i : nat) (q : QuestionRecord) : QuizQuestion :=
  {| q_id := Py.u "q" ++ Py.str_of_int (Z.of_nat i + 1);
     q_type := Py.u "multiple";
     q_text := question q;
     q_choices := choices q;
     q_answer := answer_index q;
     q_explanation := explanation q;
     q_topic := topic q |}.

Definition quiz_data (req : Request) (user_id : text) (slides : list SlideRecord)
    (all_questions : list QuestionRecord) (time : Z) : QuizDocument :=
  {| quiz_title := default (Py.u "퀴즈") (folderName req);
     quiz_type := Py.u "learning";
     quiz_tags := default [] (tags req);
     questions := imap quiz_question all_questions;
     creatorId := user_id;
     isPublic := false;
     totalQuestions := Z.of_nat (length all_questions);
     sourceType := Py.u "pptx";
     slideCount := Z.of_nat (length slides);
     quiz_keywords := default [] (keywords req);
     createdAt := time;
     updatedAt := time |}.

(** [quiz_ref = db.collection('quizzes').document(); quiz_ref.set(quiz_data)] *)
Definition quiz_set (doc : Z -> QuizDocument) : M unit :=
  fun w => (add_event (QuizSet (auto_id env))
              (set_quizzes (<[auto_id env := doc (now w)]> (quizzes w)) w), Py.Ok tt).

(** [blob.delete()] inside its own [try]: when the call raises, the
    exception is printed, the blob stays in the bucket and the run goes on. *)
Definition blob_delete (storage_path : text) : M unit :=
  fun w => (add_event (BlobDelete storage_path)
              (set_bucket (match delete_error env with
                           | None => delete storage_path (bucket w)
                           | Some _ => bucket w
                           end) w), Py.Ok tt).

(** [Presentation(tmp_path)] and the extraction. *)
Definition extract (file : PptxFile) : M (list SlideRecord) :=
  match file with
  | Corrupt e => raise e
  | Deck prs =>
    fun w => (add_event (Extracted (extract_text_from_pptx nd_table prs)) w,
              Py.Ok (extract_text_from_pptx nd_table prs))
  end.

Definition lift {A} (r : Py.result A) : M A := fun w => (w, r).

(** The inner [try] block of [process_pptx]. *)
Definition process_file (req : Request) (job_id storage_path user_id : text)
    (file : PptxFile) : M Response :=
  let kws := default [] (keywords req) in
  let question_count := default 10 (questionCount req) in
  job_update job_id processing 15 (message (Py.u "슬라이드 텍스트 추출 중...")) ;;;
  slides <- extract file ;;
  match slides with
  | [] =>
    job_update job_id failed 0 (error (Py.u "슬라이드에서 텍스트를 찾을 수 없습니다.")) ;;;
    ret (json_error 400 (Py.u "No text found in PPTX"))
  | _ :: _ =>
    chunks <- lift (Chunker.chunk_slides slides 3) ;;
    let keyword_info :=
      match kws with
      | [] => []
      | _ :: _ => Py.u " (키워드 " ++ Py.str_of_int (Z.of_nat (length kws)) ++ Py.u "개)"
      end in
    job_update job_id processing 25
      (message (Py.str_of_int (Z.of_nat (length slides)) ++ Py.u "개 슬라이드에서 "
                ++ Py.str_of_int (Z.of_nat (length chunks)) ++ Py.u "개 청크 생성됨"
                ++ keyword_info)) ;;;
    all_questions <- generate_loop job_id (default (Py.u "medium") (difficulty req)) kws
                       question_count (length chunks) chunks 0 [] ;;
    let all_questions := Py.slice_to all_questions question_count in
    match all_questions with
    | [] =>
      job_update job_id failed 0 (error (Py.u "문제 생성에 실패했습니다.")) ;;;
      ret (json_error 500 (Py.u "Failed to generate questions"))
    | _ :: _ =>
      job_update job_id processing 90 (message (Py.u "퀴즈 저장 중...")) ;;;
      quiz_set (quiz_data req user_id slides all_questions) ;;;
      blob_delete storage_path ;;;
      job_update job_id completed 100
        (<["message" := VStr (Py.u "퀴즈 생성 완료!")]>
          (<["quizId" := VStr (auto_id env)]>
            (<["questionCount" := VInt (Z.of_nat (length all_questions))]> ∅))) ;;;
      ret {| status_code := 200;
             payload := QuizJson (auto_id env) (Z.of_nat (length all_questions)) |}
    end
  end.

(** [blob.download_to_filename(tmp_file.name)] into the new temporary file. *)
Definition download (storage_path : text) : M PptxFile :=
  fun w =>
    let w1 := set_scratch (scratch w ∪ {[TmpPptx (tmp_stem env)]}) w in
    match bucket w !! storage_path with
    | Some file => (w1, Py.Ok file)
    | None => (w1, Py.Raise (Py.Exn Py.NotFound storage_path))
    end.

Definition unlink_tmp (w : World) : World :=
  set_scratch (remove_if_exists (TmpPptx (tmp_stem env)) (scratch w)) w.

(** The outer [try] block of [process_pptx]. *)
Definition process_request (req : Request) : M Response :=
  match jobId req, storagePath req, userId req with
  | Some job_id, Some storage_path, Some user_id =>
    if Py.truthy job_id && Py.truthy storage_path && Py.truthy user_id then
      job_update job_id processing 5 (message (Py.u "PPTX 다운로드 중...")) ;;;
      file <- download storage_path ;;
      try_finally (process_file req job_id storage_path user_id file) unlink_tmp
    else ret (json_error 400 (Py.u "Missing required fields"))
  | _, _, _ => ret (json_error 400 (Py.u "Missing required fields"))
  end.

(** [process_pptx]: the body is [None] when the request carries no JSON
    object, in which case [data.get] raises before [job_id] is bound, the
    [except] clause fails on [job_id] in turn and Flask answers 500. *)
Definition process_pptx (body : option Request) (w : World) : World * Response :=
  match body with
  | None => (w, {| status_code := 500; payload := ServerError |})
  | Some req =>
    match process_request req w with
    | (w1, Py.Ok resp) => (w1, resp)
    | (w1, Py.Raise e) =>
      if truthy_field (jobId req) then
        match job_update (default [] (jobId req)) failed 0 (error (Py.exn_text e)) w1 with
        | (w2, Py.Ok _) => (w2, json_error 500 (Py.exn_text e))
        | (w2, Py.Raise _) => (w2, {| status_code := 500; payload := ServerError |})
        end
      else (w1, json_error 500 (Py.exn_text e))
    end
  end.

End Run.

(** *** Notions used to state the orchestrator's properties *)

(** The events a run has added to the trace. *)
Definition new_events (w w' : World) : list event :=
  drop (length (trace w)) (trace w').

(** The validated questions of the generation calls, call by call, and the
    chunks the calls were made for. *)
Definition generated (evs : list event) : list (list QuestionRecord) :=
  omap (fun ev => match ev with Generate _ validated => Some validated | _ => None end) evs.

Definition generated_chunks (evs : list event) : list text :=
  omap (fun ev => match ev with Generate chunk _ => Some chunk | _ => None end) evs.

(** The identifiers of the quiz documents written. *)
Definition quiz_writes (evs : list event) : list text :=
  omap (fun ev => match ev with QuizSet quiz_id => Some quiz_id | _ => None end) evs.

(** The status updates made, oldest first. *)
Definition job_updates (evs : list event) : list (text * document) :=
  omap (fun ev => match ev with JobUpdate job_id data => Some (job_id, data) | _ => None end)
       evs.

(** The run has gone from [w] to [w'] adding the events [evs], without
    writing a quiz or touching the bucket. *)
Definition advances (w w' : World) (evs : list event) : Prop :=
  trace w' = trace w ++ evs /\ quizzes w' = quizzes w /\ bucket w' = bucket w
  /\ now w' = now w.

(** A status update that reports progress, and one that reports a failure. *)
Definition progress_event (job_id : text) (progress : Z) (ev : event) : Prop :=
  exists m, ev = JobUpdate job_id (JobTracker.update_data processing progress (message m)).

Definition failure_event (job_id : text) (ev : event) : Prop :=
  exists m, ev = JobUpdate job_id (JobTracker.update_data failed 0 (error m)).

(** The events of the generation loop. *)
Definition loop_event (job_id : text) (ev : event) : Prop :=
  (exists p, progress_event job_id p ev) \/ (exists chunk validated, ev = Generate chunk validated).

(** The job's record shows the given status and progress. *)
Definition job_shows (w : World) (job_id status : text) (progress : Z) : Prop :=
  exists doc, quizJobs w !! job_id = Some doc
           /\ doc !! "status" = Some (VStr status)
           /\ doc !! "progress" = Some (VInt progress).

(** An event that, if it is a status update reporting a failure, reports the
    progress 0. *)
Definition zero_on_failure (ev : event) : Prop :=
  match ev with
  | JobUpdate _ data =>
    data !! "status" = Some (VStr failed) -> data !! "progress" = Some (VInt 0)
  | _ => True
  end.

(** What holds of the events [levs] of a generation loop over [chunks] for
    the requested count [qc]: one call per visited chunk, in order; after a
    call that is not the last the accumulated count is still below [qc]; and
    chunks are left unvisited only when the count has reached [qc]. *)
Definition loop_facts (job_id : text) (qc : Z) (chunks : list text)
    (levs : list event) : Prop :=
  Forall (loop_event job_id) levs
  /\ generated_chunks levs `prefix_of` chunks
  /\ (forall pre suf, generated levs = pre ++ suf -> pre ≠ [] -> suf ≠ [] ->
        Z.of_nat (length (concat pre)) < qc)
  /\ (generated_chunks levs ≠ chunks ->
        qc <= Z.of_nat (length (concat (generated levs))))
  /\ (chunks ≠ [] -> generated levs ≠ []).

(** The ways a run on a JSON body ends: the quiz and job collections it
    started from, the world it leaves, its response and its events. *)
Inductive outcome (env : Env) (req : Request)
    (quizzes0 : gmap text QuizDocument) (jobs0 : collection)
    (w' : World) (resp : Response) (evs : list event) : Prop :=
  | Rejected :
      evs = [] -> quizzes w' = quizzes0 -> quizJobs w' = jobs0 ->
      resp = json_error 400 (Py.u "Missing required fields") ->
      outcome env req quizzes0 jobs0 w' resp evs
  | JobMissing (job : text) (e1 e2 : event) :
      jobId req = Some job -> jobs0 !! job = None ->
      evs = [e1; e2] -> progress_event job 5 e1 -> failure_event job e2 ->
      quizzes w' = quizzes0 -> quizJobs w' = jobs0 ->
      resp = {| status_code := 500; payload := ServerError |} ->
      outcome env req quizzes0 jobs0 w' resp evs
  | Failed (job : text) (pre : list event) (e : event) (m : text) :
      jobId req = Some job -> evs = pre ++ [e] ->
      Forall (fun ev => exists p, progress_event job p ev) pre ->
      failure_event job e ->
      quizzes w' = quizzes0 -> job_shows w' job failed 0 ->
      resp = json_error 500 m ->
      outcome env req quizzes0 jobs0 w' resp evs
  | NoText (job : text) (e1 e2 e3 : event) :
      jobId req = Some job -> evs = [e1; e2; Extracted []; e3] ->
      progress_event job 5 e1 -> progress_event job 15 e2 -> failure_event job e3 ->
      quizzes w' = quizzes0 -> job_shows w' job failed 0 ->
      resp = json_error 400 (Py.u "No text found in PPTX") ->
      outcome env req quizzes0 jobs0 w' resp evs
  | NoQuestions (job : text) (slides : list SlideRecord) (chunks : list text)
      (e1 e2 e3 e4 : event) (levs : list event) :
      jobId req = Some job ->
      slides ≠ [] -> Chunker.chunk_slides slides 3 = Py.Ok chunks ->
      evs = [e1; e2; Extracted slides; e3] ++ levs ++ [e4] ->
      progress_event job 5 e1 -> progress_event job 15 e2 -> progress_event job 25 e3 ->
      loop_facts job (default 10 (questionCount req)) chunks levs ->
      Py.slice_to (concat (generated levs)) (default 10 (questionCount req)) = [] ->
      failure_event job e4 ->
      quizzes w' = quizzes0 -> job_shows w' job failed 0 ->
      resp = json_error 500 (Py.u "Failed to generate questions") ->
      outcome env req quizzes0 jobs0 w' resp evs
  | Done (job storage_path : text) (slides : list SlideRecord) (chunks : list text)
      (e1 e2 e3 e4 e5 : event) (levs : list event) (doc : QuizDocument) :
      jobId req = Some job ->
      slides ≠ [] -> Chunker.chunk_slides slides 3 = Py.Ok chunks ->
      evs = [e1; e2; Extracted slides; e3] ++ levs
            ++ [e4; QuizSet (auto_id env); BlobDelete storage_path; e5] ->
      progress_event job 5 e1 -> progress_event job 15 e2 -> progress_event job 25 e3 ->
      loop_facts job (default 10 (questionCount req)) chunks levs ->
      Py.slice_to (concat (generated levs)) (default 10 (questionCount req)) ≠ [] ->
      progress_event job 90 e4 ->
      (exists kwargs, e5 = JobUpdate job (JobTracker.update_data completed 100 kwargs)
                   /\ kwargs !! "status" = None) ->
      questions doc
      = imap quiz_question
          (Py.slice_to (concat (generated levs)) (default 10 (questionCount req))) ->
      quizzes w' = <[auto_id env := doc]> quizzes0 ->
      job_shows w' job completed 100 ->
      resp = {| status_code := 200;
                payload := QuizJson (auto_id env) (Z.of_nat (length (questions doc))) |} ->
      outcome env req quizzes0 jobs0 w' resp evs.

End Pipeline.

(** ** Token check: [verify_firebase_token] *)
Module Auth.

Section Verify.

(** [fb_auth.verify_id_token]: the decoded claims of a token, or an
    exception for a token that is malformed, expired or revoked. *)
Variable claims : Type.
Variable verify_id_token : text -> Py.result claims.

(** [verify_firebase_token(req)], on [req.headers.get('Authorization')]
    ([None] when the header is absent, which the code reads as ['']). *)
Definition verify_firebase_token (authorization : option text) : option claims :=
  let auth_header := default [] authorization in
  if negb (Generator.is_prefix (Py.u "Bearer ") auth_header) then None
  else
    let token := drop 7 auth_header in
    match verify_id_token token with
    | Py.Ok decoded => Some decoded
    | Py.Raise _ => None
    end.

End Verify.

End Auth.

(** ** HTML rendering endpoint: [render_pdf] *)
Module Render.

Import Generator.

(** Truth value of a parsed JSON value. *)
Definition json_truthy (v : json) : bool :=
  match v with
  | JNull => false
  | JBool b => b
  | JInt z => negb (z =? 0)
  | JFloat (Finite q) => negb (QArith_base.Qeq_bool q (Qz 0))
  | JFloat _ => true
  | JStr s => Py.truthy s
  | JArr items => match items with [] => false | _ :: _ => true end
  | JObj fields => match fields with [] => false | _ :: _ => true end
  end.

(** [request.get_json(force=True)] followed by [data.get('html', '')]: an
    exception (the body is not JSON, or not an object), or the value of the
    field, [None] when the object has none. *)
Inductive html_body :=
  | Unreadable (e : Py.exn)
  | Body (html : option json).

Record request := {
  is_options : bool;               (* request.method == 'OPTIONS' *)
  authorization : option text;     (* the Authorization header *)
  body : html_body
}.

Inductive content :=
  | Preflight                      (* the CORS preflight answer *)
  | ErrorJson (error : text)       (* {'error': ...} *)
  | Pdf (pdf_bytes : list N).      (* send_file(io.BytesIO(pdf_bytes)) *)

Record reply := {
  status_code : Z;
  payload : content;
  allow_origin : bool              (* Access-Control-Allow-Origin: * is set *)
}.

(** The handler's reply, and the content handed to the Playwright block if
    the handler got that far. *)
Record served := {
  response : reply;
  rendered : option json
}.

Section Handler.

Variable claims : Type.
Variable verify_id_token : text -> Py.result claims.

(** Chromium through Playwright, from [launch] to [browser.close()]: the
    bytes of the PDF for a content, or an exception. *)
Variable print_pdf : json -> Py.result (list N).

(** The claims of a verified token are a dict that is never empty, so that
    [if not decoded] tests for [None]. *)
Definition render_pdf (req : request) : served :=
  if is_options req then
    {| response := {| status_code := 200; payload := Preflight; allow_origin := true |};
       rendered := None |}
  else
    match Auth.verify_firebase_token claims verify_id_token (authorization req) with
    | None =>
      {| response := {| status_code := 401; payload := ErrorJson (Py.u "인증 실패");
                        allow_origin := true |};
         rendered := None |}
    | Some _ =>
      match body req with
      | Unreadable e =>
        {| response := {| status_code := 500; payload := ErrorJson (Py.exn_text e);
                          allow_origin := true |};
           rendered := None |}
      | Body html =>
        let html_content := default (JStr []) html in
        if negb (json_truthy html_content) then
          {| response := {| status_code := 400;
                            payload := ErrorJson (Py.u "html 필드가 필요합니다.");
                            allow_origin := true |};
             rendered := None |}
        else
          match print_pdf html_content with
          | Py.Ok pdf_bytes =>
            {| response := {| status_code := 200; payload := Pdf pdf_bytes;
                              allow_origin := true |};
               rendered := Some html_content |}
          | Py.Raise e =>
            {| response := {| status_code := 500; payload := ErrorJson (Py.exn_text e);
                              allow_origin := true |};
               rendered := Some html_content |}
          end
      end
    end.

End Handler.

End Render.

(** ** Further notions used to state properties *)
Module Notions.

Import Extractor Generator Firestore Http Scratch Pipeline.

(** *** The extractor and the chunker *)

(** The records [slides_data] receives for the slides of [prs], the first of
    which is numbered [n]. *)
Fixpoint records_from (n : Z) (prs : Presentation) : list SlideRecord :=
  match prs with
  | [] => []
  | sl :: rest =>
    (if Py.truthy (slide_title sl) || Py.truthy (Py.join [Py.newline] (content_parts sl))
     then [{| slide_num := n; title := slide_title sl;
              content := Py.join [Py.newline] (content_parts sl) |}]
     else [])
    ++ records_from (n + 1) rest
  end.

(** [t] meets the extractor's test for a repeated footer. *)
Definition repeated_footer (prs : Presentation) (kept : nat) (t : text) : Prop :=
  (length t < 50)%nat /\ (3 <= occurrences prs t)%nat /\ (kept <= 2 * occurrences prs t)%nat.


(** An ASCII decimal digit. *)
Definition ascii_digit (c : char) : Prop := (48 <= c <= 57)%N.

(** [f"[슬라이드 {slide['slide_num']}]"], the marker that opens a slide's block
    in a chunk. *)
Definition marker (s : SlideRecord) : text :=
  Py.u "[슬라이드 " ++ Py.str_of_int (slide_num s) ++ Py.u "]".

(** *** The validation of candidates *)

(** The validation of a candidate returns, rather than raises. *)
Definition returns (q : json) : bool :=
  match validate q with
  | Py.Ok _ => true
  | Py.Raise _ => false
  end.

(** The record the validation stores for a candidate, if any. *)
Definition accepted (q : json) : option QuestionRecord :=
  match validate q with
  | Py.Ok (Some r) => Some r
  | _ => None
  end.

(** *** The steps of a run *)

(** Every run of the step [m] takes a world to one related to it by [I]. *)
Definition keeps {A} (I : World -> World -> Prop) (m : M A) : Prop :=
  forall w w' r, m w = (w', r) -> I w w'.

(** The storage paths [blob.delete()] was called for, oldest first. *)
Definition deletions (evs : list event) : list text :=
  omap (fun ev => match ev with BlobDelete storage_path => Some storage_path | _ => None end)
       evs.

Definition delete_all (paths : list text) (b : gmap text PptxFile) : gmap text PptxFile :=
  fold_left (fun b p => delete p b) paths b.

(** What a run on the body [req] does to the world, read off its events. *)
Definition run_inv (env : Env) (req : Request) (w w' : World) : Prop :=
  exists evs,
    trace w' = trace w ++ evs
    /\ now w' = now w
    /\ llm_calls w' = (llm_calls w + length (generated evs))%nat
    /\ bucket w' = match delete_error env with
                   | None => delete_all (deletions evs) (bucket w)
                   | Some _ => bucket w
                   end
    /\ Forall (fun p => storagePath req = Some p) (deletions evs)
    /\ dom (quizJobs w') = dom (quizJobs w)
    /\ (forall j, jobId req ≠ Some j -> quizJobs w' !! j = quizJobs w !! j)
    /\ Forall (fun jd => jobId req = Some jd.1) (job_updates evs)
    /\ match quiz_writes evs with
       | [] => quizzes w' = quizzes w
       | _ :: _ =>
         exists user slides q qs,
           userId req = Some user
           /\ quizzes w'
              = <[auto_id env := quiz_data req user slides (q :: qs) (now w)]> (quizzes w)
       end.

(** A field of the request body that is absent or the empty string. *)
Definition missing (field : option text) : Prop := field = None \/ field = Some [].

(** The run from [w] to [w'] has ended by marking the job failed: its last
    status update is addressed to the job and writes the status failed with
    the progress 0, and the job's record then shows them. *)
Definition marked_failed (w w' : World) (job_id : text) : Prop :=
  exists data,
    last (job_updates (new_events w w')) = Some (job_id, data)
    /\ data !! "status" = Some (VStr failed)
    /\ data !! "progress" = Some (VInt 0)
    /\ job_shows w' job_id failed 0.

(** The scratch files are as they were. *)
Definition same_scratch (w w' : World) : Prop := scratch w' = scratch w.

End Notions.

(** ** Sample inputs, used to run the model on concrete data *)
Module Samples.

Import Extractor.

(** A Unicode database with no decimal digits beyond ASCII. *)
Definition ascii_only : char -> bool := fun _ => false.

Definition title_box (t : string) : Shape :=
  {| has_text_frame := true; is_title := true; shape_text := Py.u t;
     paragraphs := [Py.u t]; has_table := false; table_rows := [] |}.

Definition text_box (ps : list string) : Shape :=
  {| has_text_frame := true; is_title := false; shape_text := [];
     paragraphs := map Py.u ps; has_table := false; table_rows := [] |}.

(** Four slides; "ACME Corp" is on three of them, "See appendix" on two. *)
Definition deck_footer : Presentation :=
  [ [title_box "Intro"; text_box ["Goals"; "See appendix"]; text_box ["ACME Corp"]];
    [title_box "Plan"; text_box ["Steps"; "See appendix"]; text_box ["ACME Corp"]];
    [title_box "Cost"; text_box ["Budget"]; text_box ["ACME Corp"]];
    [title_box "End"; text_box ["Thanks"]] ].

(** Five slides; the line "12" is on the first two only. *)
Definition deck_numbers : Presentation :=
  [ [title_box "Intro"; text_box ["Goals"; "12"]];
    [title_box "Plan"; text_box ["Steps"; "12"]];
    [title_box "Cost"; text_box ["Budget"]];
    [title_box "Risks"; text_box ["Delays"]];
    [title_box "End"; text_box ["Thanks"]] ].

(** One slide whose body holds the four page-number forms. *)
Definition deck_pages : Presentation :=
  [ [title_box "Intro"; text_box ["3"; "Page 3"; "Body"; "3 / 10"; "페이지 3"]] ].

(** Two slides; "Q&A" is twice on the first and once on the second. *)
Definition deck_repeat : Presentation :=
  [ [title_box "Intro"; text_box ["Q&A"]; text_box ["Q&A"]];
    [title_box "End"; text_box ["Q&A"]] ].

(** A table shape: a graphic frame, which has no text frame. *)
Definition table_box (rows : list (list text)) : Shape :=
  {| has_text_frame := false; is_title := false; shape_text := [];
     paragraphs := []; has_table := true; table_rows := rows |}.

(** [cell.text] of a cell of two paragraphs: the paragraphs joined by a line
    break. *)
Definition two_line_cell : text :=
  Py.u "ACME" ++ [Py.newline] ++ Py.u "Confidential".

(** Three slides; each has a table of one cell, the same on all three. *)
Definition deck_cells : Presentation :=
  [ [title_box "Intro"; table_box [[two_line_cell]]];
    [title_box "Plan"; table_box [[two_line_cell]]];
    [title_box "End"; table_box [[two_line_cell]]] ].

(** A candidate question with [n] choices and the answer index [ai]. *)
Definition candidate (n : nat) (ai : Z) : Generator.json :=
  Generator.JObj
    [ (Py.u "question", Generator.JStr (Py.u "Q"));
      (Py.u "choices", Generator.JArr (map (fun i => Generator.JStr (Py.str_of_int (Z.of_nat i))) (seq 1 n)));
      (Py.u "answer_index", Generator.JInt ai);
      (Py.u "explanation", Generator.JStr (Py.u "E")) ].

(** A world with one job record and two stored presentations, one of them
    without any text, and a model that answers every call with the same
    three valid questions, or with nothing at all. *)
Definition exact_scale60 (i n : nat) : Z := Z.of_nat (i * 60 / n).

Definition three_questions : Generator.llm_reply :=
  Generator.Parsed (Generator.JArr [candidate 5 0; candidate 5 1; candidate 4 2]).

Definition sample_env : Pipeline.Env :=
  {| Pipeline.llm := fun _ _ _ _ => three_questions;
     Pipeline.tmp_stem := 7%N;
     Pipeline.auto_id := Py.u "quiz1";
     Pipeline.delete_error := None |}.

Definition silent_env : Pipeline.Env :=
  {| Pipeline.llm := fun _ _ _ _ => Generator.NoJson;
     Pipeline.tmp_stem := 7%N;
     Pipeline.auto_id := Py.u "quiz1";
     Pipeline.delete_error := None |}.

(** The same model, in a project whose service account may not delete
    blobs. *)
Definition locked_env : Pipeline.Env :=
  {| Pipeline.llm := fun _ _ _ _ => three_questions;
     Pipeline.tmp_stem := 7%N;
     Pipeline.auto_id := Py.u "quiz1";
     Pipeline.delete_error := Some (Py.Exn Py.OtherError (Py.u "403 Forbidden")) |}.

Definition sample_world : Pipeline.World :=
  {| Pipeline.now := 100;
     Pipeline.quizJobs := <[Py.u "job1" := ∅]> ∅;
     Pipeline.quizzes := ∅;
     Pipeline.bucket :=
       <[Py.u "deck.pptx" := Pipeline.Deck deck_footer]>
         (<[Py.u "blank.pptx" := Pipeline.Deck [[]]]> ∅);
     Pipeline.scratch := ∅;
     Pipeline.llm_calls := 0;
     Pipeline.trace := [] |}.

Definition sample_request (storage_path : string) (question_count : Z) : Pipeline.Request :=
  {| Pipeline.jobId := Some (Py.u "job1");
     Pipeline.storagePath := Some (Py.u storage_path);
     Pipeline.userId := Some (Py.u "user1");
     Pipeline.folderName := None;
     Pipeline.difficulty := None;
     Pipeline.questionCount := Some question_count;
     Pipeline.tags := None;
     Pipeline.keywords := None |}.

(** The record of a job whose last update reported a failure. *)
Definition failed_record : gmap string Firestore.value :=
  <["status" := Firestore.VStr (Py.u "failed")]>
    (<["progress" := Firestore.VInt 0]>
      (<["updatedAt" := Firestore.VTimestamp 90]>
        (<["error" := Firestore.VStr (Py.u "boom")]> ∅))).

(** A request whose job id is the empty string, and one for a job that has
    no record. *)
Definition anonymous_request : Pipeline.Request :=
  {| Pipeline.jobId := Some [];
     Pipeline.storagePath := Some (Py.u "deck.pptx");
     Pipeline.userId := Some (Py.u "user1");
     Pipeline.folderName := None;
     Pipeline.difficulty := None;
     Pipeline.questionCount := None;
     Pipeline.tags := None;
     Pipeline.keywords := None |}.

Definition stray_request : Pipeline.Request :=
  {| Pipeline.jobId := Some (Py.u "job9");
     Pipeline.storagePath := Some (Py.u "deck.pptx");
     Pipeline.userId := Some (Py.u "user1");
     Pipeline.folderName := None;
     Pipeline.difficulty := None;
     Pipeline.questionCount := None;
     Pipeline.tags := None;
     Pipeline.keywords := None |}.

End Samples.

(* ===================================================================== *)
(** * Part II: properties *)
(* ===================================================================== *)

(** ** Strings: [split], [join] and [strip] *)
Section PyFacts.

Import Py.

Lemma split_not_nil (sep : char) (s : text) : split sep s ≠ [].
Proof.
  destruct s as [|c s]; simpl; [done|].
  destruct (c =? sep)%N; [done|]. by destruct (split sep s).
Qed.

(** No piece of a split holds the separator. *)
Lemma split_pieces (sep : char) (s : text) :
  Forall (fun l => sep ∉ l) (split sep s).
Proof.
  induction s as [|c s IH]; simpl.
  - repeat constructor. by intros ?%elem_of_nil.
  - destruct (N.eqb_spec c sep) as [->|Hne].
    + constructor; [by intros ?%elem_of_nil | done].
    + destruct (split sep s) as [|l ls]; simpl.
      * repeat constructor. intros [->| ?%elem_of_nil]%elem_of_cons; done.
      * inversion IH as [|? ? Hl Hls]; subst. constructor; [|done].
        intros [->|?]%elem_of_cons; done.
Qed.

Lemma split_app (sep : char) (a b : text) :
  split sep (a ++ sep :: b) = split sep a ++ split sep b.
Proof.
  induction a as [|c a IH]; simpl.
  - by rewrite N.eqb_refl.
  - destruct (c =? sep)%N; [by rewrite IH|].
    rewrite IH. pose proof (split_not_nil sep a). by destruct (split sep a).
Qed.

Lemma split_whole (sep : char) (s : text) : sep ∉ s -> split sep s = [s].
Proof.
  induction s as [|c s IH]; intros Hs; simpl; [done|].
  destruct (N.eqb_spec c sep) as [->|Hne].
  - exfalso. apply Hs. by left.
  - rewrite IH; [done|]. intros ?. apply Hs. by right.
Qed.

Lemma join_cons2 (sep p q : text) (ps : list text) :
  join sep (p :: q :: ps) = p ++ sep ++ join sep (q :: ps).
Proof. done. Qed.

(** Splitting a join gives the pieces of the parts, in order. *)
Lemma split_join (sep : char) (parts : list text) :
  parts ≠ [] ->
  split sep (join [sep] parts) = concat (map (split sep) parts).
Proof.
  induction parts as [|p ps IH]; [done|]; intros _.
  destruct ps as [|q ps].
  - simpl. by rewrite app_nil_r.
  - rewrite join_cons2. change ([sep] ++ ?x) with (sep :: x).
    rewrite split_app, IH; done.
Qed.

Lemma split_join_lines (sep : char) (lines : list text) :
  Forall (fun l => sep ∉ l) lines -> lines ≠ [] ->
  split sep (join [sep] lines) = lines.
Proof.
  intros Hall Hne. rewrite split_join; [|done]. clear Hne.
  induction Hall as [|l ls Hl Hls IH]; [done|].
  simpl. rewrite split_whole, IH; done.
Qed.

(** A part without the separator is one of the lines of the join. *)
Lemma elem_of_split_join (sep : char) (parts : list text) (t : text) :
  t ∈ parts -> sep ∉ t -> t ∈ split sep (join [sep] parts).
Proof.
  intros Hin Ht. rewrite split_join; [|by intros ->; apply elem_of_nil in Hin].
  induction Hin as [t ps|t p ps Hin IH]; simpl.
  - rewrite split_whole; [|done]. by left.
  - apply elem_of_app. right. by apply IH.
Qed.

Lemma lstrip_keeps (s : text) (c : char) :
  c ∈ s -> isspace c = false -> c ∈ lstrip s.
Proof.
  intros Hin Hc. induction Hin as [c s|c d s Hin IH]; simpl.
  - rewrite Hc. by left.
  - destruct (isspace d); [auto|]. right. done.
Qed.

(** [strip] keeps every character that is not white space. *)
Lemma strip_keeps (s : text) (c : char) :
  c ∈ s -> isspace c = false -> c ∈ strip s.
Proof.
  intros Hin Hc. unfold strip, rstrip.
  apply list_elem_of_In, in_rev. rewrite rev_involutive.
  apply list_elem_of_In, lstrip_keeps; [|done].
  apply list_elem_of_In. rewrite <- in_rev.
  by apply list_elem_of_In, lstrip_keeps.
Qed.

Lemma strip_truthy (s : text) (c : char) :
  c ∈ s -> isspace c = false -> truthy (strip s) = true.
Proof.
  intros Hin Hc. pose proof (strip_keeps s c Hin Hc) as H.
  destruct (strip s); [by apply elem_of_nil in H | done].
Qed.

End PyFacts.

(** ** Text Extractor *)
Section ExtractorFacts.

Import Py Extractor.

Variable nd_table : char -> bool.

(** *** The footer counts *)

Lemma count_app (t : text) (l1 l2 : list text) :
  count t (l1 ++ l2) = (count t l1 + count t l2)%nat.
Proof. unfold count. by rewrite filter_app, length_app. Qed.

Lemma count_cons (t x : text) (l : list text) :
  count t (x :: l) = ((if decide (x = t) then 1 else 0) + count t l)%nat.
Proof. unfold count. rewrite filter_cons. by destruct (decide (x = t)). Qed.

Lemma count_pos_elem_of (t : text) (l : list text) :
  (0 < count t l)%nat <-> t ∈ l.
Proof.
  induction l as [|x l IH]; [rewrite elem_of_nil; unfold count; simpl; lia|].
  rewrite count_cons, elem_of_cons. destruct (decide (x = t)) as [->|Hne].
  - split; [by left | lia].
  - simpl. rewrite IH. split; [by right | by intros [->|]].
Qed.

Definition short (t : text) : bool := (length t <? 50)%nat.

Lemma count_part_default (fc : gmap text nat) (x t : text) :
  default 0%nat (count_part fc x !! t)
  = (default 0%nat (fc !! t)
     + (if short t then if decide (x = t) then 1 else 0 else 0))%nat.
Proof.
  unfold count_part, short. destruct (decide (x = t)) as [->|Hne].
  - destruct (length t <? 50)%nat; [|lia].
    rewrite lookup_insert_eq. simpl. lia.
  - destruct (length x <? 50)%nat; [rewrite lookup_insert_ne by done|];
      destruct (length t <? 50)%nat; lia.
Qed.

Lemma fold_count_default (parts : list text) (fc : gmap text nat) (t : text) :
  default 0%nat (fold_left count_part parts fc !! t)
  = (default 0%nat (fc !! t) + (if short t then count t parts else 0))%nat.
Proof.
  revert fc. induction parts as [|x parts IH]; intros fc; simpl.
  - unfold count. simpl. destruct (short t); lia.
  - rewrite IH, count_part_default, count_cons. destruct (short t); lia.
Qed.

Lemma slide_step_parts (st : loop_state) (sl : Slide) :
  footer_candidates (slide_step st sl)
  = fold_left count_part (content_parts sl) (footer_candidates st).
Proof.
  unfold slide_step, content_parts. by destruct (slide_title_parts sl).
Qed.

Lemma fold_slides_default (prs : Presentation) (st : loop_state) (t : text) :
  default 0%nat (footer_candidates (fold_left slide_step prs st) !! t)
  = (default 0%nat (footer_candidates st !! t)
     + (if short t then count t (concat (map content_parts prs)) else 0))%nat.
Proof.
  revert st. induction prs as [|sl prs IH]; intros st; simpl.
  - unfold count. simpl. destruct (short t); lia.
  - rewrite IH, slide_step_parts, fold_count_default, count_app.
    destruct (short t); lia.
Qed.

(** The count kept for a short text is the number of its occurrences as a
    content part. *)
Lemma scan_count (prs : Presentation) (t : text) :
  default 0%nat (footer_candidates (scan prs) !! t)
  = if short t then occurrences prs t else 0%nat.
Proof.
  unfold scan. rewrite fold_slides_default. simpl. rewrite lookup_empty. done.
Qed.

Lemma elem_of_footers (fc : gmap text nat) (total : nat) (t : text) :
  t ∈ footers_to_remove fc total
  <-> (total <= 2 * default 0 (fc !! t) /\ 2 < default 0 (fc !! t))%nat.
Proof.
  unfold footers_to_remove. rewrite elem_of_dom. split.
  - intros [c Hc]. apply map_lookup_filter_Some in Hc as [Hc HP].
    rewrite Hc. simpl in *. done.
  - intros [H1 H2]. destruct (fc !! t) as [c|] eqn:Hc; simpl in *; [|lia].
    exists c. apply map_lookup_filter_Some. done.
Qed.

(** A slide that holds [t] holds it at least once. *)
Lemma slides_with_le_occurrences (prs : Presentation) (t : text) :
  (slides_with prs t <= occurrences prs t)%nat.
Proof.
  unfold slides_with, occurrences.
  induction prs as [|sl prs IH]; simpl; [done|].
  rewrite count_app, filter_cons.
  destruct (decide (t ∈ content_parts sl)) as [Hin|Hout]; simpl; [|lia].
  apply count_pos_elem_of in Hin. lia.
Qed.

(** *** The slides kept *)

Lemma slides_data_step (st : loop_state) (sl : Slide) :
  slides_data (slide_step st sl)
  = slides_data st ++
    (if truthy (slide_title sl) || truthy (join [newline] (content_parts sl))
     then [{| slide_num := next_num st; title := slide_title sl;
              content := join [newline] (content_parts sl) |}]
     else []).
Proof.
  unfold slide_step, slide_title, content_parts.
  destruct (slide_title_parts sl) as [ti parts]; simpl.
  destruct (truthy ti || truthy (join [newline] parts)); simpl; [done|].
  by rewrite app_nil_r.
Qed.

Lemma next_num_step (st : loop_state) (sl : Slide) :
  next_num (slide_step st sl) = next_num st + 1.
Proof. unfold slide_step. by destruct (slide_title_parts sl). Qed.

Lemma slides_data_mono (prs : Presentation) (st : loop_state) (s : SlideRecord) :
  s ∈ slides_data st -> s ∈ slides_data (fold_left slide_step prs st).
Proof.
  revert st. induction prs as [|sl prs IH]; intros st Hs; simpl; [done|].
  apply IH. rewrite slides_data_step. apply elem_of_app. by left.
Qed.

Lemma slides_data_length (prs : Presentation) (st : loop_state) :
  (length (slides_data (fold_left slide_step prs st))
   <= length (slides_data st) + length prs)%nat.
Proof.
  revert st. induction prs as [|sl prs IH]; intros st; simpl; [lia|].
  etransitivity; [apply IH|]. rewrite slides_data_step, length_app.
  destruct (_ || _); simpl; lia.
Qed.

(** No more slides are kept than the presentation has. *)
Lemma scan_length (prs : Presentation) :
  (length (slides_data (scan prs)) <= length prs)%nat.
Proof. unfold scan. etransitivity; [apply slides_data_length|]. simpl. lia. Qed.

Lemma join_truthy (c : char) (parts : list text) (t : text) :
  t ∈ parts -> t ≠ [] -> truthy (join [c] parts) = true.
Proof.
  intros Hin Ht. destruct parts as [|p [|q ps]].
  - by apply elem_of_nil in Hin.
  - apply list_elem_of_singleton in Hin as ->. simpl. by destruct p.
  - rewrite join_cons2. by destruct p.
Qed.

Lemma join_first_nonempty (sep p : text) (ps : list text) :
  p ≠ [] -> join sep (p :: ps) ≠ [].
Proof. intros Hp. destruct ps; simpl; [done|]. by destruct p. Qed.

Lemma truthy_true (t : text) : truthy t = true <-> t ≠ [].
Proof. by destruct t. Qed.

Lemma paragraph_parts_nonempty (ps : list text) :
  Forall (fun t => t ≠ []) (paragraph_parts ps).
Proof.
  apply Forall_forall. intros t Ht. unfold paragraph_parts in Ht.
  apply list_elem_of_filter in Ht as [Ht _]. by apply truthy_true.
Qed.

Lemma row_parts_nonempty (rows : list (list text)) :
  Forall (fun t => t ≠ []) (row_parts rows).
Proof.
  apply Forall_forall. intros t Ht. unfold row_parts in Ht.
  apply list_elem_of_omap in Ht as (cells & _ & Hrow).
  destruct (filter _ _) as [|r rs] eqn:Hf; [done|].
  apply (inj Some) in Hrow. rewrite <- Hrow. apply join_first_nonempty.
  assert (r ∈ filter (fun t => truthy t = true) (map strip cells)) as Hr
    by (rewrite Hf; by left).
  apply list_elem_of_filter in Hr as [Hr _]. by apply truthy_true.
Qed.

Lemma shape_step_nonempty (acc : text * list text) (sh : Shape) :
  Forall (fun t => t ≠ []) acc.2 -> Forall (fun t => t ≠ []) (shape_step acc sh).2.
Proof.
  destruct acc as [ti parts]. unfold shape_step. simpl. intros H.
  destruct (has_text_frame sh), (is_title sh), (has_table sh); simpl;
    repeat apply Forall_app_2;
    auto using paragraph_parts_nonempty, row_parts_nonempty.
Qed.

(** Content parts are never empty texts. *)
Lemma content_parts_nonempty (sl : Slide) (t : text) :
  t ∈ content_parts sl -> t ≠ [].
Proof.
  unfold content_parts, slide_title_parts.
  assert (forall acc, Forall (fun t => t ≠ []) acc.2 ->
            Forall (fun t => t ≠ []) (fold_left shape_step sl acc).2) as H.
  { induction sl as [|sh sl IH]; intros acc Hacc; simpl; [done|].
    apply IH. by apply shape_step_nonempty. }
  intros Hin. specialize (H ([], []) (Forall_nil_2 _)).
  rewrite Forall_forall in H. by apply H.
Qed.

(** The record kept for a slide that has content. *)
Lemma fold_slides_record (prs : Presentation) (st : loop_state) (i : nat)
    (sl : Slide) (t : text) :
  prs !! i = Some sl -> t ∈ content_parts sl ->
  exists s, s ∈ slides_data (fold_left slide_step prs st)
         /\ slide_num s = next_num st + Z.of_nat i
         /\ content s = join [newline] (content_parts sl).
Proof.
  revert st i. induction prs as [|sl0 prs IH]; intros st i Hi Ht; [done|].
  destruct i as [|i]; simpl in *.
  - injection Hi as ->.
    eexists. split; [apply slides_data_mono; rewrite slides_data_step|].
    + apply elem_of_app. right.
      rewrite (join_truthy newline _ t Ht (content_parts_nonempty _ _ Ht)).
      rewrite orb_true_r. by left.
    + simpl. split; [lia|done].
  - destruct (IH (slide_step st sl0) i Hi Ht) as (s & Hs & Hnum & Hc).
    exists s. rewrite next_num_step in Hnum. split; [done|]. split; [lia|done].
Qed.

(** *** The lines left in a cleaned slide *)

Lemma filter_lines_pieces (footers : gset text) (s : text) :
  Forall (fun l => newline ∉ l) (filter_lines nd_table footers (split newline s)).
Proof.
  apply Forall_forall. intros l Hl. unfold filter_lines in Hl.
  apply list_elem_of_filter in Hl as [_ Hl].
  pose proof (split_pieces newline s) as H. rewrite Forall_forall in H. by apply H.
Qed.

Lemma lines_clean_slide (footers : gset text) (s : SlideRecord) (l : text) :
  l ∈ lines (clean_slide nd_table footers s)
  <-> l ∈ filter_lines nd_table footers (lines s)
      \/ (l = [] /\ filter_lines nd_table footers (lines s) = []).
Proof.
  unfold lines at 1. unfold clean_slide. simpl. fold (lines s).
  destruct (filter_lines nd_table footers (lines s)) as [|k ks] eqn:Hf.
  - simpl. rewrite list_elem_of_singleton, elem_of_nil.
    split; [intros ->; by right | by intros [[]|[-> _]]].
  - rewrite split_join_lines; [|rewrite <- Hf; apply filter_lines_pieces|done].
    split; [by left | by intros [?|[_ ?]]].
Qed.

Lemma empty_not_page_number : is_page_number_line nd_table [] = false.
Proof. reflexivity. Qed.

(** No line of a cleaned slide is a page number or one of the footers. *)
Lemma lines_clean_slide_kept (footers : gset text) (s : SlideRecord) (l : text) :
  l ∈ lines (clean_slide nd_table footers s) ->
  is_page_number_line nd_table l = false /\ (l ∈ footers -> l = []).
Proof.
  intros [Hl|[-> _]]%lines_clean_slide.
  - unfold filter_lines in Hl. apply list_elem_of_filter in Hl as [[Hf Hp] _].
    split; [done|]. intros ?. done.
  - split; [apply empty_not_page_number | done].
Qed.

Lemma elem_of_extract (prs : Presentation) (s : SlideRecord) :
  s ∈ extract_text_from_pptx nd_table prs
  <-> exists s0, s0 ∈ slides_data (scan prs)
       /\ s = clean_slide nd_table
                (footers_to_remove (footer_candidates (scan prs))
                   (length (slides_data (scan prs)))) s0.
Proof.
  unfold extract_text_from_pptx. rewrite list_elem_of_In, in_map_iff.
  setoid_rewrite <- list_elem_of_In.
  split; intros (s0 & H1 & H2); exists s0; done.
Qed.

(** *** The two removal rules *)

Lemma page_number_examples :
  is_page_number_line nd_table (u "3") = true
  /\ is_page_number_line nd_table (u "Page 3") = true
  /\ is_page_number_line nd_table (u "3 / 10") = true
  /\ is_page_number_line nd_table (u "페이지 3") = true.
Proof.
  repeat split; vm_compute;
    repeat match goal with
           | |- context [nd_table ?c] => destruct (nd_table c)
           end; reflexivity.
Qed.

(** C6: a content line that matches the page-number pattern (the test the
    extractor applies, [page_num_pattern.match(line.strip())]) is in no
    slide's processed content, however often it recurs; in particular the
    lines "3", "Page 3", "3 / 10" and "페이지 3" are in none. *)
Theorem page_number_lines_removed (prs : Presentation) (s : SlideRecord) :
  s ∈ extract_text_from_pptx nd_table prs ->
  (forall l, is_page_number_line nd_table l = true -> l ∉ lines s)
  /\ (u "3" ∉ lines s) /\ (u "Page 3" ∉ lines s)
  /\ (u "3 / 10" ∉ lines s) /\ (u "페이지 3" ∉ lines s).
Proof.
  intros (s0 & _ & ->)%elem_of_extract.
  assert (forall l, is_page_number_line nd_table l = true ->
            l ∉ lines (clean_slide nd_table
                         (footers_to_remove (footer_candidates (scan prs))
                            (length (slides_data (scan prs)))) s0)) as Hgen.
  { intros l Hl Hin. apply lines_clean_slide_kept in Hin as [Hp _]. congruence. }
  destruct page_number_examples as (H1 & H2 & H3 & H4).
  repeat split; auto.
Qed.

(** C5, as the code has it, for a line [t] shorter than 50 characters, that
    is, a text without a line break.  If [t] is a content part at least 3
    times and on at least half of all slides, it is a footer and is a line of
    no slide's processed content.  If [t] is a content part of exactly 2
    slides, once in each, and is not a page-number line, it stays in the
    processed content of both. *)
Theorem footer_lines_removed (prs : Presentation) (t : text) :
  (length t < 50)%nat ->
  newline ∉ t ->
  ((3 <= occurrences prs t)%nat ->
   (length prs <= 2 * slides_with prs t)%nat ->
   t ∈ footers_to_remove (footer_candidates (scan prs)) (length (slides_data (scan prs)))
   /\ forall s, s ∈ extract_text_from_pptx nd_table prs -> t ∉ lines s)
  /\
  (slides_with prs t = 2%nat -> occurrences prs t = 2%nat ->
   is_page_number_line nd_table t = false ->
   forall i sl, prs !! i = Some sl -> t ∈ content_parts sl ->
     exists s, s ∈ extract_text_from_pptx nd_table prs
            /\ slide_num s = Z.of_nat i + 1 /\ t ∈ lines s).
Proof.
  intros Hshort Hline.
  assert (default 0%nat (footer_candidates (scan prs) !! t) = occurrences prs t)
    as Hcount.
  { rewrite scan_count. unfold short.
    by destruct (Nat.ltb_spec (length t) 50); [|lia]. }
  split.
  - intros Hocc Hhalf.
    assert (t ∈ footers_to_remove (footer_candidates (scan prs))
                  (length (slides_data (scan prs)))) as Hfooter.
    { apply elem_of_footers. rewrite Hcount.
      pose proof (scan_length prs). pose proof (slides_with_le_occurrences prs t). lia. }
    split; [done|].
    intros s (s0 & _ & ->)%elem_of_extract Hin.
    apply lines_clean_slide_kept in Hin as [_ Hnil].
    specialize (Hnil Hfooter). subst t.
    assert (0 < count [] (concat (map content_parts prs)))%nat as Hpos
      by (unfold occurrences in Hocc; lia).
    apply count_pos_elem_of, list_elem_of_In, in_concat in Hpos
      as (parts & Hparts & Hin).
    apply in_map_iff in Hparts as (sl & <- & _).
    by apply list_elem_of_In, content_parts_nonempty in Hin.
  - intros _ Hocc Hpage i sl Hi Hin.
    destruct (fold_slides_record prs
                {| next_num := 1; footer_candidates := ∅; slides_data := [] |}
                i sl t Hi Hin) as (s0 & Hs0 & Hnum & Hcontent).
    fold (scan prs) in Hs0. simpl in Hnum.
    eexists. split; [apply elem_of_extract; exists s0; split; [done|reflexivity]|].
    split; [simpl; lia|].
    apply lines_clean_slide. left.
    unfold filter_lines. apply list_elem_of_filter. split.
    + split; [|done]. rewrite elem_of_footers, Hcount. lia.
    + unfold lines. rewrite Hcontent. by apply elem_of_split_join.
Qed.

End ExtractorFacts.

(** *** The extractor on the sample decks *)
Section ExtractorSamples.

Import Py Extractor Samples.

Example extract_deck_pages :
  extract_text_from_pptx ascii_only deck_pages
  = [ {| slide_num := 1; title := u "Intro"; content := u "Body" |} ].
Proof. vm_compute. reflexivity. Qed.

Lemma page_number_lines_removed_witness :
  (forall l, is_page_number_line ascii_only l = true ->
     l ∉ lines {| slide_num := 1; title := u "Intro"; content := u "Body" |})
  /\ (u "3" ∉ lines {| slide_num := 1; title := u "Intro"; content := u "Body" |})
  /\ (u "Page 3" ∉ lines {| slide_num := 1; title := u "Intro"; content := u "Body" |})
  /\ (u "3 / 10" ∉ lines {| slide_num := 1; title := u "Intro"; content := u "Body" |})
  /\ (u "페이지 3" ∉ lines {| slide_num := 1; title := u "Intro"; content := u "Body" |}).
Proof.
  apply (page_number_lines_removed ascii_only deck_pages).
  rewrite extract_deck_pages. left.
Defined.

Example extract_deck_footer :
  map content (extract_text_from_pptx ascii_only deck_footer)
  = [ join [newline] [u "Goals"; u "See appendix"];
      join [newline] [u "Steps"; u "See appendix"];
      u "Budget"; u "Thanks" ].
Proof. vm_compute. reflexivity. Qed.

Lemma footer_lines_removed_witness :
  (u "ACME Corp" ∈ footers_to_remove (footer_candidates (scan deck_footer))
                     (length (slides_data (scan deck_footer)))
   /\ forall s, s ∈ extract_text_from_pptx ascii_only deck_footer ->
        u "ACME Corp" ∉ lines s)
  /\ (exists s, s ∈ extract_text_from_pptx ascii_only deck_footer
             /\ slide_num s = 1 /\ u "See appendix" ∈ lines s)
  /\ (exists s, s ∈ extract_text_from_pptx ascii_only deck_footer
             /\ slide_num s = 2 /\ u "See appendix" ∈ lines s).
Proof.
  assert (forall t : text, bool_decide (newline ∈ t) = false -> newline ∉ t)
    as Hplain by (intros t Ht Hin; by rewrite (bool_decide_eq_true_2 _ Hin) in Ht).
  assert (length (u "ACME Corp") < 50)%nat as H1 by (vm_compute; lia).
  assert (length (u "See appendix") < 50)%nat as H2 by (vm_compute; lia).
  assert (newline ∉ u "ACME Corp") as L1 by (apply Hplain; by vm_compute).
  assert (newline ∉ u "See appendix") as L2 by (apply Hplain; by vm_compute).
  destruct (footer_lines_removed ascii_only deck_footer (u "ACME Corp") H1 L1)
    as [Hfooter _].
  destruct (footer_lines_removed ascii_only deck_footer (u "See appendix") H2 L2)
    as [_ Hkept].
  split; [|split].
  - apply Hfooter; vm_compute; lia.
  - apply (Hkept eq_refl eq_refl) with (i := 0%nat) (sl := hd [] deck_footer).
    + reflexivity.
    + reflexivity.
    + apply list_elem_of_In. vm_compute. auto.
  - apply (Hkept eq_refl eq_refl) with (i := 1%nat) (sl := hd [] (tl deck_footer)).
    + reflexivity.
    + reflexivity.
    + apply list_elem_of_In. vm_compute. auto.
Defined.

(** C5 as stated fails, on three decks.
    - "12" is a short line of exactly 2 of the 5 slides of [deck_numbers], once
      on each, and is in the processed content of neither: it is a page-number
      line.
    - "Q&A" is a short line of exactly 2 slides of [deck_repeat], twice on the
      first, and is removed from both: the count is of occurrences, and it is
      3.
    - "ACME" is a short line of the content of all 3 slides of [deck_cells],
      the first line of the table cell that is the slide's content part, and
      it is still a line of the processed content of all 3: what is counted,
      and found to be a footer, is the whole cell text, what is filtered are
      the lines; the content is returned as it was. *)
Lemma footer_claim_counterexamples :
  ((length (u "12") < 50)%nat
   /\ slides_with deck_numbers (u "12") = 2%nat
   /\ occurrences deck_numbers (u "12") = 2%nat
   /\ map content (extract_text_from_pptx ascii_only deck_numbers)
      = [u "Goals"; u "Steps"; u "Budget"; u "Delays"; u "Thanks"]
   /\ Forall (fun s => u "12" ∉ lines s)
        (extract_text_from_pptx ascii_only deck_numbers))
  /\
  ((length (u "Q&A") < 50)%nat
   /\ slides_with deck_repeat (u "Q&A") = 2%nat
   /\ occurrences deck_repeat (u "Q&A") = 3%nat
   /\ extract_text_from_pptx ascii_only deck_repeat
      = [ {| slide_num := 1; title := u "Intro"; content := [] |};
          {| slide_num := 2; title := u "End"; content := [] |} ])
  /\
  ((length (u "ACME") < 50)%nat
   /\ length deck_cells = 3%nat
   /\ map lines (slides_data (scan deck_cells))
      = [ [u "ACME"; u "Confidential"]; [u "ACME"; u "Confidential"];
          [u "ACME"; u "Confidential"] ]
   /\ map content_parts deck_cells
      = [ [two_line_cell]; [two_line_cell]; [two_line_cell] ]
   /\ (length two_line_cell < 50)%nat
   /\ two_line_cell ∈ footers_to_remove (footer_candidates (scan deck_cells))
                        (length (slides_data (scan deck_cells)))
   /\ extract_text_from_pptx ascii_only deck_cells = slides_data (scan deck_cells)
   /\ map lines (extract_text_from_pptx ascii_only deck_cells)
      = [ [u "ACME"; u "Confidential"]; [u "ACME"; u "Confidential"];
          [u "ACME"; u "Confidential"] ]).
Proof.
  split; [|split].
  - split; [vm_compute; lia|]. split; [by vm_compute|]. split; [by vm_compute|].
    split; [by vm_compute|].
    apply (bool_decide_unpack _). by vm_compute.
  - split; [vm_compute; lia|]. split; [by vm_compute|]. split; by vm_compute.
  - split; [vm_compute; lia|]. split; [reflexivity|]. split; [by vm_compute|].
    split; [by vm_compute|]. split; [vm_compute; lia|].
    split; [|split; by vm_compute].
    apply elem_of_footers. rewrite scan_count. vm_compute. lia.
Qed.

End ExtractorSamples.

(** ** Chunker *)
Section ChunkerFacts.

Import Py Extractor Chunker.

Lemma fold_left_app_concat {A} (f : A -> text) (l : list A) (acc : text) :
  fold_left (fun a x => a ++ f x) l acc = acc ++ concat (map f l).
Proof.
  revert acc. induction l as [|x l IH]; intros acc; simpl.
  - by rewrite app_nil_r.
  - by rewrite IH, app_assoc.
Qed.

Lemma render_group_concat (g : list SlideRecord) :
  render_group g = concat (map render_slide g).
Proof. unfold render_group. by rewrite fold_left_app_concat. Qed.

(** Every slide contributes its marker line, which begins with a bracket. *)
Lemma render_slide_marker (s : SlideRecord) : 91%N ∈ render_slide s.
Proof.
  unfold render_slide. apply elem_of_app. right. apply elem_of_app. left.
  vm_compute. left.
Qed.

(** The text of a group that is not empty is not blank. *)
Lemma render_group_nonblank (g : list SlideRecord) :
  g ≠ [] -> truthy (strip (render_group g)) = true.
Proof.
  destruct g as [|s g]; [done|]. intros _.
  apply (strip_truthy _ 91%N); [|done].
  rewrite render_group_concat. cbn [map concat]. apply elem_of_app. left.
  apply render_slide_marker.
Qed.

(** The slice taken at an index of the loop. *)
Lemma slice_window {A} (l : list A) (i k : Z) :
  0 <= i <= Z.of_nat (length l) -> 0 < k ->
  slice l i (i + k) = take (Z.to_nat k) (drop (Z.to_nat i) l).
Proof.
  intros Hi Hk. unfold slice, clamp_index.
  destruct (Z.ltb_spec i 0); [lia|]. destruct (Z.ltb_spec (i + k) 0); [lia|].
  rewrite (Z.min_l i) by lia.
  destruct (Z.le_ge_cases (i + k) (Z.of_nat (length l))) as [Hle|Hge].
  - rewrite Z.min_l by lia. f_equal. lia.
  - rewrite Z.min_r by lia.
    rewrite !take_ge; [done| |]; rewrite length_drop; lia.
Qed.

Section Loop.

Variable slides : list SlideRecord.
Variable k : Z.
Hypothesis k_pos : 0 < k.

(** The loop of [chunk_slides] adds the text of one group after the other. *)
Lemma chunk_loop (fuel : nat) (i : Z) (acc : list text) :
  0 <= i ->
  fold_left (chunk_step slides k) (range_up fuel i (Z.of_nat (length slides)) k) acc
  = acc ++ map chunk_text (groups_of fuel (Z.to_nat k) (drop (Z.to_nat i) slides)).
Proof.
  revert i acc. induction fuel as [|fuel IH]; intros i acc Hi; simpl.
  - by rewrite app_nil_r.
  - destruct (Z.ltb_spec i (Z.of_nat (length slides))) as [Hlt|Hge].
    + destruct (drop (Z.to_nat i) slides) as [|s rest] eqn:Hdrop.
      { apply (f_equal length) in Hdrop. rewrite length_drop in Hdrop.
        simpl in Hdrop. lia. }
      simpl fold_left. rewrite IH by lia. unfold chunk_step.
      rewrite slice_window by lia. rewrite Hdrop.
      rewrite render_group_nonblank.
      2:{ assert (Z.to_nat k ≠ 0%nat) by lia. by destruct (Z.to_nat k). }
      rewrite <- app_assoc. simpl. do 3 f_equal.
      rewrite <- Hdrop, drop_drop. do 2 f_equal. lia.
    + rewrite drop_ge by lia. simpl. by rewrite app_nil_r.
Qed.

Lemma chunk_slides_groups :
  chunk_slides slides k
  = Ok (map chunk_text (groups_of (length slides) (Z.to_nat k) slides)).
Proof.
  unfold chunk_slides, range.
  destruct (Z.eqb_spec k 0); [lia|]. destruct (Z.ltb_spec 0 k); [|lia].
  rewrite chunk_loop by lia. simpl. do 3 f_equal. lia.
Qed.

End Loop.

(** *** The groups *)



(** The number of groups is the quotient rounded up. *)
Lemma groups_of_count {A} (fuel k : nat) (l : list A) :
  (1 <= k)%nat -> (length l <= fuel)%nat ->
  Z.of_nat (length (groups_of fuel k l))
  = (Z.of_nat (length l) + Z.of_nat k - 1) / Z.of_nat k.
Proof.
  intros Hk. revert l. induction fuel as [|fuel IH]; intros l Hl.
  - destruct l; [|simpl in Hl; lia]. simpl.
    symmetry. apply Z.div_small. lia.
  - destruct l as [|x l].
    { simpl. symmetry. apply Z.div_small. lia. }
    cbn [groups_of length]. rewrite Nat2Z.inj_succ, IH
      by (rewrite length_drop; simpl in *; lia).
    rewrite length_drop. cbn [length].
    destruct (Nat.le_gt_cases (S (length l)) k) as [Hle|Hgt].
    + replace (S (length l) - k)%nat with 0%nat by lia.
      rewrite (Z.div_small (Z.of_nat 0 + _ - 1)) by lia.
      apply (Z.div_unique _ _ _ (Z.of_nat (S (length l)) - 1)); lia.
    + replace (Z.of_nat (S (length l)) + Z.of_nat k - 1)
        with (Z.of_nat (S (length l) - k) + Z.of_nat k - 1 + 1 * Z.of_nat k) by lia.
      rewrite Z.div_add by lia. lia.
Qed.

Lemma range_up_bounds (fuel : nat) (j stop step i : Z) :
  0 < step -> i ∈ range_up fuel j stop step -> j <= i < stop.
Proof.
  intros Hstep. revert j. induction fuel as [|fuel IH]; intros j Hin; simpl in Hin.
  - by apply elem_of_nil in Hin.
  - destruct (Z.ltb_spec j stop); [|by apply elem_of_nil in Hin].
    apply elem_of_cons in Hin as [->|Hin]; [lia|]. apply IH in Hin. lia.
Qed.

Lemma range_up_length (slides : list SlideRecord) (k : Z) (fuel : nat) (i : Z) :
  0 < k -> 0 <= i ->
  length (range_up fuel i (Z.of_nat (length slides)) k)
  = length (groups_of fuel (Z.to_nat k) (drop (Z.to_nat i) slides)).
Proof.
  intros Hk. revert i. induction fuel as [|fuel IH]; intros i Hi; simpl; [done|].
  destruct (Z.ltb_spec i (Z.of_nat (length slides))).
  - destruct (drop (Z.to_nat i) slides) as [|s rest] eqn:Hdrop.
    { apply (f_equal length) in Hdrop. rewrite length_drop in Hdrop.
      simpl in Hdrop. lia. }
    simpl. rewrite IH by lia. rewrite <- Hdrop, drop_drop. do 4 f_equal. lia.
  - by rewrite drop_ge by lia.
Qed.


(** C9: for slides that are not empty and [k > 0], [chunk_slides] returns
    the quotient of the number of slides by [k], rounded up, many chunks:
    at every index the loop visits, the text of the group is not blank, so
    the branch that would leave a chunk out is never taken. *)
Theorem chunk_slides_count (slides : list SlideRecord) (k : Z) :
  slides ≠ [] -> 0 < k ->
  exists idx chunks,
    range 0 (Z.of_nat (length slides)) k = Ok idx
    /\ chunk_slides slides k = Ok chunks
    /\ Z.of_nat (length chunks) = (Z.of_nat (length slides) + k - 1) / k
    /\ length chunks = length idx
    /\ (forall i, i ∈ idx ->
          truthy (strip (render_group (slice slides i (i + k)))) = true).
Proof.
  intros _ Hk.
  exists (range_up (length slides) 0 (Z.of_nat (length slides)) k).
  exists (map chunk_text (groups_of (length slides) (Z.to_nat k) slides)).
  split.
  { unfold range. destruct (Z.eqb_spec k 0); [lia|].
    destruct (Z.ltb_spec 0 k); [|lia]. do 2 f_equal. lia. }
  split; [by apply chunk_slides_groups|].
  split.
  { rewrite length_map, groups_of_count by lia. by rewrite Z2Nat.id by lia. }
  split.
  { by rewrite length_map, range_up_length by lia. }
  intros i Hi. apply range_up_bounds in Hi; [|done].
  rewrite slice_window by lia. apply render_group_nonblank.
  assert (Z.to_nat k ≠ 0%nat) by lia.
  destruct (drop (Z.to_nat i) slides) eqn:Hdrop.
  - apply (f_equal length) in Hdrop. rewrite length_drop in Hdrop. simpl in Hdrop. lia.
  - by destruct (Z.to_nat k).
Qed.

(** For a chunk size that is not positive there are no groups: [range]
    raises on a zero step and is empty for a negative one. *)
Lemma chunk_slides_zero (slides : list SlideRecord) :
  exists e, chunk_slides slides 0 = Raise e /\ exn_kind_of e = ValueError.
Proof. eexists. split; reflexivity. Qed.

Lemma chunk_slides_negative (slides : list SlideRecord) (k : Z) :
  k < 0 -> chunk_slides slides k = Ok [].
Proof.
  intros Hk. unfold chunk_slides, range.
  destruct (Z.eqb_spec k 0); [lia|]. destruct (Z.ltb_spec 0 k); [lia|].
  replace (Z.to_nat (0 - Z.of_nat (length slides))) with 0%nat by lia. done.
Qed.

End ChunkerFacts.

Section ChunkerSamples.

Import Py Extractor Chunker.

Example chunk_seven_slides :
  chunk_slides seven_slides 3
  = Ok [ u "[슬라이드 1]
제목: T
10

[슬라이드 2]
제목: T
20

[슬라이드 3]
제목: T
30";
         u "[슬라이드 4]
제목: T
40

[슬라이드 5]
제목: T
50

[슬라이드 6]
제목: T
60";
         u "[슬라이드 7]
제목: T
70" ].
Proof. vm_compute. reflexivity. Qed.


Lemma chunk_slides_count_witness :
  exists idx chunks,
    range 0 7 3 = Ok idx
    /\ chunk_slides seven_slides 3 = Ok chunks
    /\ Z.of_nat (length chunks) = 3
    /\ length chunks = length idx
    /\ (forall i, i ∈ idx ->
          truthy (strip (render_group (slice seven_slides i (i + 3)))) = true).
Proof.
  assert (seven_slides ≠ []) as Hne by done.
  exact (chunk_slides_count seven_slides 3 Hne eq_refl).
Defined.

End ChunkerSamples.

(** ** Question Generator *)
Section GeneratorFacts.

Import Py Generator Samples.

Ltac bind_cases H :=
  repeat match type of H with
         | context [Generator.bind ?m _] =>
           let E := fresh "E" in destruct m eqn:E; cbn [Generator.bind] in H; [|discriminate H]
         | context [if negb ?b then _ else _] =>
           let E := fresh "E" in destruct b eqn:E; cbn [negb] in H; [|discriminate H]
         end.

Lemma has_all_dict (q : json) (keys : list text) :
  keys ≠ [] -> has_all q keys = Ok true ->
  (exists fields, q = JObj fields /\ Forall (fun k => is_Some (assoc k fields)) keys)
  \/ (forall k, getitem q k = Raise type_error).
Proof.
  intros Hne H. destruct q; try (destruct keys; [done|discriminate H]).
  - right. done.
  - right. done.
  - left. eexists. split; [done|]. clear Hne.
    induction keys as [|k keys IH]; [done|]. simpl in H.
    destruct (bool_decide (is_Some (assoc k fields))) eqn:Hk; [|discriminate H].
    apply bool_decide_eq_true in Hk. constructor; auto.
Qed.

(** What holds of a candidate that is accepted and of the record stored. *)
Lemma validate_accepted (q : json) (r : QuestionRecord) :
  validate q = Ok (Some r) ->
  exists fields cs n,
    q = JObj fields
    /\ assoc (u "question") fields = Some (question r)
    /\ assoc (u "choices") fields = Some cs
    /\ assoc (u "answer_index") fields = Some (answer_index r)
    /\ assoc (u "explanation") fields = Some (explanation r)
    /\ len cs = Ok n /\ 4 <= n
    /\ zero_le (answer_index r) = Ok true
    /\ less_than (answer_index r) n = Ok true
    /\ first_five cs = Ok (choices r).
Proof.
  unfold validate. intros H. bind_cases H.
  injection H as <-. cbn [question choices answer_index explanation].
  assert (required_keys ≠ []) as Hkeys by (unfold required_keys; discriminate).
  destruct (has_all_dict _ _ Hkeys E) as [(fields & -> & _)|Hraise].
  2:{ rewrite Hraise in E1. discriminate E1. }
  cbn [getitem] in *.
  destruct (assoc (u "question") fields) eqn:Hq; [|discriminate].
  destruct (assoc (u "choices") fields) eqn:Hc; [|discriminate].
  destruct (assoc (u "answer_index") fields) eqn:Ha; [|discriminate].
  destruct (assoc (u "explanation") fields) eqn:He; [|discriminate].
  simplify_eq. apply Z.leb_le in E3.
  eexists _, _, _. repeat split; eauto.
Qed.

(** The stored choices of an accepted candidate have 4 or 5 entries, and its
    answer index is at least 0. *)
Lemma validate_stored_choices (q : json) (r : QuestionRecord) :
  validate q = Ok (Some r) ->
  exists n, len (choices r) = Ok n /\ 4 <= n <= 5
       /\ zero_le (answer_index r) = Ok true.
Proof.
  intros (fields & cs & n & _ & _ & _ & _ & _ & Hlen & Hn & Hz & _ & Hfive)%validate_accepted.
  assert (forall A (l : list A), 4 <= Z.of_nat (length l) ->
            4 <= Z.of_nat (length (slice_to l 5)) <= 5) as Hslice.
  { intros A l Hl. unfold slice_to, slice, clamp_index.
    change (0 <? 0) with false. change (5 <? 0) with false. cbv iota.
    rewrite length_take, length_drop. lia. }
  destruct cs; try discriminate Hfive;
    cbn [first_five len] in Hfive, Hlen; injection Hfive as <-; injection Hlen as <-;
    eexists; (split; [reflexivity|]); split; auto.
Qed.

(** A candidate with fewer than 4 choices is never accepted. *)
Lemma validate_rejects_few_choices (q : json) (cs : json) (n : Z) :
  getitem q (u "choices") = Ok cs -> len cs = Ok n -> n < 4 ->
  forall r, validate q <> Ok (Some r).
Proof.
  intros Hcs Hlen Hn r (fields & cs' & n' & -> & _ & Hc & _ & _ & Hlen' & Hn' & _)%validate_accepted.
  cbn [getitem] in Hcs. rewrite Hc in Hcs. injection Hcs as ->.
  rewrite Hlen in Hlen'. injection Hlen' as <-. lia.
Qed.

(** A candidate whose answer index is the number of its choices (or more)
    is never accepted. *)
Lemma validate_rejects_index_at_length (q : json) (cs : json) (n ai : Z) :
  getitem q (u "choices") = Ok cs -> len cs = Ok n ->
  getitem q (u "answer_index") = Ok (JInt ai) -> n <= ai ->
  forall r, validate q <> Ok (Some r).
Proof.
  intros Hcs Hlen Hai Hn r
    (fields & cs' & n' & -> & _ & Hc & Ha & _ & Hlen' & _ & _ & Hlt & _)%validate_accepted.
  cbn [getitem] in Hcs, Hai. rewrite Hc in Hcs. rewrite Ha in Hai.
  injection Hcs as ->. injection Hai as Hai. rewrite Hai in Hlt.
  rewrite Hlen in Hlen'. injection Hlen' as <-.
  simpl in Hlt. injection Hlt as Hlt. apply Z.ltb_lt in Hlt. lia.
Qed.

Lemma validate_loop_elem (qs : list json) (acc out : list QuestionRecord)
    (r : QuestionRecord) :
  validate_loop qs acc = Ok out -> r ∈ out ->
  r ∈ acc \/ exists q, q ∈ qs /\ validate q = Ok (Some r).
Proof.
  revert acc. induction qs as [|q qs IH]; intros acc H Hr; simpl in H.
  - injection H as <-. by left.
  - destruct (validate q) as [[r'|]|] eqn:Hq; cbn [Generator.bind] in H; [| |done].
    + apply IH in H as [H|(q' & Hq' & Hv)]; [|right; exists q'; split; [by right|done]|done].
      apply elem_of_app in H as [H|H]; [by left|].
      apply list_elem_of_singleton in H as ->. right. exists q. split; [by left|done].
    + apply IH in H as [H|(q' & Hq' & Hv)]; [by left| |done].
      right. exists q'. split; [by right|done].
Qed.

(** Every record the generator returns was accepted by the validation. *)
Lemma generated_records_accepted (reply : llm_reply) (r : QuestionRecord) :
  r ∈ generate_quiz_from_chunk reply ->
  exists q, validate q = Ok (Some r).
Proof.
  destruct reply as [e| |e|questions]; simpl; try by intros ?%elem_of_nil.
  destruct (validate_questions questions) as [out|e] eqn:Hv; [|by intros ?%elem_of_nil].
  intros Hr. unfold validate_questions in Hv.
  destruct (iterate questions) as [qs|]; [|done]. cbn [Generator.bind] in Hv.
  destruct (validate_loop_elem qs [] out r Hv Hr) as [?%elem_of_nil|(q & _ & Hq)]; [done|].
  by exists q.
Qed.

(** C1 fails on the code: a candidate with 6 choices and answer index 5
    passes the test against the 6 choices, and is stored with its first 5
    choices and the index 5, which is outside them. *)
Theorem accepted_index_outside_stored_choices :
  generate_quiz_from_chunk (Parsed (JArr [candidate 6 5]))
  = [ {| question := JStr (u "Q");
         choices := JArr [JStr (u "1"); JStr (u "2"); JStr (u "3"); JStr (u "4"); JStr (u "5")];
         answer_index := JInt 5;
         explanation := JStr (u "E");
         topic := JStr [] |} ]
  /\ len (JArr [JStr (u "1"); JStr (u "2"); JStr (u "3"); JStr (u "4"); JStr (u "5")]) = Ok 5
  /\ less_than (JInt 5) 5 = Ok false.
Proof. split; [|split]; vm_compute; reflexivity. Qed.

(** The two rejections the claim names, on samples. *)
Example three_choices_rejected :
  generate_quiz_from_chunk (Parsed (JArr [candidate 3 0])) = [].
Proof. vm_compute. reflexivity. Qed.

Example index_at_length_rejected :
  generate_quiz_from_chunk (Parsed (JArr [candidate 5 5])) = [].
Proof. vm_compute. reflexivity. Qed.

End GeneratorFacts.

(** ** Job Tracker *)
Section JobTrackerFacts.

Import Py Firestore JobTracker.

Lemma update_data_lookup (status : text) (progress : Z) (kwargs : document)
    (k : string) :
  update_data status progress kwargs !! k
  = match kwargs !! k with
    | Some v => Some v
    | None =>
      if decide (k = "status") then Some (VStr status)
      else if decide (k = "progress") then Some (VInt progress)
      else if decide (k = "updatedAt") then Some ServerTimestamp
      else None
    end.
Proof.
  unfold update_data. rewrite lookup_union.
  destruct (kwargs !! k) as [v|]; simpl.
  - by destruct (_ !! k).
  - repeat case_decide; subst; simplify_map_eq; done.
Qed.

(** A job that has no document cannot be updated: the call raises and the
    collection stays as it is. *)
Lemma update_job_status_missing (now : Z) (quizJobs : collection) (job_id status : text)
    (progress : Z) (kwargs : document) :
  quizJobs !! job_id = None ->
  update_job_status now quizJobs job_id status progress kwargs
  = Raise (Exn NotFound job_id).
Proof. intros H. unfold update_job_status, update. by rewrite H. Qed.

(** The fields of a record after an update: those of [update_data], with
    the server's time for the sentinel, over those the record had. *)
Lemma merged_lookup (now : Z) (data doc : document) (k : string) :
  ((resolve now <$> data) ∪ doc) !! k
  = match data !! k with
    | Some v => Some (resolve now v)
    | None => doc !! k
    end.
Proof.
  rewrite lookup_union, lookup_fmap.
  destruct (data !! k); simpl; by destruct (doc !! k).
Qed.

(** C4, as the code has it: the call writes the supplied status, progress
    and extra fields and the server's time into the existing record; every
    field the call does not supply keeps the value it had, and the records of
    other jobs are untouched. *)
Theorem update_job_status_merges (now : Z) (quizJobs : collection)
    (job_id status : text) (progress : Z) (kwargs doc : document) :
  quizJobs !! job_id = Some doc ->
  exists doc',
    update_job_status now quizJobs job_id status progress kwargs
    = Ok (<[job_id := doc']> quizJobs)
    /\ (forall k v, kwargs !! k = Some v -> doc' !! k = Some (resolve now v))
    /\ (kwargs !! "status" = None -> doc' !! "status" = Some (VStr status))
    /\ (kwargs !! "progress" = None -> doc' !! "progress" = Some (VInt progress))
    /\ (kwargs !! "updatedAt" = None -> doc' !! "updatedAt" = Some (VTimestamp now))
    /\ (forall k, kwargs !! k = None ->
          k ≠ "status" -> k ≠ "progress" -> k ≠ "updatedAt" ->
          doc' !! k = doc !! k).
Proof.
  intros Hdoc. unfold update_job_status, update. rewrite Hdoc.
  eexists. split; [reflexivity|].
  repeat split.
  - intros k v Hk. by rewrite merged_lookup, update_data_lookup, Hk.
  - intros Hk. by rewrite merged_lookup, update_data_lookup, Hk.
  - intros Hk. by rewrite merged_lookup, update_data_lookup, Hk.
  - intros Hk. by rewrite merged_lookup, update_data_lookup, Hk.
  - intros k Hk H1 H2 H3. rewrite merged_lookup, update_data_lookup, Hk.
    by repeat case_decide.
Qed.

End JobTrackerFacts.

Section JobTrackerSamples.

Import Py Firestore JobTracker Samples.

Lemma update_job_status_merges_witness :
  exists doc',
    update_job_status 100 (<[u "job1" := failed_record]> ∅) (u "job1") (u "processing") 5
      (<["message" := VStr (u "retry")]> ∅)
    = Ok (<[u "job1" := doc']> (<[u "job1" := failed_record]> ∅))
    /\ (forall k v, (<["message" := VStr (u "retry")]> ∅ : document) !! k = Some v ->
          doc' !! k = Some (resolve 100 v))
    /\ ((<["message" := VStr (u "retry")]> ∅ : document) !! "status" = None ->
          doc' !! "status" = Some (VStr (u "processing")))
    /\ ((<["message" := VStr (u "retry")]> ∅ : document) !! "progress" = None ->
          doc' !! "progress" = Some (VInt 5))
    /\ ((<["message" := VStr (u "retry")]> ∅ : document) !! "updatedAt" = None ->
          doc' !! "updatedAt" = Some (VTimestamp 100))
    /\ (forall k, (<["message" := VStr (u "retry")]> ∅ : document) !! k = None ->
          k ≠ "status" -> k ≠ "progress" -> k ≠ "updatedAt" ->
          doc' !! k = failed_record !! k).
Proof.
  apply (update_job_status_merges 100 (<[u "job1" := failed_record]> ∅) (u "job1")).
  apply lookup_insert_eq.
Defined.

(** C4 as stated fails: the error written by an earlier update is still in
    the record after an update that supplies no error. *)
Lemma earlier_error_survives_update :
  exists c doc',
    update_job_status 100 (<[u "job1" := failed_record]> ∅) (u "job1") (u "processing") 5
      (<["message" := VStr (u "retry")]> ∅) = Ok c
    /\ c !! u "job1" = Some doc'
    /\ update_data (u "processing") 5 (<["message" := VStr (u "retry")]> ∅) !! "error" = None
    /\ doc' !! "error" = Some (VStr (u "boom"))
    /\ doc' !! "status" = Some (VStr (u "processing")).
Proof.
  eexists _, _. split; [reflexivity|]. split; [apply lookup_insert_eq|].
  split; [by vm_compute|]. split; by vm_compute.
Qed.

End JobTrackerSamples.

(** ** Conversion endpoints *)
Section ConvertFacts.

Import Py Http Scratch Convert.

(** A run that times out is answered with 504, one that exits with a code
    other than 0 with 500, and one that exits with 0 and leaves no PDF with
    500. *)
Lemma convert_pdf_status (nm : names) (fs : files) :
  status_code (response (convert_pdf authorized_upload nm TimedOut fs)) = 504
  /\ (forall rc stderr written, rc <> 0 ->
        status_code (response (convert_pdf authorized_upload nm
                                 (Exited rc stderr written) fs)) = 500)
  /\ (forall stderr, pdf_path nm ∉ fs ->
        status_code (response (convert_pdf authorized_upload nm
                                 (Exited 0 stderr false) fs)) = 500).
Proof.
  unfold convert_pdf, run_libreoffice. simpl. repeat split.
  - intros rc stderr written Hrc. by destruct (Z.eqb_spec rc 0).
  - intros stderr Hpdf. unfold pdf_path, pptx_path, output_dir in *.
    rewrite bool_decide_eq_false_2 by set_solver. done.
Qed.

Lemma convert_to_pdf_direct_status (nm : names) (fs : files) :
  status_code (response (convert_to_pdf_direct Payload nm TimedOut fs)) = 504
  /\ (forall rc stderr written, rc <> 0 ->
        status_code (response (convert_to_pdf_direct Payload nm
                                 (Exited rc stderr written) fs)) = 500)
  /\ (forall stderr, pdf_path nm ∉ fs ->
        status_code (response (convert_to_pdf_direct Payload nm
                                 (Exited 0 stderr false) fs)) = 500).
Proof.
  unfold convert_to_pdf_direct, run_libreoffice. simpl. repeat split.
  - intros rc stderr written Hrc. by destruct (Z.eqb_spec rc 0).
  - intros stderr Hpdf. unfold pdf_path, pptx_path, output_dir in *.
    rewrite bool_decide_eq_false_2 by set_solver. done.
Qed.

(** The temporary presentation is removed on every path. *)
Lemma convert_pdf_removes_pptx (nm : names) (out : subprocess_outcome) (fs : files) :
  pptx_path nm ∉ files_after (convert_pdf authorized_upload nm out fs).
Proof.
  unfold files_after, convert_pdf, run_libreoffice, cleanup, remove_if_exists,
    no_callback. simpl.
  destruct out as [|rc stderr written]; simpl; [set_solver|].
  destruct (rc =? 0); simpl; [|set_solver].
  destruct (bool_decide _); simpl; set_solver.
Qed.

Lemma convert_to_pdf_direct_removes_pptx (nm : names) (out : subprocess_outcome)
    (fs : files) :
  pptx_path nm ∉ files_after (convert_to_pdf_direct Payload nm out fs).
Proof.
  unfold files_after, convert_to_pdf_direct, run_libreoffice, remove_if_exists,
    no_callback. simpl.
  destruct out as [|rc stderr written]; simpl; [set_solver|].
  destruct (rc =? 0); simpl; [|set_solver].
  destruct (bool_decide _); simpl; set_solver.
Qed.

(** After a successful conversion [convert_to_pdf_direct] leaves none of its
    scratch paths; [convert_pdf] leaves the PDF and its directory, whose
    removal it has only registered on a response that is never closed. *)
Lemma convert_success_clean (nm : names) (stderr : text) (fs : files) :
  files_after (convert_pdf authorized_upload nm (Exited 0 stderr true) fs)
    = (fs ∖ {[pptx_path nm]}) ∪ {[output_dir nm; pdf_path nm]}
  /\ files_after (convert_to_pdf_direct Payload nm (Exited 0 stderr true) fs)
    = fs ∖ scratch_of nm.
Proof.
  unfold files_after, convert_pdf, convert_to_pdf_direct, run_libreoffice, cleanup,
    remove_if_exists, no_callback, scratch_of. simpl.
  rewrite bool_decide_eq_true_2 by set_solver. simpl.
  unfold pdf_path, pptx_path, output_dir. split; set_solver.
Qed.

(** The output directory stays behind whenever the conversion fails: on a
    timeout, on an exit code other than 0 and on a missing output file. *)
Lemma convert_failure_leaves_output_dir (nm : names) (out : subprocess_outcome)
    (fs : files) :
  status_code (response (convert_pdf authorized_upload nm out fs)) <> 200 ->
  output_dir nm ∈ files_after (convert_pdf authorized_upload nm out fs).
Proof.
  unfold files_after, convert_pdf, run_libreoffice, cleanup, remove_if_exists,
    no_callback. simpl. unfold pdf_path, pptx_path, output_dir.
  destruct out as [|rc stderr written]; simpl; [set_solver|].
  destruct (rc =? 0); simpl; [|destruct written; set_solver].
  destruct (bool_decide _); simpl; [done|]. destruct written; set_solver.
Qed.

Lemma direct_failure_leaves_output_dir (nm : names) (out : subprocess_outcome)
    (fs : files) :
  status_code (response (convert_to_pdf_direct Payload nm out fs)) <> 200 ->
  output_dir nm ∈ files_after (convert_to_pdf_direct Payload nm out fs).
Proof.
  unfold files_after, convert_to_pdf_direct, run_libreoffice, remove_if_exists,
    no_callback. simpl. unfold pdf_path, pptx_path, output_dir.
  destruct out as [|rc stderr written]; simpl; [set_solver|].
  destruct (rc =? 0); simpl; [|destruct written; set_solver].
  destruct (bool_decide _); simpl; [done|]. destruct written; set_solver.
Qed.

(** C3 fails on the code: a conversion that times out is answered with 504
    on both endpoints, with the temporary presentation removed, and the
    directory made by [mkdtemp] is still there once the response has been
    sent. *)
Theorem timeout_leaves_scratch_directory :
  status_code (response (convert_pdf authorized_upload
                           {| pptx_stem := 1; dir_name := 2 |} TimedOut ∅)) = 504
  /\ files_after (convert_pdf authorized_upload
                    {| pptx_stem := 1; dir_name := 2 |} TimedOut ∅) = {[TmpDir 2]}
  /\ status_code (response (convert_to_pdf_direct Payload
                              {| pptx_stem := 1; dir_name := 2 |} TimedOut ∅)) = 504
  /\ files_after (convert_to_pdf_direct Payload
                    {| pptx_stem := 1; dir_name := 2 |} TimedOut ∅) = {[TmpDir 2]}.
Proof.
  unfold files_after, convert_pdf, convert_to_pdf_direct, run_libreoffice,
    remove_if_exists, no_callback, pptx_path, output_dir. simpl.
  repeat split; set_solver.
Qed.

End ConvertFacts.

(** ** Pipeline Orchestrator *)
Section PipelineFacts.

Import Py Extractor Generator Firestore Http Scratch Pipeline.

Variable nd_table : char -> bool.
Variable scale60 : nat -> nat -> Z.
Variable env : Env.

(** *** Single steps *)

Lemma advances_refl (w : World) : advances w w [].
Proof. unfold advances. by rewrite app_nil_r. Qed.

Lemma advances_trans (w w1 w2 : World) (e1 e2 : list event) :
  advances w w1 e1 -> advances w1 w2 e2 -> advances w w2 (e1 ++ e2).
Proof.
  intros (Ht1 & Hq1 & Hb1 & Hn1) (Ht2 & Hq2 & Hb2 & Hn2). unfold advances.
  rewrite Ht2, Ht1, Hq2, Hq1, Hb2, Hb1, Hn2, Hn1, app_assoc. done.
Qed.

Lemma job_shows_has_job (w : World) (job_id status : text) (progress : Z) :
  job_shows w job_id status progress -> is_Some (quizJobs w !! job_id).
Proof. intros (doc & Hdoc & _). by exists doc. Qed.

(** An update of an existing record succeeds and the record shows it. *)
Lemma job_update_some (job_id status : text) (progress : Z) (kwargs : document)
    (w : World) :
  is_Some (quizJobs w !! job_id) ->
  kwargs !! "status" = None -> kwargs !! "progress" = None ->
  exists w1,
    job_update job_id status progress kwargs w = (w1, Ok tt)
    /\ advances w w1 [JobUpdate job_id (JobTracker.update_data status progress kwargs)]
    /\ job_shows w1 job_id status progress.
Proof.
  intros [doc Hdoc] Hs Hp.
  unfold job_update, JobTracker.update_job_status, update. rewrite Hdoc.
  eexists. split; [reflexivity|]. split; [done|].
  eexists. simpl. rewrite lookup_insert_eq. split; [reflexivity|].
  rewrite !merged_lookup, !update_data_lookup, Hs, Hp. done.
Qed.

(** An update of a missing record raises and changes nothing but the trace. *)
Lemma job_update_none (job_id status : text) (progress : Z) (kwargs : document)
    (w : World) :
  quizJobs w !! job_id = None ->
  exists w1 e,
    job_update job_id status progress kwargs w = (w1, Raise e)
    /\ advances w w1 [JobUpdate job_id (JobTracker.update_data status progress kwargs)]
    /\ quizJobs w1 = quizJobs w.
Proof.
  intros Hdoc. unfold job_update.
  rewrite update_job_status_missing by done. eexists _, _. done.
Qed.

Lemma message_keys (m : text) :
  message m !! "status" = None /\ message m !! "progress" = None.
Proof. done. Qed.

Lemma error_keys (m : text) :
  error m !! "status" = None /\ error m !! "progress" = None.
Proof. done. Qed.

Lemma progress_update (job_id : text) (progress : Z) (m : text) (w : World) :
  is_Some (quizJobs w !! job_id) ->
  exists w1 ev,
    job_update job_id processing progress (message m) w = (w1, Ok tt)
    /\ advances w w1 [ev] /\ progress_event job_id progress ev
    /\ job_shows w1 job_id processing progress.
Proof.
  intros Hjob.
  destruct (job_update_some job_id processing progress (message m) w Hjob
              (proj1 (message_keys m)) (proj2 (message_keys m)))
    as (w1 & Heq & Hadv & Hshows).
  exists w1. eexists. split; [exact Heq|]. split; [exact Hadv|].
  split; [by exists m|exact Hshows].
Qed.

Lemma failure_update (job_id : text) (m : text) (w : World) :
  is_Some (quizJobs w !! job_id) ->
  exists w1 ev,
    job_update job_id failed 0 (error m) w = (w1, Ok tt)
    /\ advances w w1 [ev] /\ failure_event job_id ev
    /\ job_shows w1 job_id failed 0.
Proof.
  intros Hjob.
  destruct (job_update_some job_id failed 0 (error m) w Hjob
              (proj1 (error_keys m)) (proj2 (error_keys m)))
    as (w1 & Heq & Hadv & Hshows).
  exists w1. eexists. split; [exact Heq|]. split; [exact Hadv|].
  split; [by exists m|exact Hshows].
Qed.

Lemma generate_step (chunk difficulty : text) (kws : list text) (w : World) :
  exists w1 validated,
    generate env chunk difficulty kws w = (w1, Ok validated)
    /\ advances w w1 [Generate chunk validated]
    /\ quizJobs w1 = quizJobs w.
Proof. unfold generate. eexists _, _. done. Qed.

(** *** The generation loop *)

(** The loop visits the chunks in order, one generation call per visited
    chunk, and stops after the first call that brings the accumulated
    questions to the requested count. *)
Lemma generate_loop_run (job difficulty : text) (kws : list text) (qc : Z) (n : nat)
    (chunks : list text) (i : nat) (acc : list QuestionRecord) (w : World) :
  is_Some (quizJobs w !! job) ->
  exists w' out levs,
    generate_loop scale60 env job difficulty kws qc n chunks i acc w = (w', Ok out)
    /\ advances w w' levs
    /\ is_Some (quizJobs w' !! job)
    /\ Forall (loop_event job) levs
    /\ out = acc ++ concat (generated levs)
    /\ generated_chunks levs `prefix_of` chunks
    /\ (forall pre suf, generated levs = pre ++ suf -> pre ≠ [] -> suf ≠ [] ->
          Z.of_nat (length (acc ++ concat pre)) < qc)
    /\ (generated_chunks levs ≠ chunks -> qc <= Z.of_nat (length out))
    /\ (chunks ≠ [] -> generated levs ≠ []).
Proof.
  revert i acc w. induction chunks as [|chunk rest IH]; intros i acc w Hjob.
  - exists w, acc, []. simpl. rewrite app_nil_r.
    split; [done|]. split; [apply advances_refl|]. split; [done|].
    split; [done|]. split; [done|]. split; [done|].
    split; [|split; done].
    intros pre suf Hps. by destruct pre.
  - cbn [generate_loop]. unfold Pipeline.bind at 1.
    destruct (progress_update job (25 + scale60 i n)
                (u "퀴즈 생성 중... (" ++ str_of_int (Z.of_nat i + 1) ++ u "/"
                 ++ str_of_int (Z.of_nat n) ++ u ")") w Hjob)
      as (w1 & ev1 & -> & Hadv1 & Hev1 & Hshows1).
    unfold Pipeline.bind at 1.
    destruct (generate_step chunk difficulty kws w1) as (w2 & v & -> & Hadv2 & Hjobs2).
    assert (is_Some (quizJobs w2 !! job)) as Hjob2.
    { rewrite Hjobs2. by eapply job_shows_has_job. }
    pose proof (advances_trans _ _ _ _ _ Hadv1 Hadv2) as Hadv12.
    assert (Forall (loop_event job) ([ev1] ++ [Generate chunk v])) as Hloop12.
    { apply Forall_cons_2; [left; by eexists|].
      apply Forall_cons_2; [right; by eexists _, _|]. apply Forall_nil_2. }
    destruct Hev1 as [m ->].
    destruct (Z.leb_spec qc (Z.of_nat (length (acc ++ v)))) as [Hstop|Hgo].
    + exists w2, (acc ++ v). eexists. split; [reflexivity|].
      split; [exact Hadv12|]. split; [done|]. split; [done|].
      cbn. rewrite app_nil_r. split; [done|].
      split; [by apply prefix_cons, prefix_nil|].
      split; [|split; [done|done]].
      intros [|p1 [|p2 pre]] [|s1 suf] Hps Hpre Hsuf; done.
    + destruct (IH (S i) (acc ++ v) w2 Hjob2)
        as (w' & out & levs & Heq & Hadv & Hjob' & Hloop & Hout & Hprefix
            & Hearly & Hreached & Hne).
      exists w', out. eexists. split; [exact Heq|].
      split; [exact (advances_trans _ _ _ _ _ Hadv12 Hadv)|].
      split; [done|]. split; [by apply Forall_app_2|].
      cbn. split; [by rewrite Hout, <- app_assoc|].
      split; [by apply prefix_cons|].
      split; [|split; [|done]].
      * intros pre suf Hps Hpre_ne Hsuf_ne.
        destruct pre as [|p pre]; [done|]. injection Hps as <- Hps.
        destruct pre as [|p2 pre].
        -- simpl. rewrite app_nil_r. done.
        -- change (concat (v :: p2 :: pre)) with (v ++ concat (p2 :: pre)).
           rewrite app_assoc. by apply (Hearly (p2 :: pre) suf).
      * intros Hneq. apply Hreached. intros Heq'. apply Hneq. f_equal. exact Heq'.
Qed.

(** *** The ways a run ends *)

Lemma loop_facts_intro (job : text) (qc : Z) (chunks : list text)
    (levs : list event) (out : list QuestionRecord) :
  Forall (loop_event job) levs ->
  out = [] ++ concat (generated levs) ->
  generated_chunks levs `prefix_of` chunks ->
  (forall pre suf, generated levs = pre ++ suf -> pre ≠ [] -> suf ≠ [] ->
     Z.of_nat (length ([] ++ concat pre)) < qc) ->
  (generated_chunks levs ≠ chunks -> qc <= Z.of_nat (length out)) ->
  (chunks ≠ [] -> generated levs ≠ []) ->
  loop_facts job qc chunks levs.
Proof. intros H1 -> H3 H4 H5 H6. by repeat split. Qed.

Lemma completed_keys (id : text) (n : Z) :
  (<["message" := VStr (u "퀴즈 생성 완료!")]>
     (<["quizId" := VStr id]> (<["questionCount" := VInt n]> ∅)) : document)
    !! "status" = None
  /\ (<["message" := VStr (u "퀴즈 생성 완료!")]>
        (<["quizId" := VStr id]> (<["questionCount" := VInt n]> ∅)) : document)
       !! "progress" = None.
Proof. done. Qed.

(** The inner [try] block, entered with the job's record in place. *)
Lemma process_file_run (req : Request) (job sp user : text) (file : PptxFile)
    (w : World) (e1 : event) :
  jobId req = Some job ->
  is_Some (quizJobs w !! job) -> progress_event job 5 e1 ->
  exists w' r tail,
    process_file nd_table scale60 env req job sp user file w = (w', r)
    /\ trace w' = trace w ++ tail
    /\ ((exists e e2, r = Raise e /\ tail = [e2] /\ progress_event job 15 e2
                   /\ quizzes w' = quizzes w /\ is_Some (quizJobs w' !! job))
        \/ (exists resp, r = Ok resp
              /\ forall w'' jobs0, quizzes w'' = quizzes w' -> quizJobs w'' = quizJobs w' ->
                   outcome env req (quizzes w) jobs0 w'' resp (e1 :: tail))).
Proof.
  intros Hid Hjob He1. unfold process_file. unfold Pipeline.bind at 1.
  destruct (progress_update job 15 (u "슬라이드 텍스트 추출 중...") w Hjob)
    as (w1 & e2 & -> & Hadv1 & He2 & Hsh1).
  pose proof (job_shows_has_job _ _ _ _ Hsh1) as Hjob1.
  destruct Hadv1 as (Ht1 & Hq1 & Hb1 & Hn1).
  destruct file as [e|prs].
  { (* a file that cannot be parsed *)
    exists w1, (Raise e), [e2]. split; [done|]. split; [done|].
    left. exists e, e2. done. }
  unfold Pipeline.bind at 1. cbn [extract].
  destruct (extract_text_from_pptx nd_table prs) as [|s slides'] eqn:Hslides.
  { (* no slide with text *)
    unfold Pipeline.bind at 1.
    destruct (failure_update job (u "슬라이드에서 텍스트를 찾을 수 없습니다.")
                (add_event (Extracted []) w1) Hjob1)
      as (w2 & e3 & -> & (Ht2 & Hq2 & Hb2 & Hn2) & He3 & Hsh2).
    eexists w2, _, [e2; Extracted []; e3]. split; [reflexivity|].
    split; [rewrite Ht2; simpl; rewrite Ht1, <- !app_assoc; done|].
    right. eexists. split; [reflexivity|]. intros w'' jobs0 Hq'' Hj''.
    apply (NoText _ _ _ _ _ _ _ job e1 e2 e3); try done.
    - rewrite Hq'', Hq2. simpl. done.
    - destruct Hsh2 as (doc & Hdoc & Hst). exists doc. by rewrite Hj''. }
  set (slides := s :: slides') in *.
  unfold Pipeline.bind at 1. unfold lift.
  rewrite chunk_slides_groups by done.
  set (chunks := map Chunker.chunk_text _).
  unfold Pipeline.bind at 1.
  set (w2 := add_event (Extracted slides) w1).
  assert (is_Some (quizJobs w2 !! job)) as Hjob2 by done.
  match goal with
  | |- context [job_update job processing 25 (message ?m) w2] =>
    destruct (progress_update job 25 m w2 Hjob2)
      as (w3 & e3 & -> & (Ht3 & Hq3 & Hb3 & Hn3) & He3 & Hsh3)
  end.
  pose proof (job_shows_has_job _ _ _ _ Hsh3) as Hjob3.
  unfold Pipeline.bind at 1.
  destruct (generate_loop_run job (default (u "medium") (difficulty req))
              (default [] (keywords req)) (default 10 (questionCount req))
              (length chunks) chunks 0 [] w3 Hjob3)
    as (w4 & out & levs & -> & (Ht4 & Hq4 & Hb4 & Hn4) & Hjob4 & Hloop & Hout
        & Hprefix & Hearly & Hreached & Hne).
  pose proof (loop_facts_intro _ _ _ _ _ Hloop Hout Hprefix Hearly Hreached Hne)
    as Hfacts.
  simpl in Hout. subst out.
  assert (Chunker.chunk_slides slides 3 = Ok chunks) as Hchunks
    by (by apply chunk_slides_groups).
  assert (slides ≠ []) as Hslides_ne by done.
  destruct (slice_to (concat (generated levs)) (default 10 (questionCount req)))
    as [|q final'] eqn:Hfinal.
  { (* no question *)
    unfold Pipeline.bind at 1.
    destruct (failure_update job (u "문제 생성에 실패했습니다.") w4 Hjob4)
      as (w5 & e4 & -> & (Ht5 & Hq5 & Hb5 & Hn5) & He4 & Hsh5).
    eexists w5, _, ([e2; Extracted slides; e3] ++ levs ++ [e4]).
    split; [reflexivity|].
    split.
    { rewrite Ht5, Ht4, Ht3. unfold w2. simpl. rewrite Ht1, <- !app_assoc. done. }
    right. eexists. split; [reflexivity|]. intros w'' jobs0 Hq'' Hj''.
    apply (NoQuestions _ _ _ _ _ _ _ job slides chunks e1 e2 e3 e4 levs); try done.
    - rewrite Hq'', Hq5, Hq4, Hq3. unfold w2. simpl. done.
    - destruct Hsh5 as (doc & Hdoc & Hst). exists doc. by rewrite Hj''. }
  (* the quiz is written *)
  set (final := q :: final') in *.
  unfold Pipeline.bind at 1.
  destruct (progress_update job 90 (u "퀴즈 저장 중...") w4 Hjob4)
    as (w5 & e4 & -> & (Ht5 & Hq5 & Hb5 & Hn5) & He4 & Hsh5).
  pose proof (job_shows_has_job _ _ _ _ Hsh5) as Hjob5.
  unfold Pipeline.bind at 1. unfold quiz_set at 1.
  unfold Pipeline.bind at 1. unfold blob_delete at 1.
  unfold Pipeline.bind at 1.
  match goal with
  | |- context [job_update job completed 100 ?kw ?w6] =>
    assert (is_Some (quizJobs w6 !! job)) as Hjob6 by done;
    destruct (job_update_some job completed 100 kw w6 Hjob6
                (proj1 (completed_keys _ _)) (proj2 (completed_keys _ _)))
      as (w7 & -> & (Ht7 & Hq7 & Hb7 & Hn7) & Hsh7)
  end.
  eexists w7, _, ([e2; Extracted slides; e3] ++ levs
                  ++ [e4; QuizSet (auto_id env); BlobDelete sp; _]).
  split; [reflexivity|].
  split.
  { rewrite Ht7. simpl. rewrite Ht5, Ht4, Ht3. unfold w2. simpl.
    rewrite Ht1, <- !app_assoc. done. }
  right. eexists. split; [reflexivity|]. intros w'' jobs0 Hq'' Hj''.
  eapply (Done _ _ _ _ _ _ _ job sp slides chunks e1 e2 e3 e4 _ levs
            (quiz_data req user slides final (now w5))); try done.
  - by rewrite Hfinal.
  - eexists. split; [reflexivity|]. apply completed_keys.
  - simpl. by rewrite Hfinal.
  - rewrite Hq'', Hq7. simpl. rewrite Hq5, Hq4, Hq3. unfold w2. simpl. by rewrite Hq1.
  - destruct Hsh7 as (doc & Hdoc & Hst). exists doc. by rewrite Hj''.
  - simpl. by rewrite length_imap.
Qed.

(** Every run on a JSON body ends in one of the ways of [outcome]. *)
Lemma process_pptx_outcome (req : Request) (w w' : World) (resp : Response) :
  process_pptx nd_table scale60 env (Some req) w = (w', resp) ->
  exists evs,
    trace w' = trace w ++ evs
    /\ outcome env req (quizzes w) (quizJobs w) w' resp evs.
Proof.
  unfold process_pptx, process_request. intros Hrun.
  assert (forall r : Response,
            (w, r) = (w', resp) -> r = json_error 400 (u "Missing required fields") ->
            exists evs, trace w' = trace w ++ evs
              /\ outcome env req (quizzes w) (quizJobs w) w' resp evs) as Hrej.
  { intros r [= <- <-] ->. exists []. split; [by rewrite app_nil_r|]. by apply Rejected. }
  destruct (jobId req) as [job|] eqn:Hj; [|eapply Hrej; [exact Hrun|reflexivity]].
  destruct (storagePath req) as [sp|]; [|eapply Hrej; [exact Hrun|reflexivity]].
  destruct (userId req) as [user|]; [|eapply Hrej; [exact Hrun|reflexivity]].
  destruct (truthy job && truthy sp && truthy user) eqn:Htruthy; [|eapply Hrej; [exact Hrun|reflexivity]].
  clear Hrej.
  assert (truthy job = true) as Hjob_truthy by (by destruct (truthy job)).
  change (default [] (Some job)) with job in Hrun.
  cbn [truthy_field] in Hrun. rewrite Hjob_truthy in Hrun.
  unfold Pipeline.bind at 1 in Hrun.
  destruct (quizJobs w !! job) as [doc0|] eqn:Hdoc.
  2:{ (* no record for the job *)
    destruct (job_update_none job processing 5 (message (u "PPTX 다운로드 중...")) w Hdoc)
      as (w1 & e & Heq1 & (Ht1 & Hq1 & Hb1 & Hn1) & Hjobs1).
    rewrite Heq1 in Hrun.
    assert (quizJobs w1 !! job = None) as Hdoc1 by (by rewrite Hjobs1).
    destruct (job_update_none job failed 0 (error (exn_text e)) w1 Hdoc1)
      as (w2 & e' & Heq2 & (Ht2 & Hq2 & Hb2 & Hn2) & Hjobs2).
    rewrite Heq2 in Hrun. injection Hrun as <- <-.
    eexists [_; _]. split; [rewrite Ht2, Ht1, <- app_assoc; done|].
    eapply (JobMissing _ _ _ _ _ _ _ job); try done.
    - by eexists.
    - by eexists.
    - by rewrite Hq2.
    - by rewrite Hjobs2. }
  assert (is_Some (quizJobs w !! job)) as Hjob by (by exists doc0).
  destruct (progress_update job 5 (u "PPTX 다운로드 중...") w Hjob)
    as (w1 & e1 & Heq1 & (Ht1 & Hq1 & Hb1 & Hn1) & He1 & Hsh1).
  rewrite Heq1 in Hrun.
  pose proof (job_shows_has_job _ _ _ _ Hsh1) as Hjob1.
  unfold Pipeline.bind at 1 in Hrun. unfold download at 1 in Hrun.
  set (w1' := set_scratch _ w1) in Hrun.
  assert (is_Some (quizJobs w1' !! job)) as Hjob1' by done.
  destruct (bucket w1 !! sp) as [file|] eqn:Hfile.
  2:{ (* no such object in the bucket *)
    cbn [exn_text] in Hrun.
    destruct (failure_update job sp w1' Hjob1')
      as (w2 & e2 & Heq2 & (Ht2 & Hq2 & Hb2 & Hn2) & He2 & Hsh2).
    rewrite Heq2 in Hrun. injection Hrun as <- <-.
    exists [e1; e2]. split; [rewrite Ht2; simpl; rewrite Ht1, <- app_assoc; done|].
    apply (Failed _ _ _ _ _ _ _ job [e1] e2 sp); try done.
    - apply Forall_cons_2; [by eexists|done].
    - rewrite Hq2. simpl. done. }
  unfold try_finally in Hrun.
  destruct (process_file_run req job sp user file w1' e1 Hj Hjob1' He1)
    as (w2 & r & tail & Heq2 & Ht2 & [(e & e2 & -> & -> & He2 & Hq2 & Hjob2)
                                      |(resp' & -> & Hout)]);
    rewrite Heq2 in Hrun.
  - (* the file cannot be parsed *)
    assert (is_Some (quizJobs (unlink_tmp env w2) !! job)) as Hjob2' by done.
    destruct (failure_update job (exn_text e) (unlink_tmp env w2) Hjob2')
      as (w3 & e3 & Heq3 & (Ht3 & Hq3 & Hb3 & Hn3) & He3 & Hsh3).
    rewrite Heq3 in Hrun. injection Hrun as <- <-.
    exists [e1; e2; e3]. split.
    { rewrite Ht3. simpl. rewrite Ht2. simpl. rewrite Ht1, <- !app_assoc. done. }
    apply (Failed _ _ _ _ _ _ _ job [e1; e2] e3 (exn_text e)); try done.
    + apply Forall_cons_2; [by eexists|]. apply Forall_cons_2; [by eexists|done].
    + rewrite Hq3. simpl. rewrite Hq2. simpl. done.
  - (* the inner block returns *)
    injection Hrun as <- <-.
    exists (e1 :: tail). split.
    { simpl. rewrite Ht2. simpl. rewrite Ht1, <- app_assoc. done. }
    replace (quizzes w) with (quizzes w1') by (simpl; done).
    by apply Hout.
Qed.

(** *** Facts about the events *)

Lemma new_events_app (w w' : World) (evs : list event) :
  trace w' = trace w ++ evs -> new_events w w' = evs.
Proof. intros H. unfold new_events. by rewrite H, drop_app_length. Qed.

Lemma status_of_update (status : text) (progress : Z) (kwargs : document) :
  kwargs !! "status" = None ->
  JobTracker.update_data status progress kwargs !! "status" = Some (VStr status).
Proof. intros H. by rewrite update_data_lookup, H. Qed.

Lemma progress_of_update (status : text) (progress : Z) (kwargs : document) :
  kwargs !! "progress" = None ->
  JobTracker.update_data status progress kwargs !! "progress" = Some (VInt progress).
Proof. intros H. by rewrite update_data_lookup, H. Qed.

Lemma processing_not_failed : processing ≠ failed.
Proof. intros H. vm_compute in H. discriminate H. Qed.

Lemma completed_not_failed : completed ≠ failed.
Proof. intros H. vm_compute in H. discriminate H. Qed.

Lemma progress_event_zero (job : text) (p : Z) (ev : event) :
  progress_event job p ev -> zero_on_failure ev.
Proof.
  intros [m ->]. simpl. rewrite status_of_update by done.
  intros H. destruct processing_not_failed. congruence.
Qed.

Lemma failure_event_zero (job : text) (ev : event) :
  failure_event job ev -> zero_on_failure ev.
Proof. intros [m ->]. simpl. intros _. by apply progress_of_update. Qed.

Lemma loop_event_zero (job : text) (ev : event) :
  loop_event job ev -> zero_on_failure ev.
Proof.
  intros [[p Hp]|(c & v & ->)]; [by eapply progress_event_zero | done].
Qed.

Lemma loop_events_zero (job : text) (levs : list event) :
  Forall (loop_event job) levs -> Forall zero_on_failure levs.
Proof. intros H. eapply Forall_impl; [exact H|]. intros ev. apply loop_event_zero. Qed.

Lemma loop_events_no_write (job : text) (levs : list event) :
  Forall (loop_event job) levs ->
  quiz_writes levs = [] /\ forall slides, Extracted slides ∉ levs.
Proof.
  induction 1 as [|ev levs Hev _ [IH1 IH2]]; [split; [done|]; intros ? ?%elem_of_nil; done|].
  split.
  - destruct Hev as [[p [m ->]]|(c & v & ->)]; done.
  - intros slides [Heq|Hin]%elem_of_cons; [|by eapply IH2].
    subst ev. destruct Hev as [[p [m Hm]]|(c & v & Hc)]; discriminate.
Qed.

Lemma loop_events_updates (job : text) (levs : list event) (jd : text * document) :
  Forall (loop_event job) levs -> jd ∈ job_updates levs ->
  jd.2 !! "status" = Some (VStr processing).
Proof.
  induction 1 as [|ev levs Hev _ IH]; [by intros ?%elem_of_nil|].
  destruct Hev as [[p [m ->]]|(c & v & ->)]; cbn; [|done].
  intros [->|Hin]%elem_of_cons; [|by apply IH].
  by apply status_of_update.
Qed.

Lemma slice_to_length {A} (l : list A) (n : Z) :
  0 <= n -> Z.of_nat (length (slice_to l n)) <= n.
Proof.
  intros Hn. unfold slice_to, slice, clamp_index.
  change (0 <? 0) with false. cbv iota.
  destruct (Z.ltb_spec n 0); [lia|]. rewrite length_take, length_drop. lia.
Qed.

Ltac reveal :=
  repeat match goal with
         | H : progress_event _ _ _ |- _ => destruct H as [? ->]
         | H : failure_event _ _ |- _ => destruct H as [? ->]
         end.

Lemma elem_of_job_updates (evs : list event) (job : text) (data : document) :
  (job, data) ∈ job_updates evs <-> JobUpdate job data ∈ evs.
Proof.
  unfold job_updates. rewrite list_elem_of_omap. split.
  - intros (ev & Hin & Hev). destruct ev; try discriminate. by injection Hev as -> ->.
  - intros Hin. by exists (JobUpdate job data).
Qed.

Lemma job_updates_snoc (evs : list event) (job : text) (data : document) :
  job_updates (evs ++ [JobUpdate job data]) = job_updates evs ++ [(job, data)].
Proof. unfold job_updates. by rewrite omap_app. Qed.

(** *** Failures report the progress 0 *)

Lemma outcome_zero_on_failure (req : Request) (q0 : gmap text QuizDocument)
    (j0 : collection) (w' : World) (resp : Response) (evs : list event) :
  outcome env req q0 j0 w' resp evs -> Forall zero_on_failure evs.
Proof.
  intros [-> _ _ _
         |job e1 e2 _ _ -> He1 He2 _ _ _
         |job pre e m _ -> Hpre He _ _ _
         |job e1 e2 e3 _ -> He1 He2 He3 _ _ _
         |job slides chunks e1 e2 e3 e4 levs _ _ _ -> He1 He2 He3 (Hloop & _) _ He4 _ _ _
         |job sp slides chunks e1 e2 e3 e4 e5 levs doc _ _ _ -> He1 He2 He3 (Hloop & _) _
            He4 (kw & -> & Hkw) _ _ _ _].
  - done.
  - repeat apply Forall_cons_2; eauto using progress_event_zero, failure_event_zero.
  - apply Forall_app_2.
    + eapply Forall_impl; [exact Hpre|]. intros ev [p Hp]. by eapply progress_event_zero.
    + repeat apply Forall_cons_2; eauto using failure_event_zero.
  - repeat apply Forall_cons_2; eauto using progress_event_zero, failure_event_zero.
    done.
  - repeat apply Forall_app_2; repeat apply Forall_cons_2;
      eauto using progress_event_zero, failure_event_zero, loop_events_zero; done.
  - repeat apply Forall_app_2; repeat apply Forall_cons_2;
      eauto using progress_event_zero, failure_event_zero, loop_events_zero; try done.
    simpl. rewrite status_of_update by done. intros H.
    destruct completed_not_failed. congruence.
Qed.

Lemma outcome_last_failure (req : Request) (w w' : World) (resp : Response)
    (evs : list event) (job : text) (data : document) :
  outcome env req (quizzes w) (quizJobs w) w' resp evs ->
  last (job_updates evs) = Some (job, data) ->
  data !! "status" = Some (VStr failed) ->
  is_Some (quizJobs w !! job) ->
  job_shows w' job failed 0.
Proof.
  intros [-> _ _ _
         |job0 e1 e2 _ Hnone -> He1 He2 _ _ _
         |job0 pre e m _ -> Hpre He _ Hshows _
         |job0 e1 e2 e3 _ -> He1 He2 He3 _ Hshows _
         |job0 slides chunks e1 e2 e3 e4 levs _ _ _ -> He1 He2 He3 _ _ He4 _ Hshows _
         |job0 sp slides chunks e1 e2 e3 e4 e5 levs doc _ _ _ -> He1 He2 He3 _ _ He4
            (kw & -> & Hkw) _ _ _ _]
         Hlast Hstatus Hjob; reveal.
  - done.
  - simpl in Hlast. injection Hlast as <- <-. rewrite Hnone in Hjob. by destruct Hjob.
  - rewrite job_updates_snoc, last_snoc in Hlast. by injection Hlast as <- <-.
  - simpl in Hlast. by injection Hlast as <- <-.
  - rewrite !app_assoc, job_updates_snoc, last_snoc in Hlast. by injection Hlast as <- <-.
  - change [?a; ?b; ?c; ?d] with ([a; b; c] ++ [d]) in Hlast.
    rewrite !app_assoc, job_updates_snoc, last_snoc in Hlast.
    injection Hlast as <- <-. rewrite status_of_update in Hstatus by done.
    destruct completed_not_failed. congruence.
Qed.

Lemma failure_event_last (job : text) (pre : list event) (e : event) :
  failure_event job e ->
  exists data, last (job_updates (pre ++ [e])) = Some (job, data)
            /\ data !! "status" = Some (VStr failed)
            /\ data !! "progress" = Some (VInt 0).
Proof.
  intros [m ->]. eexists. rewrite job_updates_snoc, last_snoc. split; [done|].
  split; [apply status_of_update|apply progress_of_update]; apply error_keys.
Qed.

(** C10: on each of the three paths on which a run gives up, the last status
    update of the run is addressed to the job and writes the status failed
    with the progress 0, and the job's record then shows failed at 0: when
    the extraction returns no record, when no question is left after the
    generation loop, and when an exception leaves the outer [try] block of a
    job whose record exists.  Besides, every status update of a run that
    reports the status failed reports the progress 0, and a last update that
    reports failed for a job whose record exists leaves the record showing
    failed at 0. *)
Theorem failed_updates_report_zero_progress (body : option Request) (w : World) :
  (forall job data,
     (job, data) ∈ job_updates
                     (new_events w (process_pptx nd_table scale60 env body w).1) ->
     data !! "status" = Some (VStr failed) ->
     data !! "progress" = Some (VInt 0))
  /\ (forall job data,
        last (job_updates (new_events w (process_pptx nd_table scale60 env body w).1))
        = Some (job, data) ->
        data !! "status" = Some (VStr failed) ->
        is_Some (quizJobs w !! job) ->
        job_shows (process_pptx nd_table scale60 env body w).1 job failed 0)
  /\ (Extracted [] ∈ new_events w (process_pptx nd_table scale60 env body w).1 ->
      exists req job,
        body = Some req /\ jobId req = Some job
        /\ Notions.marked_failed w (process_pptx nd_table scale60 env body w).1 job)
  /\ (forall req slides,
        body = Some req ->
        Extracted slides ∈ new_events w (process_pptx nd_table scale60 env body w).1 ->
        slides ≠ [] ->
        slice_to (concat (generated
                    (new_events w (process_pptx nd_table scale60 env body w).1)))
                 (default 10 (questionCount req)) = [] ->
        exists job,
          jobId req = Some job
          /\ Notions.marked_failed w (process_pptx nd_table scale60 env body w).1 job)
  /\ (forall req job w1 e,
        body = Some req ->
        process_request nd_table scale60 env req w = (w1, Raise e) ->
        jobId req = Some job -> is_Some (quizJobs w !! job) ->
        status_code (process_pptx nd_table scale60 env body w).2 = 500
        /\ Notions.marked_failed w (process_pptx nd_table scale60 env body w).1 job).
Proof.
  destruct body as [req|].
  2:{ simpl. unfold new_events. rewrite drop_all.
      split; [by intros job data Hin%elem_of_nil|]. split; [done|].
      split; [by intros Hin%elem_of_nil|]. split; [by intros ? ? [=]|].
      by intros ? ? ? ? [=]. }
  assert (Hraise : forall w1 e,
            process_request nd_table scale60 env req w = (w1, Raise e) ->
            status_code (process_pptx nd_table scale60 env (Some req) w).2 = 500).
  { intros w1 e Hreq. unfold process_pptx. rewrite Hreq.
    destruct (truthy_field (jobId req)); [|done].
    by destruct (job_update _ _ _ _ w1) as [w2 [[]|e']]. }
  destruct (process_pptx nd_table scale60 env (Some req) w) as [w' resp] eqn:Hrun.
  destruct (process_pptx_outcome req w w' resp Hrun) as (evs & Ht & Hout).
  unfold Notions.marked_failed. simpl in *. rewrite (new_events_app _ _ _ Ht).
  split; [|split].
  { intros job data Hin%elem_of_job_updates Hstatus.
    pose proof (outcome_zero_on_failure _ _ _ _ _ _ Hout) as Hzero.
    rewrite Forall_forall in Hzero. by apply (Hzero _ Hin). }
  { intros job data. exact (outcome_last_failure req w w' resp evs job data Hout). }
  clear Hrun Ht.
  destruct Hout as [-> _ _ ->
         |job e1 e2 Hid Hnone -> He1 He2 _ _ ->
         |job pre e m Hid -> Hpre He _ Hshows ->
         |job e1 e2 e3 Hid -> He1 He2 He3 _ Hshows ->
         |job slides0 chunks e1 e2 e3 e4 levs Hid Hne _ -> He1 He2 He3 (Hloop & _) Hfinal
            He4 _ Hshows ->
         |job sp slides0 chunks e1 e2 e3 e4 e5 levs doc Hid Hne _ -> He1 He2 He3
            (Hloop & _) Hfinal He4 He5 _ _ _ ->].
  - (* the request is turned down *)
    split; [by intros Hin%elem_of_nil|]. split; [by intros ? ? _ Hin%elem_of_nil|].
    intros ? job w1 e [= <-] Hreq _ _. by apply Hraise in Hreq.
  - (* the job has no record *)
    split; [|split].
    + intros Hin. reveal.
      repeat (apply elem_of_cons in Hin as [Hin|Hin]; [discriminate Hin|]).
      by apply elem_of_nil in Hin.
    + intros ? slides _ Hin. reveal.
      repeat (apply elem_of_cons in Hin as [Hin|Hin]; [discriminate Hin|]).
      by apply elem_of_nil in Hin.
    + intros ? job' w1 e [= <-] _ Hjob' [doc Hdoc]. congruence.
  - (* an exception has left the outer block *)
    assert (Hnoext : forall slides, Extracted slides ∉ pre ++ [e]).
    { intros slides [Hin|Hin]%elem_of_app.
      - rewrite Forall_forall in Hpre. destruct (Hpre _ Hin) as (p & m' & Hm).
        discriminate Hm.
      - destruct He as [m' ->]. apply list_elem_of_singleton in Hin. discriminate Hin. }
    split; [by intros Hin%Hnoext|]. split; [by intros ? slides _ Hin%Hnoext|].
    intros ? job' w1 e' [= <-] _ Hjob' _. split; [done|].
    assert (job' = job) as -> by congruence.
    destruct (failure_event_last job pre e He) as (data & Hlast & Hs & Hp).
    by exists data.
  - (* no slide with text *)
    destruct (failure_event_last job [e1; e2; Extracted []] e3 He3)
      as (data & Hlast & Hs & Hp).
    split; [|split].
    + intros _. exists req, job. repeat (split; [done|]). by exists data.
    + intros ? slides _ Hin Hslides. reveal.
      repeat (apply elem_of_cons in Hin as [Hin|Hin]; [by simplify_eq|]).
      by apply elem_of_nil in Hin.
    + intros ? job' w1 e' [= <-] Hreq _ _. by apply Hraise in Hreq.
  - (* no question *)
    destruct (loop_events_no_write _ _ Hloop) as [_ Hnoext].
    destruct (failure_event_last job ([e1; e2; Extracted slides0; e3] ++ levs) e4 He4)
      as (data & Hlast & Hs & Hp).
    rewrite <- app_assoc in Hlast.
    assert (Hmarked : exists data,
              last (job_updates ([e1; e2; Extracted slides0; e3] ++ levs ++ [e4]))
              = Some (job, data)
              /\ data !! "status" = Some (VStr failed)
              /\ data !! "progress" = Some (VInt 0)
              /\ job_shows w' job failed 0) by (by exists data).
    split; [|split].
    + intros Hin. exfalso. reveal.
      apply elem_of_cons in Hin as [Hin|Hin]; [discriminate Hin|].
      apply elem_of_cons in Hin as [Hin|Hin]; [discriminate Hin|].
      apply elem_of_cons in Hin as [Hin|Hin]; [by simplify_eq|].
      apply elem_of_cons in Hin as [Hin|Hin]; [discriminate Hin|].
      apply elem_of_app in Hin as [Hin|Hin]; [by apply Hnoext in Hin|].
      repeat (apply elem_of_cons in Hin as [Hin|Hin]; [discriminate Hin|]).
      by apply elem_of_nil in Hin.
    + intros ? slides [= <-] _ _ _. by exists job.
    + intros ? job' w1 e' [= <-] _ Hjob' _. split; [done|].
      assert (job' = job) as -> by congruence. done.
  - (* the quiz is written *)
    destruct (loop_events_no_write _ _ Hloop) as [_ Hnoext].
    split; [|split].
    + intros Hin. exfalso. reveal. destruct He5 as (kw & -> & _).
      apply elem_of_cons in Hin as [Hin|Hin]; [discriminate Hin|].
      apply elem_of_cons in Hin as [Hin|Hin]; [discriminate Hin|].
      apply elem_of_cons in Hin as [Hin|Hin]; [by simplify_eq|].
      apply elem_of_cons in Hin as [Hin|Hin]; [discriminate Hin|].
      apply elem_of_app in Hin as [Hin|Hin]; [by apply Hnoext in Hin|].
      repeat (apply elem_of_cons in Hin as [Hin|Hin]; [discriminate Hin|]).
      by apply elem_of_nil in Hin.
    + intros ? slides [= <-] _ _ Hempty. exfalso. apply Hfinal. reveal.
      destruct He5 as (kw & -> & _).
      unfold generated in Hempty. rewrite !omap_app in Hempty. cbn in Hempty.
      by rewrite app_nil_r in Hempty.
    + intros ? job' w1 e' [= <-] Hreq _ _. by apply Hraise in Hreq.
Qed.

(** *** Failed runs write no quiz *)

Lemma generated_app (a b : list event) : generated (a ++ b) = generated a ++ generated b.
Proof. unfold generated. by rewrite omap_app. Qed.

Lemma generated_chunks_app (a b : list event) :
  generated_chunks (a ++ b) = generated_chunks a ++ generated_chunks b.
Proof. unfold generated_chunks. by rewrite omap_app. Qed.

Lemma quiz_writes_app (a b : list event) :
  quiz_writes (a ++ b) = quiz_writes a ++ quiz_writes b.
Proof. unfold quiz_writes. by rewrite omap_app. Qed.

(** C8: in a run whose extraction returns no slide record, the job is
    marked failed, the response is 400 and nothing is written to the
    collection quizzes; in a run whose extraction returns slide records and
    whose accumulated questions, cut to the requested count, are none, the
    job is marked failed, the response is 500 and nothing is written to the
    collection quizzes. *)
Theorem failed_runs_write_no_quiz (req : Request) (w : World)
    (slides : list SlideRecord) :
  Extracted slides ∈ new_events w (process_pptx nd_table scale60 env (Some req) w).1 ->
  (slides = [] ->
     status_code (process_pptx nd_table scale60 env (Some req) w).2 = 400
     /\ (exists job, jobId req = Some job
           /\ job_shows (process_pptx nd_table scale60 env (Some req) w).1 job failed 0)
     /\ quizzes (process_pptx nd_table scale60 env (Some req) w).1 = quizzes w
     /\ quiz_writes (new_events w (process_pptx nd_table scale60 env (Some req) w).1) = [])
  /\ (slides ≠ [] ->
      slice_to (concat (generated
                  (new_events w (process_pptx nd_table scale60 env (Some req) w).1)))
               (default 10 (questionCount req)) = [] ->
     status_code (process_pptx nd_table scale60 env (Some req) w).2 = 500
     /\ (exists job, jobId req = Some job
           /\ job_shows (process_pptx nd_table scale60 env (Some req) w).1 job failed 0)
     /\ quizzes (process_pptx nd_table scale60 env (Some req) w).1 = quizzes w
     /\ quiz_writes (new_events w (process_pptx nd_table scale60 env (Some req) w).1) = []).
Proof.
  destruct (process_pptx nd_table scale60 env (Some req) w) as [w' resp] eqn:Hrun.
  destruct (process_pptx_outcome req w w' resp Hrun) as (evs & Ht & Hout).
  simpl. rewrite (new_events_app _ _ _ Ht). clear Hrun Ht. intros Hin.
  destruct Hout as [-> _ _ _
         |job e1 e2 Hid _ -> He1 He2 _ _ _
         |job pre e m Hid -> Hpre He _ _ _
         |job e1 e2 e3 Hid -> He1 He2 He3 Hq Hshows ->
         |job slides0 chunks e1 e2 e3 e4 levs Hid Hne _ -> He1 He2 He3 (Hloop & _) Hfinal
            He4 Hq Hshows ->
         |job sp slides0 chunks e1 e2 e3 e4 e5 levs doc Hid Hne _ -> He1 He2 He3
            (Hloop & _) Hfinal He4 (kw & -> & Hkw) _ _ _ _]; reveal.
  - by apply elem_of_nil in Hin.
  - repeat (apply elem_of_cons in Hin as [Hin|Hin]; [discriminate Hin|]).
    by apply elem_of_nil in Hin.
  - apply elem_of_app in Hin as [Hin|Hin].
    + rewrite Forall_forall in Hpre. destruct (Hpre _ Hin) as (p & m' & Hm). discriminate Hm.
    + repeat (apply elem_of_cons in Hin as [Hin|Hin]; [discriminate Hin|]).
      by apply elem_of_nil in Hin.
  - assert (slides = []) as ->.
    { repeat (apply elem_of_cons in Hin as [Hin|Hin]; [by simplify_eq|]).
      by apply elem_of_nil in Hin. }
    split; [|done]. intros _. split; [done|]. split; [by exists job|]. done.
  - destruct (loop_events_no_write _ _ Hloop) as [Hnowrite Hnoext].
    assert (slides = slides0) as ->.
    { apply elem_of_app in Hin as [Hin|Hin].
      - repeat (apply elem_of_cons in Hin as [Hin|Hin]; [by simplify_eq|]).
        by apply elem_of_nil in Hin.
      - apply elem_of_app in Hin as [Hin|Hin]; [by apply Hnoext in Hin|].
        repeat (apply elem_of_cons in Hin as [Hin|Hin]; [by simplify_eq|]).
        by apply elem_of_nil in Hin. }
    split; [done|]. intros _ _. split; [done|]. split; [by exists job|].
    split; [done|]. rewrite !quiz_writes_app, Hnowrite. done.
  - destruct (loop_events_no_write _ _ Hloop) as [Hnowrite Hnoext].
    assert (slides = slides0) as ->.
    { apply elem_of_app in Hin as [Hin|Hin].
      - repeat (apply elem_of_cons in Hin as [Hin|Hin]; [by simplify_eq|]).
        by apply elem_of_nil in Hin.
      - apply elem_of_app in Hin as [Hin|Hin]; [by apply Hnoext in Hin|].
        repeat (apply elem_of_cons in Hin as [Hin|Hin]; [by simplify_eq|]).
        by apply elem_of_nil in Hin. }
    split; [done|]. intros _ Hempty. exfalso. apply Hfinal.
    rewrite !generated_app in Hempty. cbn in Hempty.
    by rewrite app_nil_r in Hempty.
Qed.

Lemma failed_events_plain (job : text) (pre : list event) (e : event) :
  Forall (fun ev => exists p, progress_event job p ev) pre -> failure_event job e ->
  generated (pre ++ [e]) = [] /\ quiz_writes (pre ++ [e]) = []
  /\ forall slides, Extracted slides ∉ pre ++ [e].
Proof.
  intros Hpre [m ->]. rewrite generated_app, quiz_writes_app. cbn. rewrite !app_nil_r.
  split; [|split].
  - induction Hpre as [|ev pre (p & m' & ->) _ IH]; [done|]. by cbn.
  - induction Hpre as [|ev pre (p & m' & ->) _ IH]; [done|]. by cbn.
  - intros slides [Hin|Hin]%elem_of_app.
    + rewrite Forall_forall in Hpre. destruct (Hpre _ Hin) as (p & m' & Hm). discriminate Hm.
    + repeat (apply elem_of_cons in Hin as [Hin|Hin]; [discriminate Hin|]).
      by apply elem_of_nil in Hin.
Qed.

(** *** The requested count *)

Lemma conj_last (A B C D : Prop) : D -> A /\ B /\ C -> A /\ B /\ C /\ D.
Proof. tauto. Qed.

Lemma chunk_slides_nonempty (slides : list SlideRecord) (chunks : list text) :
  slides ≠ [] -> Chunker.chunk_slides slides 3 = Ok chunks -> chunks ≠ [].
Proof.
  intros Hne. rewrite chunk_slides_groups by lia. intros [= <-].
  destruct slides; [done|]. simpl. discriminate.
Qed.

(** C2, as the code has it: for a requested count that is not negative, the
    quiz document a run writes holds at most that many questions; the chunks
    are visited in order, and after a generation call that is followed by
    another the accumulated questions are still fewer than the requested
    count, so that no call is made once the count has been reached after a
    call; chunks are left unvisited only when the count has been reached.
    The count is tested after a call, never before the first one: a run
    whose extraction returned at least one record makes at least one call,
    whatever the requested count. *)
Theorem quiz_length_bounded_and_loop_stops (req : Request) (w : World) :
  0 <= default 10 (questionCount req) ->
  (forall id,
     id ∈ quiz_writes (new_events w (process_pptx nd_table scale60 env (Some req) w).1) ->
     exists doc,
       quizzes (process_pptx nd_table scale60 env (Some req) w).1 !! id = Some doc
       /\ Z.of_nat (length (questions doc)) <= default 10 (questionCount req))
  /\ (forall pre suf,
        generated (new_events w (process_pptx nd_table scale60 env (Some req) w).1)
        = pre ++ suf ->
        suf ≠ [] -> pre ≠ [] \/ 0 < default 10 (questionCount req) ->
        Z.of_nat (length (concat pre)) < default 10 (questionCount req))
  /\ (forall slides chunks,
        Extracted slides
          ∈ new_events w (process_pptx nd_table scale60 env (Some req) w).1 ->
        Chunker.chunk_slides slides 3 = Ok chunks ->
        generated_chunks (new_events w (process_pptx nd_table scale60 env (Some req) w).1)
          `prefix_of` chunks
        /\ (generated_chunks
              (new_events w (process_pptx nd_table scale60 env (Some req) w).1) ≠ chunks ->
            default 10 (questionCount req)
            <= Z.of_nat (length (concat (generated
                 (new_events w (process_pptx nd_table scale60 env (Some req) w).1))))))
  /\ (forall slides,
        Extracted slides
          ∈ new_events w (process_pptx nd_table scale60 env (Some req) w).1 ->
        slides ≠ [] ->
        generated (new_events w (process_pptx nd_table scale60 env (Some req) w).1) ≠ []).
Proof.
  intros Hqc.
  destruct (process_pptx nd_table scale60 env (Some req) w) as [w' resp] eqn:Hrun.
  destruct (process_pptx_outcome req w w' resp Hrun) as (evs & Ht & Hout).
  simpl. rewrite (new_events_app _ _ _ Ht). clear Hrun Ht.
  apply conj_last.
  { (* the first call is made before the count is looked at *)
    intros slides Hin Hslides.
    destruct Hout as [-> _ _ _
           |job e1 e2 Hid _ -> He1 He2 _ _ _
           |job pre e m Hid -> Hpre He _ _ _
           |job e1 e2 e3 Hid -> He1 He2 He3 Hq Hshows ->
           |job slides0 chunks e1 e2 e3 e4 levs Hid Hne Hchunks -> He1 He2 He3 Hfacts
              Hfinal He4 Hq Hshows ->
           |job sp slides0 chunks e1 e2 e3 e4 e5 levs doc Hid Hne Hchunks -> He1 He2 He3
              Hfacts Hfinal He4 (kw & -> & Hkw) Hdoc Hq _ _].
    - by apply elem_of_nil in Hin.
    - reveal. repeat (apply elem_of_cons in Hin as [Hin|Hin]; [discriminate Hin|]).
      by apply elem_of_nil in Hin.
    - destruct (failed_events_plain job pre e Hpre He) as (_ & _ & Hnoext).
      by apply Hnoext in Hin.
    - reveal. repeat (apply elem_of_cons in Hin as [Hin|Hin]; [by simplify_eq|]).
      by apply elem_of_nil in Hin.
    - reveal. destruct Hfacts as (_ & _ & _ & _ & Hnonempty).
      rewrite !generated_app. cbn. rewrite app_nil_r.
      apply Hnonempty. exact (chunk_slides_nonempty _ _ Hne Hchunks).
    - reveal. destruct Hfacts as (_ & _ & _ & _ & Hnonempty).
      rewrite !generated_app. cbn. rewrite app_nil_r.
      apply Hnonempty. exact (chunk_slides_nonempty _ _ Hne Hchunks). }
  assert (forall levs job chunks0,
            loop_facts job (default 10 (questionCount req)) chunks0 levs ->
            forall pre suf, generated levs = pre ++ suf -> suf ≠ [] ->
              pre ≠ [] \/ 0 < default 10 (questionCount req) ->
              Z.of_nat (length (concat pre)) < default 10 (questionCount req)) as Hearly.
  { intros levs job chunks0 (_ & _ & Hstop & _) pre suf Hps Hsuf [Hpre|Hpos].
    - by apply (Hstop pre suf).
    - destruct pre as [|p pre]; [simpl; lia|]. by apply (Hstop (p :: pre) suf). }
  destruct Hout as [-> _ _ _
         |job e1 e2 Hid _ -> He1 He2 _ _ _
         |job pre e m Hid -> Hpre He _ _ _
         |job e1 e2 e3 Hid -> He1 He2 He3 Hq Hshows ->
         |job slides0 chunks e1 e2 e3 e4 levs Hid Hne Hchunks -> He1 He2 He3 Hfacts Hfinal
            He4 Hq Hshows ->
         |job sp slides0 chunks e1 e2 e3 e4 e5 levs doc Hid Hne Hchunks -> He1 He2 He3
            Hfacts Hfinal He4 (kw & -> & Hkw) Hdoc Hq _ _].
  - split; [by intros id ?%elem_of_nil|]. split.
    + intros [|] [|]; done.
    + by intros slides chunks ?%elem_of_nil.
  - reveal. split; [by intros id ?%elem_of_nil|]. split.
    + intros [|] [|]; done.
    + intros slides chunks Hin.
      repeat (apply elem_of_cons in Hin as [Hin|Hin]; [discriminate Hin|]).
      by apply elem_of_nil in Hin.
  - destruct (failed_events_plain job pre e Hpre He) as (Hgen & Hwrites & Hnoext).
    rewrite Hgen, Hwrites.
    split; [by intros id ?%elem_of_nil|]. split.
    + intros [|] [|]; done.
    + intros slides chunks Hin. by apply Hnoext in Hin.
  - reveal. split; [by intros id ?%elem_of_nil|]. split.
    + intros [|] [|]; done.
    + intros slides chunks Hin.
      assert (slides = []) as ->.
      { repeat (apply elem_of_cons in Hin as [Hin|Hin]; [by simplify_eq|]).
        by apply elem_of_nil in Hin. }
      intros [= <-]. split; [by apply prefix_nil|]. by intros [].
  - reveal. destruct Hfacts as (Hloop & Hprefix & Hstop & Hreached & Hnonempty).
    destruct (loop_events_no_write _ _ Hloop) as [Hnowrite Hnoext].
    rewrite !quiz_writes_app, !generated_app, !generated_chunks_app, Hnowrite.
    split; [by intros id ?%elem_of_nil|]. split.
    + cbn. rewrite !app_nil_r. by apply (Hearly levs job chunks).
    + intros slides chunks' Hin Hchunks'. cbn. rewrite !app_nil_r.
      assert (slides = slides0) as ->.
      { apply elem_of_cons in Hin as [Hin|Hin]; [discriminate Hin|].
        apply elem_of_cons in Hin as [Hin|Hin]; [discriminate Hin|].
        apply elem_of_cons in Hin as [Hin|Hin]; [by simplify_eq|].
        apply elem_of_cons in Hin as [Hin|Hin]; [discriminate Hin|].
        apply elem_of_app in Hin as [Hin|Hin]; [by apply Hnoext in Hin|].
        repeat (apply elem_of_cons in Hin as [Hin|Hin]; [discriminate Hin|]).
        by apply elem_of_nil in Hin. }
      assert (chunks' = chunks) as -> by congruence. done.
  - reveal. destruct Hfacts as (Hloop & Hprefix & Hstop & Hreached & Hnonempty).
    destruct (loop_events_no_write _ _ Hloop) as [Hnowrite Hnoext].
    rewrite !quiz_writes_app, !generated_app, !generated_chunks_app, Hnowrite.
    split.
    { cbn. intros id ->%list_elem_of_singleton. exists doc. rewrite Hq, lookup_insert_eq.
      split; [done|]. rewrite Hdoc, length_imap. by apply slice_to_length. }
    split.
    + cbn. rewrite !app_nil_r. by apply (Hearly levs job chunks).
    + intros slides chunks' Hin Hchunks'. cbn. rewrite !app_nil_r.
      assert (slides = slides0) as ->.
      { apply elem_of_cons in Hin as [Hin|Hin]; [discriminate Hin|].
        apply elem_of_cons in Hin as [Hin|Hin]; [discriminate Hin|].
        apply elem_of_cons in Hin as [Hin|Hin]; [by simplify_eq|].
        apply elem_of_cons in Hin as [Hin|Hin]; [discriminate Hin|].
        apply elem_of_app in Hin as [Hin|Hin]; [by apply Hnoext in Hin|].
        repeat (apply elem_of_cons in Hin as [Hin|Hin]; [discriminate Hin|]).
        by apply elem_of_nil in Hin. }
      assert (chunks' = chunks) as -> by congruence. done.
Qed.

End PipelineFacts.

Section PipelineSamples.

Import Py Extractor Generator Firestore Http Scratch Pipeline Samples.

Ltac find_event :=
  repeat first [apply list_elem_of_here | apply list_elem_of_further].

(** A run that asks for 4 questions stops after the second chunk's call and
    writes a quiz of 4 questions. *)
Example run_four_questions :
  status_code (process_pptx ascii_only exact_scale60 sample_env
                 (Some (sample_request "deck.pptx" 4)) sample_world).2 = 200
  /\ map length (generated (new_events sample_world
        (process_pptx ascii_only exact_scale60 sample_env
           (Some (sample_request "deck.pptx" 4)) sample_world).1)) = [3%nat; 3%nat]
  /\ (length <$> (questions <$> quizzes (process_pptx ascii_only exact_scale60 sample_env
           (Some (sample_request "deck.pptx" 4)) sample_world).1 !! u "quiz1"))
     = Some 4%nat.
Proof. split; [by vm_compute|]. split; by vm_compute. Qed.

(** The run on the sample deck for the requested counts 4 and 0. *)
Lemma quiz_length_bounded_and_loop_stops_witness :
  ((forall id,
      id ∈ quiz_writes (new_events sample_world
            (process_pptx ascii_only exact_scale60 sample_env
               (Some (sample_request "deck.pptx" 4)) sample_world).1) ->
      exists doc,
        quizzes (process_pptx ascii_only exact_scale60 sample_env
               (Some (sample_request "deck.pptx" 4)) sample_world).1 !! id
        = Some doc
        /\ Z.of_nat (length (questions doc)) <= 4)
   /\ (forall pre suf,
         generated (new_events sample_world
            (process_pptx ascii_only exact_scale60 sample_env
               (Some (sample_request "deck.pptx" 4)) sample_world).1)
         = pre ++ suf ->
         suf ≠ [] -> pre ≠ [] \/ 0 < 4 ->
         Z.of_nat (length (concat pre)) < 4)
   /\ (forall slides chunks,
         Extracted slides
           ∈ new_events sample_world
            (process_pptx ascii_only exact_scale60 sample_env
               (Some (sample_request "deck.pptx" 4)) sample_world).1 ->
         Chunker.chunk_slides slides 3 = Ok chunks ->
         generated_chunks (new_events sample_world
            (process_pptx ascii_only exact_scale60 sample_env
               (Some (sample_request "deck.pptx" 4)) sample_world).1)
           `prefix_of` chunks
         /\ (generated_chunks (new_events sample_world
            (process_pptx ascii_only exact_scale60 sample_env
               (Some (sample_request "deck.pptx" 4)) sample_world).1) ≠ chunks ->
             4 <= Z.of_nat (length (concat (generated (new_events sample_world
            (process_pptx ascii_only exact_scale60 sample_env
               (Some (sample_request "deck.pptx" 4)) sample_world).1))))))
   /\ (forall slides,
         Extracted slides
           ∈ new_events sample_world
            (process_pptx ascii_only exact_scale60 sample_env
               (Some (sample_request "deck.pptx" 4)) sample_world).1 ->
         slides ≠ [] ->
         generated (new_events sample_world
            (process_pptx ascii_only exact_scale60 sample_env
               (Some (sample_request "deck.pptx" 4)) sample_world).1) ≠ []))
  /\
  ((forall id,
      id ∈ quiz_writes (new_events sample_world
            (process_pptx ascii_only exact_scale60 sample_env
               (Some (sample_request "deck.pptx" 0)) sample_world).1) ->
      exists doc,
        quizzes (process_pptx ascii_only exact_scale60 sample_env
               (Some (sample_request "deck.pptx" 0)) sample_world).1 !! id
        = Some doc
        /\ Z.of_nat (length (questions doc)) <= 0)
   /\ (forall pre suf,
         generated (new_events sample_world
            (process_pptx ascii_only exact_scale60 sample_env
               (Some (sample_request "deck.pptx" 0)) sample_world).1)
         = pre ++ suf ->
         suf ≠ [] -> pre ≠ [] \/ 0 < 0 ->
         Z.of_nat (length (concat pre)) < 0)
   /\ (forall slides chunks,
         Extracted slides
           ∈ new_events sample_world
            (process_pptx ascii_only exact_scale60 sample_env
               (Some (sample_request "deck.pptx" 0)) sample_world).1 ->
         Chunker.chunk_slides slides 3 = Ok chunks ->
         generated_chunks (new_events sample_world
            (process_pptx ascii_only exact_scale60 sample_env
               (Some (sample_request "deck.pptx" 0)) sample_world).1)
           `prefix_of` chunks
         /\ (generated_chunks (new_events sample_world
            (process_pptx ascii_only exact_scale60 sample_env
               (Some (sample_request "deck.pptx" 0)) sample_world).1) ≠ chunks ->
             0 <= Z.of_nat (length (concat (generated (new_events sample_world
            (process_pptx ascii_only exact_scale60 sample_env
               (Some (sample_request "deck.pptx" 0)) sample_world).1))))))
   /\ (forall slides,
         Extracted slides
           ∈ new_events sample_world
            (process_pptx ascii_only exact_scale60 sample_env
               (Some (sample_request "deck.pptx" 0)) sample_world).1 ->
         slides ≠ [] ->
         generated (new_events sample_world
            (process_pptx ascii_only exact_scale60 sample_env
               (Some (sample_request "deck.pptx" 0)) sample_world).1) ≠ [])).
Proof.
  split.
  - assert (0 <= default 10 (questionCount (sample_request "deck.pptx" 4))) as H
      by (simpl; lia).
    exact (quiz_length_bounded_and_loop_stops ascii_only exact_scale60 sample_env
             (sample_request "deck.pptx" 4) sample_world H).
  - assert (0 <= default 10 (questionCount (sample_request "deck.pptx" 0))) as H
      by (simpl; lia).
    exact (quiz_length_bounded_and_loop_stops ascii_only exact_scale60 sample_env
             (sample_request "deck.pptx" 0) sample_world H).
Defined.

(** C2 as stated fails twice.  For the requested count -1 the slice drops the
    last of the 3 accumulated questions and a quiz of 2 questions is
    written.  For the requested count 0 the accumulated count, 0, has
    reached the requested count before any call, and a generation call is
    made all the same, which returns 3 questions. *)
Lemma requested_count_not_respected :
  (default 10 (questionCount (sample_request "deck.pptx" (-1))) = -1
   /\ quiz_writes (new_events sample_world
         (process_pptx ascii_only exact_scale60 sample_env
            (Some (sample_request "deck.pptx" (-1))) sample_world).1) = [u "quiz1"]
   /\ (length <$> (questions <$> quizzes (process_pptx ascii_only exact_scale60 sample_env
            (Some (sample_request "deck.pptx" (-1))) sample_world).1 !! u "quiz1"))
      = Some 2%nat
   /\ ~ (Z.of_nat 2 <= -1))
  /\ (default 10 (questionCount (sample_request "deck.pptx" 0)) = 0
      /\ map length (generated (new_events sample_world
            (process_pptx ascii_only exact_scale60 sample_env
               (Some (sample_request "deck.pptx" 0)) sample_world).1)) = [3%nat]
      /\ status_code (process_pptx ascii_only exact_scale60 sample_env
                        (Some (sample_request "deck.pptx" 0)) sample_world).2 = 500).
Proof.
  split.
  - split; [done|]. split; [by vm_compute|]. split; [by vm_compute|lia].
  - split; [done|]. split; by vm_compute.
Qed.

Lemma failed_runs_write_no_quiz_witness :
  (status_code (process_pptx ascii_only exact_scale60 sample_env
                  (Some (sample_request "blank.pptx" 4)) sample_world).2 = 400
   /\ (exists job, jobId (sample_request "blank.pptx" 4) = Some job
         /\ job_shows (process_pptx ascii_only exact_scale60 sample_env
                         (Some (sample_request "blank.pptx" 4)) sample_world).1
              job failed 0)
   /\ quizzes (process_pptx ascii_only exact_scale60 sample_env
                 (Some (sample_request "blank.pptx" 4)) sample_world).1
      = quizzes sample_world
   /\ quiz_writes (new_events sample_world
         (process_pptx ascii_only exact_scale60 sample_env
            (Some (sample_request "blank.pptx" 4)) sample_world).1) = [])
  /\ (status_code (process_pptx ascii_only exact_scale60 silent_env
                     (Some (sample_request "deck.pptx" 4)) sample_world).2 = 500
      /\ (exists job, jobId (sample_request "deck.pptx" 4) = Some job
            /\ job_shows (process_pptx ascii_only exact_scale60 silent_env
                            (Some (sample_request "deck.pptx" 4)) sample_world).1
                 job failed 0)
      /\ quizzes (process_pptx ascii_only exact_scale60 silent_env
                    (Some (sample_request "deck.pptx" 4)) sample_world).1
         = quizzes sample_world
      /\ quiz_writes (new_events sample_world
            (process_pptx ascii_only exact_scale60 silent_env
               (Some (sample_request "deck.pptx" 4)) sample_world).1) = []).
Proof.
  split.
  - assert (Extracted []
              ∈ new_events sample_world
                  (process_pptx ascii_only exact_scale60 sample_env
                     (Some (sample_request "blank.pptx" 4)) sample_world).1) as Hin
      by (vm_compute; find_event).
    exact (proj1 (failed_runs_write_no_quiz ascii_only exact_scale60 sample_env
                    (sample_request "blank.pptx" 4) sample_world [] Hin) eq_refl).
  - assert (Extracted (extract_text_from_pptx ascii_only deck_footer)
              ∈ new_events sample_world
                  (process_pptx ascii_only exact_scale60 silent_env
                     (Some (sample_request "deck.pptx" 4)) sample_world).1) as Hin
      by (vm_compute; find_event).
    assert (extract_text_from_pptx ascii_only deck_footer ≠ []) as Hne
      by (vm_compute; discriminate).
    assert (slice_to (concat (generated (new_events sample_world
               (process_pptx ascii_only exact_scale60 silent_env
                  (Some (sample_request "deck.pptx" 4)) sample_world).1)))
              (default 10 (questionCount (sample_request "deck.pptx" 4))) = []) as Hnone
      by (by vm_compute).
    exact (proj2 (failed_runs_write_no_quiz ascii_only exact_scale60 silent_env
                    (sample_request "deck.pptx" 4) sample_world _ Hin) Hne Hnone).
Defined.

(** The three ways a run gives up, on the sample world: a presentation
    without text, a model that returns no question, and a storage path under
    which there is no blob, so that the download raises. *)
Lemma failed_updates_report_zero_progress_witness :
  (exists req job,
     Some (sample_request "blank.pptx" 4) = Some req /\ jobId req = Some job
     /\ Notions.marked_failed sample_world
          (process_pptx ascii_only exact_scale60 sample_env
             (Some (sample_request "blank.pptx" 4)) sample_world).1 job)
  /\ (exists job,
        jobId (sample_request "deck.pptx" 4) = Some job
        /\ Notions.marked_failed sample_world
             (process_pptx ascii_only exact_scale60 silent_env
                (Some (sample_request "deck.pptx" 4)) sample_world).1 job)
  /\ (status_code (process_pptx ascii_only exact_scale60 sample_env
                     (Some (sample_request "missing.pptx" 4)) sample_world).2 = 500
      /\ Notions.marked_failed sample_world
           (process_pptx ascii_only exact_scale60 sample_env
              (Some (sample_request "missing.pptx" 4)) sample_world).1 (u "job1")).
Proof.
  split; [|split].
  - apply (proj1 (proj2 (proj2
             (failed_updates_report_zero_progress ascii_only exact_scale60 sample_env
                (Some (sample_request "blank.pptx" 4)) sample_world)))).
    vm_compute. find_event.
  - apply (proj1 (proj2 (proj2 (proj2
             (failed_updates_report_zero_progress ascii_only exact_scale60 silent_env
                (Some (sample_request "deck.pptx" 4)) sample_world))))
             (sample_request "deck.pptx" 4)
             (extract_text_from_pptx ascii_only deck_footer)).
    + reflexivity.
    + vm_compute. find_event.
    + vm_compute. discriminate.
    + vm_compute. reflexivity.
  - destruct (process_request ascii_only exact_scale60 sample_env
                (sample_request "missing.pptx" 4) sample_world) as [w1 [resp|e]] eqn:E.
    { vm_compute in E. discriminate E. }
    apply (proj2 (proj2 (proj2 (proj2
             (failed_updates_report_zero_progress ascii_only exact_scale60 sample_env
                (Some (sample_request "missing.pptx" 4)) sample_world))))
             (sample_request "missing.pptx" 4) (u "job1") w1 e).
    + reflexivity.
    + exact E.
    + reflexivity.
    + vm_compute. eexists. reflexivity.
Defined.

(** On a presentation without text the record, which showed the progress 15
    during the extraction, ends with the status failed and the progress 0,
    and keeps the message of the earlier update next to the error. *)
Example failed_run_resets_progress :
  map (fun jd => jd.2 !! "progress")
      (job_updates (new_events sample_world
         (process_pptx ascii_only exact_scale60 sample_env
            (Some (sample_request "blank.pptx" 4)) sample_world).1))
  = [Some (VInt 5); Some (VInt 15); Some (VInt 0)]
  /\ (dom <$> quizJobs (process_pptx ascii_only exact_scale60 sample_env
                (Some (sample_request "blank.pptx" 4)) sample_world).1 !! u "job1")
     = Some ({["status"; "progress"; "updatedAt"; "message"; "error"]} : gset string).
Proof. split; [by vm_compute|]. vm_compute. f_equal. Qed.

End PipelineSamples.

(** ** More on the built-ins: what [strip] keeps *)
Section StripFacts.

Import Py.

Lemma lstrip_app_nonspace (y : text) (c : char) (z : text) :
  isspace c = false -> lstrip (y ++ c :: z) = lstrip y ++ c :: z.
Proof.
  intros Hc. induction y as [|d y IH]; simpl; [by rewrite Hc|].
  by destruct (isspace d).
Qed.

Lemma rstrip_app_nonspace (a : text) (c : char) (b : text) :
  isspace c = false -> rstrip (a ++ c :: b) = a ++ c :: rstrip b.
Proof.
  intros Hc. unfold rstrip. rewrite rev_app_distr. simpl rev at 1.
  rewrite <- app_assoc. simpl. rewrite lstrip_app_nonspace by done.
  rewrite rev_app_distr. simpl. rewrite rev_involutive, <- app_assoc. done.
Qed.


Lemma lstrip_idemp (s : text) : lstrip (lstrip s) = lstrip s.
Proof.
  induction s as [|d s IH]; simpl; [done|].
  destruct (isspace d) eqn:Hd; [done|]. simpl. by rewrite Hd.
Qed.


Lemma strip_all_nonspace (s : text) :
  Forall (fun c => isspace c = false) s -> strip s = s.
Proof.
  intros H. unfold strip.
  assert (Hl : forall x, Forall (fun c => isspace c = false) x -> lstrip x = x).
  { intros [|c x] Hx; [done|]. simpl. by rewrite (Forall_inv Hx). }
  rewrite (Hl s H). unfold rstrip. rewrite Hl, rev_involutive; [done|].
  by apply Forall_rev.
Qed.


End StripFacts.

(** ** More on the Text Extractor *)
Section ExtractorOrder.

Import Py Extractor Notions.

Variable nd_table : char -> bool.

Lemma records_from_fold (prs : Presentation) (st : loop_state) :
  slides_data (fold_left slide_step prs st)
  = slides_data st ++ records_from (next_num st) prs.
Proof.
  revert st. induction prs as [|sl prs IH]; intros st; simpl; [by rewrite app_nil_r|].
  rewrite IH, slides_data_step, next_num_step, <- app_assoc. done.
Qed.

Lemma scan_records (prs : Presentation) : slides_data (scan prs) = records_from 1 prs.
Proof. unfold scan. by rewrite records_from_fold. Qed.

Lemma slide_kept_iff (sl : Slide) :
  truthy (slide_title sl) || truthy (join [newline] (content_parts sl)) = true
  <-> slide_title sl ≠ [] \/ content_parts sl ≠ [].
Proof.
  rewrite orb_true_iff, !truthy_true. split; (intros [H|H]; [by left|right]).
  - intros E. rewrite E in H. done.
  - destruct (content_parts sl) as [|p ps] eqn:E; [done|].
    apply join_first_nonempty. apply (content_parts_nonempty sl). rewrite E. by left.
Qed.

Lemma elem_of_records_from (n : Z) (prs : Presentation) (s : SlideRecord) :
  s ∈ records_from n prs
  <-> exists i sl, prs !! i = Some sl
        /\ (slide_title sl ≠ [] \/ content_parts sl ≠ [])
        /\ s = {| slide_num := n + Z.of_nat i; title := slide_title sl;
                  content := join [newline] (content_parts sl) |}.
Proof.
  revert n. induction prs as [|sl prs IH]; intros n; simpl.
  { rewrite elem_of_nil. split; [done|]. by intros (i & sl & H & _). }
  rewrite elem_of_app, IH. split.
  - intros [H|(i & sl' & Hi & Hk & ->)].
    + destruct (truthy (slide_title sl) || truthy (join [newline] (content_parts sl)))
        eqn:E; [|by apply elem_of_nil in H].
      apply list_elem_of_singleton in H. subst s. exists 0%nat, sl.
      split; [done|]. split; [by apply slide_kept_iff|]. f_equal. simpl. lia.
    + exists (S i), sl'. split; [done|]. split; [done|]. f_equal. lia.
  - intros ([|i] & sl' & Hi & Hk & ->).
    + injection Hi as ->. left. apply slide_kept_iff in Hk. rewrite Hk.
      apply list_elem_of_singleton. f_equal. simpl. lia.
    + right. exists i, sl'. split; [done|]. split; [done|]. f_equal. lia.
Qed.

Lemma records_from_sorted (n : Z) (prs : Presentation) :
  StronglySorted Z.lt (map slide_num (records_from n prs))
  /\ Forall (fun z => n <= z) (map slide_num (records_from n prs)).
Proof.
  revert n. induction prs as [|sl prs IH]; intros n; simpl.
  { split; constructor. }
  destruct (IH (n + 1)) as [Hs Hb].
  destruct (truthy (slide_title sl) || truthy (join [newline] (content_parts sl))); simpl.
  - split.
    + constructor; [done|]. eapply Forall_impl; [exact Hb|]. simpl. intros; lia.
    + constructor; [simpl; lia|]. eapply Forall_impl; [exact Hb|]. simpl. intros; lia.
  - split; [done|]. eapply Forall_impl; [exact Hb|]. simpl. intros; lia.
Qed.

Lemma records_from_length (n : Z) (prs : Presentation) :
  (length (records_from n prs) <= length prs)%nat.
Proof.
  revert n. induction prs as [|sl prs IH]; intros n; simpl; [lia|].
  rewrite length_app. specialize (IH (n + 1)).
  destruct (truthy (slide_title sl) || truthy (join [newline] (content_parts sl)));
    simpl; lia.
Qed.

Lemma extract_records (prs : Presentation) :
  extract_text_from_pptx nd_table prs
  = map (clean_slide nd_table
           (footers_to_remove (footer_candidates (scan prs))
              (length (records_from 1 prs))))
        (records_from 1 prs).
Proof. unfold extract_text_from_pptx. by rewrite scan_records. Qed.

(** X1: the extractor returns its records in slide order, numbered by the
    position of the slide in the presentation (from 1), never more records
    than slides, with the title as read from the slide; a slide has a record
    exactly when it has a title or some content part. *)
Theorem extract_numbers_slides_in_order (prs : Presentation) :
  StronglySorted Z.lt (map slide_num (extract_text_from_pptx nd_table prs))
  /\ (length (extract_text_from_pptx nd_table prs) <= length prs)%nat
  /\ Forall (fun s => exists i sl, prs !! i = Some sl
                        /\ slide_num s = Z.of_nat i + 1
                        /\ title s = slide_title sl)
            (extract_text_from_pptx nd_table prs)
  /\ (forall i sl, prs !! i = Some sl ->
        (exists s, s ∈ extract_text_from_pptx nd_table prs
                /\ slide_num s = Z.of_nat i + 1)
        <-> (slide_title sl ≠ [] \/ content_parts sl ≠ [])).
Proof.
  rewrite extract_records.
  set (footers := footers_to_remove _ _).
  split; [|split; [|split]].
  - rewrite map_map. simpl. apply (records_from_sorted 1 prs).
  - rewrite length_map. apply records_from_length.
  - apply Forall_forall. intros s Hs.
    apply list_elem_of_In, in_map_iff in Hs. destruct Hs as (s0 & <- & Hs0).
    apply list_elem_of_In, elem_of_records_from in Hs0.
    destruct Hs0 as (i & sl & Hi & _ & ->). exists i, sl. simpl.
    split; [done|]. split; [lia|done].
  - intros i sl Hi. split.
    + intros (s & Hs & Hn).
      apply list_elem_of_In, in_map_iff in Hs. destruct Hs as (s0 & <- & Hs0).
      apply list_elem_of_In, elem_of_records_from in Hs0.
      destruct Hs0 as (j & sl' & Hj & Hk & ->). simpl in Hn.
      assert (j = i) as -> by lia. congruence.
    + intros Hk.
      exists (clean_slide nd_table footers
                {| slide_num := 1 + Z.of_nat i; title := slide_title sl;
                   content := join [newline] (content_parts sl) |}).
      split; [|simpl; lia].
      apply list_elem_of_In, in_map. apply list_elem_of_In, elem_of_records_from.
      by exists i, sl.
Qed.

(** X2: the cleaning pass only deletes lines: the content of every record is
    the original lines of its slide's content, some of them left out, in
    their original order, and its title is the slide's title unchanged. *)
Theorem cleaning_only_deletes_lines (prs : Presentation) :
  Forall (fun s => exists i sl kept,
            prs !! i = Some sl
            /\ slide_num s = Z.of_nat i + 1
            /\ title s = slide_title sl
            /\ content s = join [newline] kept
            /\ kept `sublist_of` split newline (join [newline] (content_parts sl)))
         (extract_text_from_pptx nd_table prs).
Proof.
  rewrite extract_records. set (footers := footers_to_remove _ _).
  apply Forall_forall. intros s Hs.
  apply list_elem_of_In, in_map_iff in Hs. destruct Hs as (s0 & <- & Hs0).
  apply list_elem_of_In, elem_of_records_from in Hs0.
  destruct Hs0 as (i & sl & Hi & _ & ->).
  exists i, sl,
    (filter_lines nd_table footers (split newline (join [newline] (content_parts sl)))).
  simpl. split; [done|]. split; [lia|]. split; [done|]. split; [done|].
  apply sublist_filter.
Qed.

Lemma footers_repeated (prs : Presentation) (t : text) :
  t ∈ footers_to_remove (footer_candidates (scan prs)) (length (slides_data (scan prs)))
  <-> repeated_footer prs (length (extract_text_from_pptx nd_table prs)) t.
Proof.
  unfold repeated_footer, extract_text_from_pptx. rewrite length_map.
  rewrite elem_of_footers, scan_count. unfold short.
  destruct (length t <? 50)%nat eqn:E.
  - apply Nat.ltb_lt in E. lia.
  - apply Nat.ltb_ge in E. lia.
Qed.

(** X3: the set of footers is exactly the texts shorter than 50 characters
    that are a content part at least three times in the presentation and at
    least half as often as there are records. *)
Theorem footer_set_criterion (prs : Presentation) (t : text) :
  t ∈ footers_to_remove (footer_candidates (scan prs)) (length (slides_data (scan prs)))
  <-> (length t < 50)%nat
      /\ (3 <= occurrences prs t)%nat
      /\ (length (extract_text_from_pptx nd_table prs) <= 2 * occurrences prs t)%nat.
Proof. apply footers_repeated. Qed.

(** X4: a content part without a line break is kept as a line of its slide's
    record exactly when it is neither a page-number line nor a repeated
    footer; so parts of 50 characters or more, and parts that occur at most
    twice, are kept unless they look like a page number. *)
Theorem content_part_kept_iff (prs : Presentation) (i : nat) (sl : Slide) (t : text) :
  prs !! i = Some sl -> t ∈ content_parts sl -> newline ∉ t ->
  exists s, s ∈ extract_text_from_pptx nd_table prs
         /\ slide_num s = Z.of_nat i + 1
         /\ (t ∈ lines s
             <-> is_page_number_line nd_table t = false
                 /\ ~ repeated_footer prs
                        (length (extract_text_from_pptx nd_table prs)) t).
Proof.
  intros Hi Ht Hnl.
  pose proof (footers_repeated prs) as Hfoot.
  set (s0 := {| slide_num := 1 + Z.of_nat i; title := slide_title sl;
                content := join [newline] (content_parts sl) |}).
  set (footers := footers_to_remove (footer_candidates (scan prs))
                    (length (slides_data (scan prs)))) in *.
  exists (clean_slide nd_table footers s0).
  split; [|split; [simpl; lia|]].
  - apply elem_of_extract. exists s0. split; [|done].
    rewrite scan_records. apply elem_of_records_from. exists i, sl.
    split; [done|]. split; [|done]. right. intros E. rewrite E in Ht.
    by apply elem_of_nil in Ht.
  - assert (Hne : t ≠ []) by (by apply (content_parts_nonempty sl)).
    assert (Hin : t ∈ lines s0).
    { unfold lines, s0. simpl. by apply elem_of_split_join. }
    rewrite lines_clean_slide. unfold filter_lines. rewrite list_elem_of_filter.
    rewrite <- Hfoot. fold footers. split.
    + intros [[[Hf Hp] _]|[E _]]; [done|by subst].
    + intros [Hp Hf]. left. done.
Qed.

End ExtractorOrder.

Section PageNumberFacts.

Import Py Re Extractor Notions.

Variable nd_table : char -> bool.

Lemma star_then_skip (p : char -> bool) (k : text -> bool) (ws s : text) :
  Forall (fun c => p c = true) ws -> k s = true -> star_then p k (ws ++ s) = true.
Proof.
  intros Hws Hk. induction Hws as [|c ws Hc _ IH]; simpl.
  - destruct s; simpl; rewrite Hk; done.
  - rewrite Hc, IH. apply orb_true_r.
Qed.

Lemma isdecimal_ascii (d : char) : ascii_digit d -> isdecimal nd_table d = true.
Proof.
  unfold ascii_digit, isdecimal. intros [H1 H2].
  assert ((d <? 128)%N = true) as -> by (apply N.ltb_lt; lia).
  apply andb_true_iff. split; apply N.leb_le; lia.
Qed.

Lemma ascii_digit_nonspace (d : char) : ascii_digit d -> isspace d = false.
Proof.
  unfold ascii_digit, isspace. intros [H1 H2].
  repeat match goal with
         | |- context [(?a <=? ?b)%N] =>
           first [ replace (a <=? b)%N with true by (symmetry; apply N.leb_le; lia)
                 | replace (a <=? b)%N with false by (symmetry; apply N.leb_gt; lia) ]
         | |- context [(?a =? ?b)%N] =>
           replace (a =? b)%N with false by (symmetry; apply N.eqb_neq; lia)
         end.
  done.
Qed.

(** [\s*\d+] matches at the head of blanks followed by a digit, whatever
    comes after. *)
Lemma blanks_digit_match (b : bool) (ws : text) (d : char) (rest : text) :
  Forall (fun c => isspace c = true) ws -> ascii_digit d ->
  match_here (Seq (Star isspace) (Plus (isdecimal nd_table))) b
    (ws ++ d :: rest) (fun _ _ => true) = true.
Proof.
  intros Hws Hd.
  assert (Hk : forall b', match_here (Plus (isdecimal nd_table)) b' (d :: rest)
                            (fun _ _ => true) = true).
  { intros b'. cbn [match_here]. rewrite isdecimal_ascii by done.
    destruct rest; done. }
  cbn [match_here] in *.
  destruct Hws as [|c ws Hc Hws]; simpl app.
  - cbn [app]. cbv iota. rewrite (Hk b). done.
  - cbn [app]. cbv iota. rewrite Hc. rewrite (star_then_skip isspace _ ws (d :: rest)); [apply orb_true_r|done|].
    apply (Hk false).
Qed.

Lemma ichar_same (c : char) : ichar c c = true.
Proof. unfold ichar. by rewrite N.eqb_refl. Qed.

Lemma ichar_swap (c : char) : ichar c (swapcase c) = true.
Proof. unfold ichar. rewrite N.eqb_refl. apply orb_true_r. Qed.

(** The spellings of the two words the pattern knows, as [re.IGNORECASE]
    accepts them. *)
Lemma page_word_match (word ws : text) (d : char) (rest : text) :
  word ∈ [u "Page"; u "page"; u "PAGE"; u "페이지"] ->
  Forall (fun c => isspace c = true) ws -> ascii_digit d ->
  re_match (page_num_pattern nd_table) (word ++ ws ++ d :: rest) = true.
Proof.
  intros Hw Hws Hd. unfold re_match, page_num_pattern.
  pose proof (blanks_digit_match false ws d rest Hws Hd) as Hm.
  cbn [match_here] in Hm.
  change (u "Page") with [80; 97; 103; 101]%N.
  change (u "페이지") with [54168; 51060; 51648]%N.
  repeat (apply elem_of_cons in Hw; destruct Hw as [->|Hw]);
    [ change (u "Page") with [80; 97; 103; 101]%N
    | change (u "page") with [112; 97; 103; 101]%N
    | change (u "PAGE") with [80; 65; 71; 69]%N
    | change (u "페이지") with [54168; 51060; 51648]%N
    | by apply elem_of_nil in Hw ].
  all: cbn [match_here lits app andb].
  1-3: apply orb_true_iff; right; apply orb_true_iff; right; apply orb_true_iff; left.
  4: apply orb_true_iff; right; apply orb_true_iff; left.
  all: cbn [andb]; rewrite Hm; vm_compute; done.
Qed.

Lemma digits_match (ds : text) :
  ds ≠ [] -> Forall ascii_digit ds ->
  re_match (page_num_pattern nd_table) ds = true.
Proof.
  intros Hne Hds. unfold re_match, page_num_pattern. cbn [match_here].
  apply orb_true_iff. left. cbn [andb].
  destruct Hds as [|d ds Hd Hds]; [done|].
  rewrite isdecimal_ascii by done. cbn [andb].
  clear Hne Hd. induction Hds as [|c ds Hc _ IH]; [done|].
  simpl. rewrite isdecimal_ascii, IH by done. apply orb_true_r.
Qed.

(** X5: a line that begins with the word Page (in any of its usual
    spellings) or 페이지, optional blanks and a digit is taken for a page
    number whatever follows the digit, and no record keeps such a line. *)
Theorem page_prefix_lines_removed (prs : Presentation) (word ws : text) (d : char)
    (rest : text) :
  word ∈ [u "Page"; u "page"; u "PAGE"; u "페이지"] ->
  Forall (fun c => isspace c = true) ws -> ascii_digit d ->
  is_page_number_line nd_table (word ++ ws ++ d :: rest) = true
  /\ Forall (fun s => (word ++ ws ++ d :: rest) ∉ lines s)
            (extract_text_from_pptx nd_table prs).
Proof.
  intros Hw Hws Hd.
  assert (Hp : is_page_number_line nd_table (word ++ ws ++ d :: rest) = true).
  { unfold is_page_number_line.
    assert (exists c0 w', word = c0 :: w' /\ isspace c0 = false) as (c0 & w' & -> & Hc0).
    { repeat (apply elem_of_cons in Hw; destruct Hw as [->|Hw]);
        [ exists 80%N, [97; 103; 101]%N | exists 112%N, [97; 103; 101]%N
        | exists 80%N, [65; 71; 69]%N | exists 54168%N, [51060; 51648]%N
        | by apply elem_of_nil in Hw ]; by vm_compute. }
    unfold strip. cbn [app lstrip]. rewrite Hc0.
    replace (c0 :: w' ++ ws ++ d :: rest) with ((c0 :: w' ++ ws) ++ d :: rest)
      by (simpl; by rewrite <- app_assoc).
    rewrite rstrip_app_nonspace by (by apply ascii_digit_nonspace).
    replace ((c0 :: w' ++ ws) ++ d :: rstrip rest)
      with ((c0 :: w') ++ ws ++ d :: rstrip rest)
      by (simpl; by rewrite <- app_assoc).
    by apply page_word_match. }
  split; [done|]. apply Forall_forall. intros s Hs Hl.
  apply elem_of_extract in Hs. destruct Hs as (s0 & _ & ->).
  apply lines_clean_slide_kept in Hl. destruct Hl as [Hl _]. congruence.
Qed.

(** X6: a line made of ASCII digits only, of any length, is taken for a page
    number, and no record keeps such a line. *)
Theorem digit_lines_removed (prs : Presentation) (ds : text) :
  ds ≠ [] -> Forall ascii_digit ds ->
  is_page_number_line nd_table ds = true
  /\ Forall (fun s => ds ∉ lines s) (extract_text_from_pptx nd_table prs).
Proof.
  intros Hne Hds.
  assert (Hp : is_page_number_line nd_table ds = true).
  { unfold is_page_number_line. rewrite strip_all_nonspace.
    - by apply digits_match.
    - eapply Forall_impl; [exact Hds|]. apply ascii_digit_nonspace. }
  split; [done|]. apply Forall_forall. intros s Hs Hl.
  apply elem_of_extract in Hs. destruct Hs as (s0 & _ & ->).
  apply lines_clean_slide_kept in Hl. destruct Hl as [Hl _]. congruence.
Qed.

End PageNumberFacts.

Section ExtractorMoreSamples.

Import Py Extractor Notions Samples.

Lemma content_part_kept_iff_witness :
  exists s, s ∈ extract_text_from_pptx ascii_only deck_footer
         /\ slide_num s = 1
         /\ (u "Goals" ∈ lines s
             <-> is_page_number_line ascii_only (u "Goals") = false
                 /\ ~ repeated_footer deck_footer
                        (length (extract_text_from_pptx ascii_only deck_footer))
                        (u "Goals")).
Proof.
  apply (content_part_kept_iff ascii_only deck_footer 0 (hd [] deck_footer) (u "Goals")).
  - reflexivity.
  - apply list_elem_of_In. vm_compute. auto.
  - vm_compute. intros H. by repeat (apply elem_of_cons in H as [H|H]; [done|]);
      apply elem_of_nil in H.
Defined.

Lemma page_prefix_lines_removed_witness :
  is_page_number_line ascii_only (u "Page" ++ [32%N] ++ 51%N :: u " of 10") = true
  /\ Forall (fun s => (u "Page" ++ [32%N] ++ 51%N :: u " of 10") ∉ lines s)
            (extract_text_from_pptx ascii_only deck_pages).
Proof.
  apply (page_prefix_lines_removed ascii_only deck_pages (u "Page") [32%N] 51%N
           (u " of 10")).
  - apply list_elem_of_here.
  - repeat constructor.
  - unfold ascii_digit. lia.
Defined.

Lemma digit_lines_removed_witness :
  is_page_number_line ascii_only (u "2024") = true
  /\ Forall (fun s => u "2024" ∉ lines s) (extract_text_from_pptx ascii_only deck_pages).
Proof.
  apply (digit_lines_removed ascii_only deck_pages (u "2024")).
  - vm_compute. discriminate.
  - change (u "2024") with [50; 48; 50; 52]%N.
    repeat (constructor; [unfold ascii_digit; lia|]). constructor.
Defined.

End ExtractorMoreSamples.

(** ** More on the Chunker *)
Section ChunkerMore.

Import Py Extractor Chunker Notions.

Lemma groups_of_lookup {A} (fuel k : nat) (l : list A) (i : nat) (g : list A) :
  (1 <= k)%nat -> (length l <= fuel)%nat ->
  groups_of fuel k l !! i = Some g ->
  g = take k (drop (i * k) l) /\ g ≠ [].
Proof.
  intros Hk. revert l i. induction fuel as [|fuel IH]; intros l i Hl; simpl; [done|].
  destruct l as [|x l]; [done|]. destruct i as [|i].
  - intros [= <-]. split; [done|]. destruct k; [lia|done].
  - intros Hg. apply IH in Hg.
    + destruct Hg as [-> Hne]. split; [|done]. rewrite drop_drop.
      replace (S i * k)%nat with (k + i * k)%nat by lia. done.
    + rewrite length_drop. cbn [length] in *. lia.
Qed.


Lemma marker_shape (s : SlideRecord) :
  exists m rest,
    marker s = 91%N :: m ++ [93%N]
    /\ render_slide s = newline :: 91%N :: m ++ 93%N :: newline :: rest.
Proof.
  exists (tl (u "[슬라이드 ") ++ str_of_int (slide_num s)).
  unfold marker, render_slide.
  change (u "[슬라이드 ") with (91%N :: tl (u "[슬라이드 ")).
  change (u "]") with [93%N].
  eexists. split; simpl; rewrite <- ?app_assoc; simpl; reflexivity.
Qed.

Lemma chunk_text_opens (s : SlideRecord) (g : list SlideRecord) :
  marker s `prefix_of` chunk_text (s :: g).
Proof.
  unfold chunk_text. rewrite render_group_concat. cbn [map concat].
  destruct (marker_shape s) as (m & rest & -> & ->).
  unfold strip. cbn [app lstrip].
  change (isspace newline) with true. cbv iota.
  change (isspace 91) with false. cbv iota.
  rewrite <- app_assoc. cbn [app].
  match goal with
  | |- context [rstrip (91%N :: m ++ ?x)] =>
    change (rstrip (91%N :: m ++ x)) with (rstrip ((91%N :: m) ++ x))
  end.
  rewrite rstrip_app_nonspace by done.
  change (91%N :: m ++ [93%N]) with ((91%N :: m) ++ [93%N]).
  eexists. rewrite <- app_assoc. reflexivity.
Qed.

(** X7: a chunk size of zero makes [chunk_slides] raise ValueError, a
    negative one gives no chunk at all, and an empty list of slides gives no
    chunk for any other size. *)
Theorem chunk_slides_degenerate_sizes (slides : list SlideRecord) :
  (exists e, chunk_slides slides 0 = Raise e /\ exn_kind_of e = ValueError)
  /\ (forall k, k < 0 -> chunk_slides slides k = Ok [])
  /\ (forall k, k ≠ 0 -> chunk_slides [] k = Ok []).
Proof.
  split; [apply chunk_slides_zero|]. split; [apply chunk_slides_negative|].
  intros k Hk. destruct (decide (k < 0)) as [Hneg|Hpos].
  - by apply chunk_slides_negative.
  - rewrite chunk_slides_groups by lia. done.
Qed.

(** X8: the i-th chunk opens with the marker of the slide at position
    i * chunk_size, the first slide of its group. *)
Theorem chunk_opens_with_first_marker (slides : list SlideRecord) (k : Z)
    (chunks : list text) (i : nat) (chunk : text) :
  0 < k -> chunk_slides slides k = Ok chunks -> chunks !! i = Some chunk ->
  exists s, slides !! (i * Z.to_nat k)%nat = Some s /\ marker s `prefix_of` chunk.
Proof.
  intros Hk Hc Hi. rewrite chunk_slides_groups in Hc by done.
  injection Hc as <-. rewrite list_lookup_fmap in Hi.
  destruct (groups_of _ _ _ !! i) as [g|] eqn:Hg; [|done].
  injection Hi as <-.
  apply groups_of_lookup in Hg; [|lia|lia]. destruct Hg as [Hg Hne].
  destruct g as [|s g]; [done|]. exists s. split; [|apply chunk_text_opens].
  assert (take (Z.to_nat k) (drop (i * Z.to_nat k) slides) !! 0%nat = Some s)
    as H0 by (by rewrite <- Hg).
  apply lookup_take_Some in H0. destruct H0 as [H0 _].
  rewrite lookup_drop in H0. rewrite <- H0. f_equal. lia.
Qed.


End ChunkerMore.

Section ChunkerMoreSamples.

Import Py Extractor Chunker Notions.

Lemma chunk_opens_with_first_marker_witness :
  exists s, seven_slides !! (1 * Z.to_nat 3)%nat = Some s
         /\ marker s `prefix_of` chunk_text (take 3 (drop 3 seven_slides)).
Proof.
  apply (chunk_opens_with_first_marker seven_slides 3
           (map chunk_text [ take 3 seven_slides; take 3 (drop 3 seven_slides);
                             drop 6 seven_slides ]) 1).
  - lia.
  - rewrite chunk_slides_groups by lia. reflexivity.
  - reflexivity.
Defined.


End ChunkerMoreSamples.

(** ** More on the Question Generator *)
Section GeneratorMore.

Import Py Generator Notions.

Lemma slice_to_take {A} (l : list A) (n : Z) :
  0 <= n -> slice_to l n = take (Z.to_nat n) l.
Proof.
  intros Hn. unfold slice_to, slice, clamp_index.
  change (0 <? 0) with false. cbv iota.
  destruct (n <? 0) eqn:E; [apply Z.ltb_lt in E; lia|].
  rewrite (Z.min_l 0) by lia. change (Z.to_nat 0) with 0%nat. rewrite drop_0.
  destruct (decide (n <= Z.of_nat (length l))) as [Hle|Hgt].
  - f_equal. lia.
  - rewrite !take_ge by lia. done.
Qed.

Lemma validate_loop_spec (items : list json) (acc : list QuestionRecord) :
  (forallb returns items = true ->
     validate_loop items acc = Ok (acc ++ omap accepted items))
  /\ (forallb returns items = false -> exists e, validate_loop items acc = Raise e).
Proof.
  revert acc. induction items as [|q items IH]; intros acc; simpl.
  { split; [by rewrite app_nil_r|done]. }
  unfold returns at 1 3, accepted at 1. destruct (validate q) as [[r|]|e]; simpl.
  - destruct (IH (acc ++ [r])) as [IH1 IH2]. split; [|done].
    intros H. rewrite IH1 by done. by rewrite <- app_assoc.
  - apply IH.
  - split; [done|]. eauto.
Qed.

(** X10: every record the generator returns comes from an entry of the
    parsed list that is a dict with the four required keys; the record holds
    that entry's question, answer index and explanation unchanged, the first
    five of its choices, of which there were at least 4, so that 4 or 5 are
    stored, an answer index that is at least 0 and below the number of
    choices the entry had, and its topic or the empty string. *)
Theorem generated_record_provenance (reply : llm_reply) (r : QuestionRecord) :
  r ∈ generate_quiz_from_chunk reply ->
  exists questions items fields cs n m,
    reply = Parsed questions /\ iterate questions = Ok items /\ JObj fields ∈ items
    /\ assoc (u "question") fields = Some (question r)
    /\ assoc (u "choices") fields = Some cs
    /\ assoc (u "answer_index") fields = Some (answer_index r)
    /\ assoc (u "explanation") fields = Some (explanation r)
    /\ topic r = default (JStr []) (assoc (u "topic") fields)
    /\ len cs = Ok n /\ 4 <= n
    /\ zero_le (answer_index r) = Ok true
    /\ less_than (answer_index r) n = Ok true
    /\ first_five cs = Ok (choices r)
    /\ len (choices r) = Ok m /\ 4 <= m <= 5.
Proof.
  destruct reply as [e| |e|questions]; simpl; try by intros ?%elem_of_nil.
  destruct (validate_questions questions) as [out|e] eqn:Hv; [|by intros ?%elem_of_nil].
  intros Hr. unfold validate_questions in Hv.
  destruct (iterate questions) as [qs|] eqn:Hit; [|done]. cbn [Generator.bind] in Hv.
  destruct (validate_loop_elem qs [] out r Hv Hr) as [?%elem_of_nil|(q & Hq & Hacc)]; [done|].
  destruct (validate_stored_choices q r Hacc) as (m & Hm & Hm4 & _).
  destruct (validate_accepted q r Hacc)
    as (fields & cs & n & -> & H1 & H2 & H3 & H4 & H5 & H6 & H7 & H8 & H9).
  exists questions, qs, fields, cs, n, m.
  repeat (split; [done|]). split; [|repeat (split; try done)].
  unfold validate in Hacc.
  repeat match type of Hacc with
         | context [Generator.bind ?m _] =>
           let E := fresh "E" in
           destruct m eqn:E; cbn [Generator.bind] in Hacc; [|discriminate Hacc]
         | context [if negb ?b then _ else _] =>
           let E := fresh "E" in
           destruct b eqn:E; cbn [negb] in Hacc; [|discriminate Hacc]
         end.
  injection Hacc as <-. cbn [topic].
  match goal with H : get_or_empty _ _ = Ok _ |- _ => cbn [get_or_empty] in H; by injection H as <- end.
Qed.

(** X11: for a dict candidate whose choices are a list of n entries and
    whose answer index is an integer, the validation is decided by
    4 <= n and 0 <= answer_index < n alone: the record then holds the
    candidate's values with the choices cut to the first five and the topic
    defaulting to the empty string, and otherwise the candidate is skipped. *)
Theorem validate_well_typed_candidate (fields : list (text * json))
    (qu ex : json) (items : list json) (ai : Z) :
  assoc (u "question") fields = Some qu ->
  assoc (u "choices") fields = Some (JArr items) ->
  assoc (u "answer_index") fields = Some (JInt ai) ->
  assoc (u "explanation") fields = Some ex ->
  validate (JObj fields)
  = Ok (if (4 <=? Z.of_nat (length items)) && (0 <=? ai) && (ai <? Z.of_nat (length items))
        then Some {| question := qu; choices := JArr (take 5 items);
                     answer_index := JInt ai; explanation := ex;
                     topic := default (JStr []) (assoc (u "topic") fields) |}
        else None).
Proof.
  intros Hq Hc Ha He. unfold validate, required_keys.
  cbn [has_all contains getitem]. rewrite Hq, Hc, Ha, He.
  rewrite !bool_decide_eq_true_2 by eauto.
  cbn [Generator.bind negb len zero_le less_than first_five get_or_empty].
  destruct (4 <=? Z.of_nat (length items)); cbn [negb andb Generator.bind]; [|done].
  destruct (0 <=? ai); cbn [negb andb Generator.bind]; [|done].
  destruct (ai <? Z.of_nat (length items)); cbn [negb andb Generator.bind]; [|done].
  rewrite slice_to_take by lia. done.
Qed.

(** X12: the validation of a reply is all or nothing: when the check of
    every entry of the parsed list returns, the generator gives the accepted
    records in the order of the entries; when the check of a single entry
    raises, as it does on a number, a boolean or null, the generator gives
    the empty list, whatever the other entries are. *)
Theorem validation_all_or_nothing (items : list json) :
  generate_quiz_from_chunk (Parsed (JArr items))
  = (if forallb returns items then omap accepted items else [])
  /\ (forall z, returns (JInt z) = false)
  /\ (forall b, returns (JBool b) = false)
  /\ returns JNull = false.
Proof.
  split; [|by repeat split].
  cbn [generate_quiz_from_chunk validate_questions iterate Generator.bind].
  destruct (validate_loop_spec items []) as [H1 H2].
  destruct (forallb returns items).
  - by rewrite H1.
  - destruct H2 as [e ->]; done.
Qed.

End GeneratorMore.

Section GeneratorMoreSamples.

Import Py Generator Notions Samples.

Lemma generated_record_provenance_witness :
  exists questions items fields cs n m,
    three_questions = Parsed questions /\ iterate questions = Ok items
    /\ JObj fields ∈ items
    /\ assoc (u "question") fields = Some (JStr (u "Q"))
    /\ assoc (u "choices") fields = Some cs
    /\ assoc (u "answer_index") fields = Some (JInt 2)
    /\ assoc (u "explanation") fields = Some (JStr (u "E"))
    /\ JStr [] = default (JStr []) (assoc (u "topic") fields)
    /\ len cs = Ok n /\ 4 <= n
    /\ zero_le (JInt 2) = Ok true
    /\ less_than (JInt 2) n = Ok true
    /\ first_five cs
       = Ok (JArr [JStr (u "1"); JStr (u "2"); JStr (u "3"); JStr (u "4")])
    /\ len (JArr [JStr (u "1"); JStr (u "2"); JStr (u "3"); JStr (u "4")]) = Ok m
    /\ 4 <= m <= 5.
Proof.
  apply (generated_record_provenance three_questions
           {| question := JStr (u "Q");
              choices := JArr [JStr (u "1"); JStr (u "2"); JStr (u "3"); JStr (u "4")];
              answer_index := JInt 2;
              explanation := JStr (u "E");
              topic := JStr [] |}).
  vm_compute. do 2 apply list_elem_of_further. apply list_elem_of_here.
Defined.

Lemma validate_well_typed_candidate_witness :
  validate (candidate 6 5)
  = Ok (Some {| question := JStr (u "Q");
                choices := JArr (take 5 (map (fun i => JStr (str_of_int (Z.of_nat i)))
                                             (seq 1 6)));
                answer_index := JInt 5;
                explanation := JStr (u "E");
                topic := JStr [] |}).
Proof.
  apply (validate_well_typed_candidate
           [ (u "question", JStr (u "Q"));
             (u "choices", JArr (map (fun i => JStr (str_of_int (Z.of_nat i))) (seq 1 6)));
             (u "answer_index", JInt 5);
             (u "explanation", JStr (u "E")) ]
           (JStr (u "Q")) (JStr (u "E"))
           (map (fun i => JStr (str_of_int (Z.of_nat i))) (seq 1 6)) 5);
    reflexivity.
Defined.

End GeneratorMoreSamples.

(** ** More on the Job Tracker *)
Section JobTrackerMore.

Import Py Firestore JobTracker.

(** X13: a status update touches the record of its job only: when the
    record exists the collection keeps its set of records and every other
    record as it was; when it does not, the call raises NotFound, so that no
    record is ever created. *)
Theorem update_job_status_frame (now : Z) (quizJobs : collection)
    (job_id status : text) (progress : Z) (kwargs : document) :
  match update_job_status now quizJobs job_id status progress kwargs with
  | Ok c =>
    is_Some (quizJobs !! job_id)
    /\ dom c = dom quizJobs
    /\ forall other, other ≠ job_id -> c !! other = quizJobs !! other
  | Raise e => quizJobs !! job_id = None /\ exn_kind_of e = NotFound
  end.
Proof.
  unfold update_job_status, update.
  destruct (quizJobs !! job_id) as [doc|] eqn:Hdoc; [|done].
  split; [eauto|]. split.
  - rewrite dom_insert_L. apply (elem_of_dom_2 (D := gset text)) in Hdoc. set_solver.
  - intros other Hne. by rewrite lookup_insert_ne.
Qed.

(** X14: two status updates of the same job compose field by field: a field
    holds what the second update gave it, else what the first gave it, else
    what the record held before; so the message or error of an earlier
    update stays in the record until a later update names that field. *)
Theorem update_job_status_twice (t1 t2 : Z) (quizJobs : collection) (job_id : text)
    (doc : document) (s1 s2 : text) (p1 p2 : Z) (kw1 kw2 : document) :
  quizJobs !! job_id = Some doc ->
  exists c1 c2 doc2,
    update_job_status t1 quizJobs job_id s1 p1 kw1 = Ok c1
    /\ update_job_status t2 c1 job_id s2 p2 kw2 = Ok c2
    /\ c2 !! job_id = Some doc2
    /\ forall k, doc2 !! k
         = match update_data s2 p2 kw2 !! k with
           | Some v => Some (resolve t2 v)
           | None =>
             match update_data s1 p1 kw1 !! k with
             | Some v => Some (resolve t1 v)
             | None => doc !! k
             end
           end.
Proof.
  intros Hdoc. unfold update_job_status, update. rewrite Hdoc.
  eexists _, _, _. split; [reflexivity|]. rewrite lookup_insert_eq.
  split; [reflexivity|]. split; [by rewrite lookup_insert_eq|].
  intros k. by rewrite !merged_lookup.
Qed.

End JobTrackerMore.

Section JobTrackerMoreSamples.

Import Py Firestore JobTracker Samples.

Lemma update_job_status_twice_witness :
  exists c1 c2 doc2,
    update_job_status 100 (<[u "job1" := failed_record]> ∅) (u "job1") (u "processing") 5
      (<["message" := VStr (u "retry")]> ∅) = Ok c1
    /\ update_job_status 101 c1 (u "job1") (u "processing") 15 ∅ = Ok c2
    /\ c2 !! u "job1" = Some doc2
    /\ forall k, doc2 !! k
         = match update_data (u "processing") 15 ∅ !! k with
           | Some v => Some (resolve 101 v)
           | None =>
             match update_data (u "processing") 5 (<["message" := VStr (u "retry")]> ∅) !! k with
             | Some v => Some (resolve 100 v)
             | None => failed_record !! k
             end
           end.
Proof.
  apply (update_job_status_twice 100 101 (<[u "job1" := failed_record]> ∅) (u "job1")
           failed_record).
  reflexivity.
Defined.

End JobTrackerMoreSamples.

(** ** More on the conversion endpoints *)
Section ConvertMore.

Import Py Http Scratch Convert.

Lemma pdf_exists_after (nm : names) (written : bool) (fs : files) :
  bool_decide
    (pdf_path nm ∈ (if written then fs ∪ {[pptx_path nm]} ∪ {[output_dir nm]} ∪ {[pdf_path nm]}
                    else fs ∪ {[pptx_path nm]} ∪ {[output_dir nm]}))
  = written || bool_decide (pdf_path nm ∈ fs).
Proof.
  unfold pdf_path, pptx_path, output_dir.
  destruct written; simpl.
  - apply bool_decide_eq_true_2. set_solver.
  - apply bool_decide_ext. set_solver.
Qed.

(** X15: a request that is a preflight, carries no valid token or carries no
    file is answered 200, 401 or 400 in that order of precedence, and a
    direct request without payload or with an undecodable one 400 or 500,
    all before any file is made: the scratch files are as they were,
    whatever the converter would have done. *)
Theorem conversion_rejected_before_any_work (req : upload) (nm : names)
    (out : subprocess_outcome) (fs : files) :
  is_options req = true \/ token_valid req = false \/ has_file req = false ->
  status_code (response (convert_pdf req nm out fs))
    = (if is_options req then 200 else if token_valid req then 400 else 401)
  /\ files_at_return (convert_pdf req nm out fs) = fs
  /\ files_after (convert_pdf req nm out fs) = fs
  /\ status_code (response (convert_to_pdf_direct NoPayload nm out fs)) = 400
  /\ files_after (convert_to_pdf_direct NoPayload nm out fs) = fs
  /\ (forall e, status_code (response (convert_to_pdf_direct (BadBase64 e) nm out fs)) = 500
             /\ files_after (convert_to_pdf_direct (BadBase64 e) nm out fs) = fs).
Proof.
  intros H. unfold convert_pdf, files_after.
  destruct (is_options req), (token_valid req), (has_file req); simpl;
    try done; by (destruct H as [H|[H|H]]).
Qed.

(** X16: for an authorized upload and for a direct payload alike, the status
    is 504 when the converter times out, 200 when it exits with code 0 and
    the PDF is in the output directory, and 500 otherwise. *)
Theorem conversion_status_code (nm : names) (out : subprocess_outcome) (fs : files) :
  status_code (response (convert_pdf authorized_upload nm out fs))
    = match out with
      | TimedOut => 504
      | Exited rc _ written =>
        if (rc =? 0) && (written || bool_decide (pdf_path nm ∈ fs)) then 200 else 500
      end
  /\ status_code (response (convert_to_pdf_direct Payload nm out fs))
     = status_code (response (convert_pdf authorized_upload nm out fs)).
Proof.
  unfold convert_pdf, convert_to_pdf_direct, run_libreoffice. simpl.
  destruct out as [|rc stderr written]; [done|].
  destruct (rc =? 0); simpl; [|done].
  rewrite pdf_exists_after.
  destruct (written || bool_decide (pdf_path nm ∈ fs)); done.
Qed.

(** X17: the temporary presentation of an authorized upload or a direct
    payload is gone when the handler returns, however the conversion ends. *)
Theorem temporary_presentation_always_removed (nm : names) (out : subprocess_outcome)
    (fs : files) :
  (pptx_path nm ∉ files_at_return (convert_pdf authorized_upload nm out fs))
  /\ (pptx_path nm ∉ files_after (convert_pdf authorized_upload nm out fs))
  /\ (pptx_path nm ∉ files_at_return (convert_to_pdf_direct Payload nm out fs)).
Proof.
  split; [|split; [apply convert_pdf_removes_pptx|]].
  - unfold convert_pdf, run_libreoffice, remove_if_exists. simpl.
    destruct out as [|rc stderr written]; simpl; [set_solver|].
    destruct (rc =? 0); simpl; [|set_solver].
    destruct (bool_decide _); simpl; set_solver.
  - unfold convert_to_pdf_direct, run_libreoffice, remove_if_exists. simpl.
    destruct out as [|rc stderr written]; simpl; [set_solver|].
    destruct (rc =? 0); simpl; [|set_solver].
    destruct (bool_decide _); simpl; set_solver.
Qed.

(** X18: after a conversion answered with 200, [convert_to_pdf_direct] has
    removed every scratch path of the request when it returns, while
    [convert_pdf] has removed the temporary presentation only: the PDF and
    its directory are still there once the response has been sent, because
    their removal is registered with [call_on_close] on the response of
    [send_file], which the server does not close. *)
Theorem successful_conversion_scratch (nm : names) (out : subprocess_outcome)
    (fs : files) :
  status_code (response (convert_pdf authorized_upload nm out fs)) = 200 ->
  direct_passthrough (convert_pdf authorized_upload nm out fs) = true
  /\ files_at_return (convert_pdf authorized_upload nm out fs)
     = (fs ∖ {[pptx_path nm]}) ∪ {[output_dir nm; pdf_path nm]}
  /\ files_after (convert_pdf authorized_upload nm out fs)
     = (fs ∖ {[pptx_path nm]}) ∪ {[output_dir nm; pdf_path nm]}
  /\ files_at_return (convert_to_pdf_direct Payload nm out fs) = fs ∖ scratch_of nm
  /\ files_after (convert_to_pdf_direct Payload nm out fs) = fs ∖ scratch_of nm.
Proof.
  unfold files_after, convert_pdf, convert_to_pdf_direct, run_libreoffice, cleanup,
    remove_if_exists, no_callback, scratch_of. simpl.
  destruct out as [|rc stderr written]; simpl; [done|].
  destruct (rc =? 0); simpl; [|done].
  destruct (bool_decide _) eqn:E; simpl; [|done]. intros _.
  apply bool_decide_eq_true_1 in E. revert E.
  unfold pdf_path, pptx_path, output_dir.
  destruct written; set_solver.
Qed.

End ConvertMore.

Section ConvertMoreSamples.

Import Py Http Scratch Convert.

Lemma conversion_rejected_before_any_work_witness :
  status_code (response (convert_pdf
                 {| is_options := false; token_valid := false; has_file := true |}
                 {| pptx_stem := 1; dir_name := 2 |} (Exited 0 [] true) ∅)) = 401
  /\ files_at_return (convert_pdf
                 {| is_options := false; token_valid := false; has_file := true |}
                 {| pptx_stem := 1; dir_name := 2 |} (Exited 0 [] true) ∅) = ∅
  /\ files_after (convert_pdf
                 {| is_options := false; token_valid := false; has_file := true |}
                 {| pptx_stem := 1; dir_name := 2 |} (Exited 0 [] true) ∅) = ∅
  /\ status_code (response (convert_to_pdf_direct NoPayload
                 {| pptx_stem := 1; dir_name := 2 |} (Exited 0 [] true) ∅)) = 400
  /\ files_after (convert_to_pdf_direct NoPayload
                 {| pptx_stem := 1; dir_name := 2 |} (Exited 0 [] true) ∅) = ∅
  /\ (forall e, status_code (response (convert_to_pdf_direct (BadBase64 e)
                 {| pptx_stem := 1; dir_name := 2 |} (Exited 0 [] true) ∅)) = 500
             /\ files_after (convert_to_pdf_direct (BadBase64 e)
                 {| pptx_stem := 1; dir_name := 2 |} (Exited 0 [] true) ∅) = ∅).
Proof.
  apply (conversion_rejected_before_any_work
           {| is_options := false; token_valid := false; has_file := true |}
           {| pptx_stem := 1; dir_name := 2 |} (Exited 0 [] true) ∅).
  right. left. reflexivity.
Defined.

Lemma successful_conversion_scratch_witness :
  direct_passthrough (convert_pdf authorized_upload
                        {| pptx_stem := 1; dir_name := 2 |} (Exited 0 [] true) ∅) = true
  /\ files_at_return (convert_pdf authorized_upload
                        {| pptx_stem := 1; dir_name := 2 |} (Exited 0 [] true) ∅)
     = (∅ ∖ {[TmpPptx 1]}) ∪ {[TmpDir 2; PdfIn 2 1]}
  /\ files_after (convert_pdf authorized_upload
                        {| pptx_stem := 1; dir_name := 2 |} (Exited 0 [] true) ∅)
     = (∅ ∖ {[TmpPptx 1]}) ∪ {[TmpDir 2; PdfIn 2 1]}
  /\ files_at_return (convert_to_pdf_direct Payload
                        {| pptx_stem := 1; dir_name := 2 |} (Exited 0 [] true) ∅)
     = ∅ ∖ scratch_of {| pptx_stem := 1; dir_name := 2 |}
  /\ files_after (convert_to_pdf_direct Payload
                        {| pptx_stem := 1; dir_name := 2 |} (Exited 0 [] true) ∅)
     = ∅ ∖ scratch_of {| pptx_stem := 1; dir_name := 2 |}.
Proof.
  apply (successful_conversion_scratch {| pptx_stem := 1; dir_name := 2 |}
           (Exited 0 [] true) ∅).
  reflexivity.
Defined.

End ConvertMoreSamples.

(** ** The token check and the rendering endpoint *)
Section AuthFacts.

Import Py Generator Auth.

Variable claims : Type.
Variable verify_id_token : text -> Py.result claims.

Lemma is_prefix_app (p s : text) : is_prefix p (p ++ s) = true.
Proof. induction p as [|c p IH]; simpl; [done|]. by rewrite N.eqb_refl. Qed.

Lemma is_prefix_split (p s : text) :
  is_prefix p s = true -> s = p ++ drop (length p) s.
Proof.
  revert s. induction p as [|c p IH]; intros [|x s]; simpl; try done.
  intros [Hc Hp]%andb_true_iff. apply N.eqb_eq in Hc. subst x. f_equal. by apply IH.
Qed.

(** X19: the token check accepts a request exactly when its Authorization
    header is [Bearer ] followed by a token that [verify_id_token] accepts,
    and then gives the claims of that token; a missing header, another
    scheme or spelling, and a token on which the verifier raises all give
    [None]. *)
Theorem verify_firebase_token_bearer (authorization : option text) (decoded : claims) :
  (verify_firebase_token claims verify_id_token authorization = Some decoded
   <-> exists token, authorization = Some (u "Bearer " ++ token)
                  /\ verify_id_token token = Ok decoded)
  /\ verify_firebase_token claims verify_id_token None = None
  /\ (forall token,
        verify_firebase_token claims verify_id_token (Some (u "bearer " ++ token)) = None).
Proof.
  split; [|split; [done|]].
  - unfold verify_firebase_token. split.
    + destruct (is_prefix (u "Bearer ") (default [] authorization)) eqn:Hp; [|done].
      cbn [negb]. apply is_prefix_split in Hp.
      change (length (u "Bearer ")) with 7%nat in Hp.
      destruct (verify_id_token (drop 7 (default [] authorization))) eqn:Hv; [|done].
      intros [= ->]. exists (drop 7 (default [] authorization)). split; [|done].
      destruct authorization as [h|]; [simpl in *; congruence|].
      simpl in Hp. discriminate Hp.
    + intros (token & -> & Hv). cbn [default id]. rewrite is_prefix_app. cbn [negb].
      change 7%nat with (length (u "Bearer ")). rewrite drop_app_length. by rewrite Hv.
  - intros token. reflexivity.
Qed.

End AuthFacts.

Section RenderFacts.

Import Py Generator Auth Render.

Variable claims : Type.
Variable verify_id_token : text -> Py.result claims.
Variable print_pdf : json -> Py.result (list N).

(** X20: every reply of [render_pdf] carries the CORS header; the browser is
    started only for a request that is not a preflight, whose token was
    accepted and whose html field is there and true, and it is given that
    field; apart from the preflight, the status is 200 exactly when the
    browser was started and printed the page, and the reply is then the PDF
    it printed. *)
Theorem render_pdf_guards (req : request) :
  allow_origin (response (render_pdf claims verify_id_token print_pdf req)) = true
  /\ (forall html,
        rendered (render_pdf claims verify_id_token print_pdf req) = Some html ->
        is_options req = false
        /\ is_Some (verify_firebase_token claims verify_id_token (authorization req))
        /\ body req = Body (Some html) /\ json_truthy html = true)
  /\ (is_options req = false ->
        (status_code (response (render_pdf claims verify_id_token print_pdf req)) = 200
         <-> exists html pdf_bytes,
               rendered (render_pdf claims verify_id_token print_pdf req) = Some html
               /\ print_pdf html = Ok pdf_bytes
               /\ payload (response (render_pdf claims verify_id_token print_pdf req))
                  = Pdf pdf_bytes)).
Proof.
  assert (Hnone : forall r : reply,
    status_code r <> 200 ->
    allow_origin r = true ->
    allow_origin (response {| response := r; rendered := None |}) = true
    /\ (forall html,
          rendered {| response := r; rendered := None |} = Some html ->
          is_options req = false
          /\ is_Some (verify_firebase_token claims verify_id_token (authorization req))
          /\ body req = Body (Some html) /\ json_truthy html = true)
    /\ (is_options req = false ->
          (status_code (response {| response := r; rendered := None |}) = 200
           <-> exists html pdf_bytes,
                 rendered {| response := r; rendered := None |} = Some html
                 /\ print_pdf html = Ok pdf_bytes
                 /\ payload (response {| response := r; rendered := None |})
                    = Pdf pdf_bytes))).
  { intros r Hr Ha. cbn. split; [done|]. split; [by intros ? [=]|]. intros _.
    split; [done|]. by intros (? & ? & [=] & _). }
  unfold render_pdf.
  destruct (is_options req) eqn:Hopt.
  { cbn. split; [done|]. split; [by intros ? [=]|]. done. }
  destruct (verify_firebase_token _ _ _) as [d|] eqn:Hd; [|by apply Hnone].
  destruct (body req) as [e|html] eqn:Hb; [by apply Hnone|].
  destruct (json_truthy (default (JStr []) html)) eqn:Ht; cbn [negb]; [|by apply Hnone].
  destruct html as [html|]; [|discriminate Ht]. cbn [from_option id] in *.
  destruct (print_pdf html) as [bytes|e] eqn:Hp; cbn.
  - split; [done|]. split; [by intros ? [= <-]; eauto|]. intros _.
    split; [|done]. intros _. by exists html, bytes.
  - split; [done|]. split; [by intros ? [= <-]; eauto|]. intros _.
    split; [done|]. intros (h & b & [= <-] & Hb' & _). congruence.
Qed.

End RenderFacts.

(** ** More on the Pipeline Orchestrator *)

(** *** Relations kept by every step of a run *)
Section Keeps.

Import Py Extractor Generator Firestore Http Scratch Pipeline Notions.

Variable nd_table : char -> bool.
Variable scale60 : nat -> nat -> Z.
Variable env : Env.

Variable I : World -> World -> Prop.
Hypothesis I_refl : forall w, I w w.
Hypothesis I_trans : forall w1 w2 w3, I w1 w2 -> I w2 w3 -> I w1 w3.

Lemma keeps_ret {A} (a : A) : keeps I (ret a).
Proof. intros w w' r [= <- _]. apply I_refl. Qed.

Lemma keeps_lift {A} (r : result A) : keeps I (lift r).
Proof. intros w w' r' [= <- _]. apply I_refl. Qed.

Lemma keeps_bind {A B} (m : M A) (f : A -> M B) :
  keeps I m -> (forall a, keeps I (f a)) -> keeps I (Pipeline.bind m f).
Proof.
  intros Hm Hf w w' r. unfold Pipeline.bind. destruct (m w) as [w1 [a|e]] eqn:E.
  - intros H. eapply I_trans; [eapply Hm; exact E|eapply Hf; exact H].
  - intros [= <- _]. eapply Hm; exact E.
Qed.

Lemma keeps_try_finally {A} (m : M A) (fin : World -> World) :
  keeps I m -> (forall w, I w (fin w)) -> keeps I (try_finally m fin).
Proof.
  intros Hm Hfin w w' r. unfold try_finally. destruct (m w) as [w1 r1] eqn:E.
  intros [= <- _]. eapply I_trans; [eapply Hm; exact E|apply Hfin].
Qed.

Variable req : Request.
Variables job sp user : text.

Hypothesis I_update : forall s p kw, keeps I (job_update job s p kw).
Hypothesis I_generate : forall c d k, keeps I (generate env c d k).
Hypothesis I_extract : forall file, keeps I (extract nd_table file).
Hypothesis I_quiz :
  forall slides q qs, keeps I (quiz_set env (quiz_data req user slides (q :: qs))).
Hypothesis I_blob : keeps I (blob_delete env sp).

Lemma generate_loop_keeps (d : text) (kws : list text) (qc : Z) (n : nat)
    (chunks : list text) (i : nat) (acc : list QuestionRecord) :
  keeps I (generate_loop scale60 env job d kws qc n chunks i acc).
Proof.
  revert i acc. induction chunks as [|c rest IH]; intros i acc; cbn [generate_loop].
  { apply keeps_ret. }
  apply keeps_bind; [apply I_update|]. intros _.
  apply keeps_bind; [apply I_generate|]. intros qs.
  destruct (qc <=? _); [apply keeps_ret|apply IH].
Qed.

Lemma process_file_keeps (file : PptxFile) :
  keeps I (process_file nd_table scale60 env req job sp user file).
Proof.
  unfold process_file. cbv zeta.
  apply keeps_bind; [apply I_update|]. intros _.
  apply keeps_bind; [apply I_extract|]. intros [|s slides].
  { apply keeps_bind; [apply I_update|]. intros _. apply keeps_ret. }
  apply keeps_bind; [apply keeps_lift|]. intros chunks.
  apply keeps_bind; [apply I_update|]. intros _.
  apply keeps_bind; [apply generate_loop_keeps|]. intros out.
  destruct (slice_to out _) as [|q qs].
  { apply keeps_bind; [apply I_update|]. intros _. apply keeps_ret. }
  apply keeps_bind; [apply I_update|]. intros _.
  apply keeps_bind; [apply I_quiz|]. intros _.
  apply keeps_bind; [apply I_blob|]. intros _.
  apply keeps_bind; [apply I_update|]. intros _. apply keeps_ret.
Qed.

Hypothesis I_download : keeps I (download env sp).
Hypothesis I_unlink : forall w, I w (unlink_tmp env w).
Hypothesis req_job : jobId req = Some job.
Hypothesis req_path : storagePath req = Some sp.
Hypothesis req_user : userId req = Some user.

Lemma process_request_keeps : keeps I (process_request nd_table scale60 env req).
Proof.
  unfold process_request. rewrite req_job, req_path, req_user.
  destruct (_ && _ && _); [|apply keeps_ret].
  apply keeps_bind; [apply I_update|]. intros _.
  apply keeps_bind; [apply I_download|]. intros file.
  apply keeps_try_finally; [apply process_file_keeps|apply I_unlink].
Qed.

Lemma process_pptx_keeps (w : World) :
  I w (process_pptx nd_table scale60 env (Some req) w).1.
Proof.
  unfold process_pptx.
  destruct (process_request nd_table scale60 env req w) as [w1 [resp|e]] eqn:E.
  { simpl. eapply process_request_keeps; exact E. }
  pose proof (process_request_keeps _ _ _ E) as H1.
  destruct (truthy_field (jobId req)); [|done].
  rewrite req_job. cbn [from_option id].
  destruct (job_update job failed 0 (error (exn_text e)) w1) as [w2 [[]|e']] eqn:E2;
    simpl; (eapply I_trans; [exact H1|eapply I_update; exact E2]).
Qed.

End Keeps.

Section RunInvariant.

Import Py Extractor Generator Firestore Http Scratch Pipeline Notions.

Variable nd_table : char -> bool.
Variable scale60 : nat -> nat -> Z.
Variable env : Env.

Lemma deletions_app (a b : list event) : deletions (a ++ b) = deletions a ++ deletions b.
Proof. apply omap_app. Qed.

Lemma job_updates_app (a b : list event) :
  job_updates (a ++ b) = job_updates a ++ job_updates b.
Proof. apply omap_app. Qed.

Lemma run_inv_refl (req : Request) (w : World) : run_inv env req w w.
Proof.
  exists []. simpl. rewrite app_nil_r.
  repeat split; first [done|lia|by destruct (delete_error env)].
Qed.

Lemma run_inv_trans (req : Request) (w1 w2 w3 : World) :
  run_inv env req w1 w2 -> run_inv env req w2 w3 -> run_inv env req w1 w3.
Proof.
  intros (e1 & Ht1 & Hn1 & Hl1 & Hb1 & Hd1 & Hdom1 & Hj1 & Hu1 & Hq1)
         (e2 & Ht2 & Hn2 & Hl2 & Hb2 & Hd2 & Hdom2 & Hj2 & Hu2 & Hq2).
  exists (e1 ++ e2).
  rewrite generated_app, deletions_app, job_updates_app, quiz_writes_app, length_app.
  split; [by rewrite Ht2, Ht1, app_assoc|]. split; [congruence|].
  split; [lia|].
  split.
  { destruct (delete_error env); [congruence|].
    unfold delete_all in *. by rewrite fold_left_app, <- Hb1. }
  split; [by apply Forall_app|]. split; [congruence|].
  split; [intros j Hj; rewrite Hj2, Hj1; done|].
  split; [by apply Forall_app|].
  destruct (quiz_writes e1) as [|x1 l1], (quiz_writes e2) as [|x2 l2]; simpl.
  - congruence.
  - destruct Hq2 as (user & slides & q & qs & Hu & Hq2).
    exists user, slides, q, qs. split; [done|]. rewrite Hq2, Hq1, Hn1. done.
  - destruct Hq1 as (user & slides & q & qs & Hu & Hq1).
    exists user, slides, q, qs. split; [done|]. rewrite Hq2, Hq1. done.
  - destruct Hq1 as (user1 & slides1 & q1 & qs1 & Hu1' & Hq1).
    destruct Hq2 as (user & slides & q & qs & Hu & Hq2).
    exists user, slides, q, qs. split; [done|].
    rewrite Hq2, Hq1, Hn1, insert_insert_eq. done.
Qed.

Lemma job_update_inv (req : Request) (job status : text) (progress : Z)
    (kwargs : document) :
  jobId req = Some job -> keeps (run_inv env req) (job_update job status progress kwargs).
Proof.
  intros Hjob w w' r. unfold job_update, JobTracker.update_job_status, update.
  destruct (quizJobs w !! job) as [doc|] eqn:Hdoc; intros [= <- _];
    exists [JobUpdate job (JobTracker.update_data status progress kwargs)]; simpl.
  - repeat split; try first [done|lia|by destruct (delete_error env)].
    + rewrite dom_insert_L. apply (elem_of_dom_2 (D := gset text)) in Hdoc. set_solver.
    + intros j Hj. rewrite lookup_insert_ne; [done|]. congruence.
    + by constructor.
  - repeat split; try first [done|lia|by destruct (delete_error env)]. by constructor.
Qed.

Lemma generate_inv (req : Request) (chunk difficulty : text) (kws : list text) :
  keeps (run_inv env req) (generate env chunk difficulty kws).
Proof.
  intros w w' r. unfold generate. intros [= <- _].
  eexists [Generate chunk _]. simpl. repeat split; try first [done|lia|by destruct (delete_error env)].
Qed.

Lemma extract_inv (req : Request) (file : PptxFile) :
  keeps (run_inv env req) (extract nd_table file).
Proof.
  intros w w' r. destruct file as [e|prs]; simpl; intros [= <- _].
  - apply run_inv_refl.
  - eexists [Extracted _]. simpl. repeat split; try first [done|lia|by destruct (delete_error env)].
Qed.

Lemma quiz_set_inv (req : Request) (user : text) (slides : list SlideRecord)
    (q : QuestionRecord) (qs : list QuestionRecord) :
  userId req = Some user ->
  keeps (run_inv env req) (quiz_set env (quiz_data req user slides (q :: qs))).
Proof.
  intros Hu w w' r. unfold quiz_set. intros [= <- _].
  exists [QuizSet (auto_id env)]. simpl. repeat split; try first [done|lia|by destruct (delete_error env)].
  by exists user, slides, q, qs.
Qed.

Lemma blob_delete_inv (req : Request) (sp : text) :
  storagePath req = Some sp -> keeps (run_inv env req) (blob_delete env sp).
Proof.
  intros Hsp w w' r. unfold blob_delete. intros [= <- _].
  exists [BlobDelete sp]. simpl.
  repeat split; try first [done|lia|by destruct (delete_error env)].
  by constructor.
Qed.

Lemma download_inv (req : Request) (sp : text) :
  keeps (run_inv env req) (download env sp).
Proof.
  intros w w' r. unfold download.
  destruct (bucket w !! sp); intros [= <- _];
    exists []; simpl; rewrite app_nil_r; repeat split; first [done|lia|by destruct (delete_error env)].
Qed.

Lemma unlink_inv (req : Request) (w : World) : run_inv env req w (unlink_tmp env w).
Proof.
  exists []. simpl. rewrite app_nil_r. repeat split; first [done|lia|by destruct (delete_error env)].
Qed.

(** A request that lacks one of its three required fields, or has it empty,
    is answered 400 and changes nothing. *)
Lemma process_pptx_rejected (req : Request) (w : World) :
  truthy_field (jobId req) && truthy_field (storagePath req) && truthy_field (userId req)
  = false ->
  process_pptx nd_table scale60 env (Some req) w
  = (w, json_error 400 (u "Missing required fields")).
Proof.
  unfold process_pptx, process_request, truthy_field.
  destruct (jobId req) as [job|]; [|done].
  destruct (storagePath req) as [sp|]; [|by rewrite andb_false_r].
  destruct (userId req) as [user|]; [|by rewrite andb_false_r].
  by intros ->.
Qed.

Lemma process_pptx_run_inv (req : Request) (w : World) :
  run_inv env req w (process_pptx nd_table scale60 env (Some req) w).1.
Proof.
  destruct (truthy_field (jobId req) && truthy_field (storagePath req)
            && truthy_field (userId req)) eqn:Hf.
  2:{ rewrite process_pptx_rejected by done. apply run_inv_refl. }
  destruct (jobId req) as [job|] eqn:Hj; [|done].
  destruct (storagePath req) as [sp|] eqn:Hs; [|by rewrite andb_false_r in Hf].
  destruct (userId req) as [user|] eqn:Hu; [|by rewrite andb_false_r in Hf].
  apply (process_pptx_keeps nd_table scale60 env (run_inv env req)
           (run_inv_refl req) (run_inv_trans req) req job sp user).
  - intros. by apply job_update_inv.
  - intros. apply generate_inv.
  - intros. apply extract_inv.
  - intros. by apply quiz_set_inv.
  - by apply blob_delete_inv.
  - apply download_inv.
  - apply unlink_inv.
  - done.
  - done.
  - done.
Qed.

End RunInvariant.

Section RunFacts.

Import Py Extractor Generator Firestore Http Scratch Pipeline Notions.

Variable nd_table : char -> bool.
Variable scale60 : nat -> nat -> Z.
Variable env : Env.

Ltac reveal_updates :=
  repeat match goal with
         | H : progress_event _ _ _ |- _ => destruct H as [? ->]
         | H : failure_event _ _ |- _ => destruct H as [? ->]
         | H : exists kwargs, _ = JobUpdate _ _ /\ _ |- _ => destruct H as (? & -> & ?)
         end.

Lemma loop_events_no_delete (job : text) (levs : list event) :
  Forall (loop_event job) levs -> deletions levs = [].
Proof.
  induction 1 as [|ev levs Hev _ IH]; [done|].
  destruct Hev as [[p [m ->]]|(c & v & ->)]; done.
Qed.

Lemma progress_events_plain (job : text) (pre : list event) :
  Forall (fun ev => exists p, progress_event job p ev) pre ->
  quiz_writes pre = [] /\ deletions pre = [] /\ generated pre = []
  /\ forall slides, Extracted slides ∉ pre.
Proof.
  induction 1 as [|ev pre (p & m & ->) _ (IH1 & IH2 & IH3 & IH4)].
  { repeat split; try done. by intros ? ?%elem_of_nil. }
  repeat split; try done.
  intros slides [Heq|Hin]%elem_of_cons; [done|by eapply IH4].
Qed.

Lemma generated_length (evs : list event) :
  length (generated evs) = length (generated_chunks evs).
Proof. induction evs as [|[] evs IH]; simpl; auto. Qed.

Lemma chunk_count (slides : list SlideRecord) (chunks : list text) :
  Chunker.chunk_slides slides 3 = Ok chunks ->
  Z.of_nat (length chunks) = (Z.of_nat (length slides) + 2) / 3.
Proof.
  rewrite chunk_slides_groups by lia. intros [= <-]. rewrite length_map.
  rewrite groups_of_count by (simpl; lia).
  change (Z.of_nat (Z.to_nat 3)) with 3. f_equal. lia.
Qed.

(** What the ways a run ends have in common: the runs answered 200 write one
    quiz and delete one blob, the others neither; and the model is called at
    most once per chunk. *)
Lemma outcome_digest (req : Request) (q0 : gmap text QuizDocument) (j0 : collection)
    (w' : World) (resp : Response) (evs : list event) :
  outcome env req q0 j0 w' resp evs ->
  ((status_code resp ≠ 200 /\ quiz_writes evs = [] /\ deletions evs = [])
   \/ (exists job sp,
         jobId req = Some job
         /\ quiz_writes evs = [auto_id env] /\ deletions evs = [sp]
         /\ job_shows w' job completed 100
         /\ slice_to (concat (generated evs)) (default 10 (questionCount req)) ≠ []
         /\ (exists doc,
               quizzes w' = <[auto_id env := doc]> q0
               /\ questions doc
                  = imap quiz_question
                      (slice_to (concat (generated evs))
                         (default 10 (questionCount req))))
         /\ resp = {| status_code := 200;
                      payload := QuizJson (auto_id env)
                        (Z.of_nat (length (slice_to (concat (generated evs))
                                             (default 10 (questionCount req))))) |}))
  /\ (forall slides, Extracted slides ∈ evs ->
        Z.of_nat (length (generated evs)) <= (Z.of_nat (length slides) + 2) / 3)
  /\ ((forall slides, Extracted slides ∉ evs) -> generated evs = []).
Proof.
  intros Hout.
  destruct Hout as [-> _ _ ->
         |job e1 e2 Hid _ -> He1 He2 _ _ ->
         |job pre e m Hid -> Hpre He _ _ ->
         |job e1 e2 e3 Hid -> He1 He2 He3 Hq Hshows ->
         |job slides0 chunks e1 e2 e3 e4 levs Hid Hne Hchunks -> He1 He2 He3
            (Hloop & Hprefix & _) Hfinal He4 Hq Hshows ->
         |job sp slides0 chunks e1 e2 e3 e4 e5 levs doc Hid Hne Hchunks -> He1 He2 He3
            (Hloop & Hprefix & _) Hfinal He4 He5 Hdoc Hstored Hshows ->]; reveal_updates.
  - split; [left; by repeat split|]. split; [by intros ? ?%elem_of_nil|done].
  - split; [left; by repeat split|]. split; [|done].
    intros slides Hin.
    repeat (apply elem_of_cons in Hin as [Hin|Hin]; [discriminate Hin|]).
    by apply elem_of_nil in Hin.
  - destruct (progress_events_plain _ _ Hpre) as (H1 & H2 & H3 & H4).
    rewrite quiz_writes_app, deletions_app, generated_app, H1, H2, H3. simpl.
    split; [left; by repeat split|]. split; [|done].
    intros slides [Hin|Hin]%elem_of_app; [by apply H4 in Hin|].
    repeat (apply elem_of_cons in Hin as [Hin|Hin]; [discriminate Hin|]).
    by apply elem_of_nil in Hin.
  - split; [left; by repeat split|]. split; [intros; simpl; apply Z.div_pos; lia|].
    intros Hno. exfalso. apply (Hno []). do 2 apply list_elem_of_further.
    apply list_elem_of_here.
  - destruct (loop_events_no_write _ _ Hloop) as [Hnowrite Hnoext].
    pose proof (loop_events_no_delete _ _ Hloop) as Hnodel.
    rewrite !quiz_writes_app, !deletions_app, !generated_app, Hnowrite, Hnodel.
    cbn. rewrite app_nil_r.
    split; [left; by repeat split|]. split.
    + intros slides Hin.
      assert (slides = slides0) as ->.
      { apply elem_of_cons in Hin as [Hin|Hin]; [discriminate Hin|].
        apply elem_of_cons in Hin as [Hin|Hin]; [discriminate Hin|].
        apply elem_of_cons in Hin as [Hin|Hin]; [by simplify_eq|].
        apply elem_of_cons in Hin as [Hin|Hin]; [discriminate Hin|].
        apply elem_of_app in Hin as [Hin|Hin]; [by apply Hnoext in Hin|].
        apply elem_of_cons in Hin as [Hin|Hin]; [discriminate Hin|].
        by apply elem_of_nil in Hin. }
      rewrite generated_length, <- (chunk_count _ _ Hchunks).
      apply prefix_length in Hprefix. lia.
    + intros Hno. exfalso. apply (Hno slides0). do 2 apply list_elem_of_further.
      apply list_elem_of_here.
  - destruct (loop_events_no_write _ _ Hloop) as [Hnowrite Hnoext].
    pose proof (loop_events_no_delete _ _ Hloop) as Hnodel.
    rewrite !quiz_writes_app, !deletions_app, !generated_app, Hnowrite, Hnodel.
    cbn. rewrite app_nil_r.
    split; [right|split].
    + exists job, sp. repeat split; try done; [by exists doc|].
      rewrite Hdoc, length_imap. done.
    + intros slides Hin.
      assert (slides = slides0) as ->.
      { apply elem_of_cons in Hin as [Hin|Hin]; [discriminate Hin|].
        apply elem_of_cons in Hin as [Hin|Hin]; [discriminate Hin|].
        apply elem_of_cons in Hin as [Hin|Hin]; [by simplify_eq|].
        apply elem_of_cons in Hin as [Hin|Hin]; [discriminate Hin|].
        apply elem_of_app in Hin as [Hin|Hin]; [by apply Hnoext in Hin|].
        repeat (apply elem_of_cons in Hin as [Hin|Hin]; [discriminate Hin|]).
        by apply elem_of_nil in Hin. }
      rewrite generated_length, <- (chunk_count _ _ Hchunks).
      apply prefix_length in Hprefix. lia.
    + intros Hno. exfalso. apply (Hno slides0). do 2 apply list_elem_of_further.
      apply list_elem_of_here.
Qed.

End RunFacts.

Section RunTheorems.

Import Py Extractor Generator Firestore Http Scratch Pipeline Notions.

Variable nd_table : char -> bool.
Variable scale60 : nat -> nat -> Z.
Variable env : Env.

Lemma imap_inj {A B} (f : nat -> A -> B) (l1 l2 : list A) :
  (forall i x y, f i x = f i y -> x = y) -> imap f l1 = imap f l2 -> l1 = l2.
Proof.
  revert f l2. induction l1 as [|x l1 IH]; intros f [|y l2] Hf; simpl; try done.
  intros [= H1 H2]. f_equal; [by eapply Hf|].
  eapply IH; [|exact H2]. intros i a b. apply (Hf (S i)).
Qed.

Lemma quiz_question_inj (i : nat) (q1 q2 : QuestionRecord) :
  quiz_question i q1 = quiz_question i q2 -> q1 = q2.
Proof. destruct q1, q2. unfold quiz_question. simpl. by intros [= -> -> -> -> ->]. Qed.

(** The events of a run, with the way it ended and what it did to the world. *)
Lemma run_summary (req : Request) (w : World) :
  exists evs,
    new_events w (process_pptx nd_table scale60 env (Some req) w).1 = evs
    /\ trace (process_pptx nd_table scale60 env (Some req) w).1 = trace w ++ evs
    /\ outcome env req (quizzes w) (quizJobs w)
         (process_pptx nd_table scale60 env (Some req) w).1
         (process_pptx nd_table scale60 env (Some req) w).2 evs
    /\ now (process_pptx nd_table scale60 env (Some req) w).1 = now w
    /\ llm_calls (process_pptx nd_table scale60 env (Some req) w).1
       = (llm_calls w + length (generated evs))%nat
    /\ bucket (process_pptx nd_table scale60 env (Some req) w).1
       = match delete_error env with
         | None => delete_all (deletions evs) (bucket w)
         | Some _ => bucket w
         end
    /\ Forall (fun p => storagePath req = Some p) (deletions evs)
    /\ dom (quizJobs (process_pptx nd_table scale60 env (Some req) w).1)
       = dom (quizJobs w)
    /\ (forall j, jobId req ≠ Some j ->
          quizJobs (process_pptx nd_table scale60 env (Some req) w).1 !! j
          = quizJobs w !! j)
    /\ Forall (fun jd => jobId req = Some jd.1) (job_updates evs)
    /\ match quiz_writes evs with
       | [] => quizzes (process_pptx nd_table scale60 env (Some req) w).1 = quizzes w
       | _ :: _ =>
         exists user slides q qs,
           userId req = Some user
           /\ quizzes (process_pptx nd_table scale60 env (Some req) w).1
              = <[auto_id env := quiz_data req user slides (q :: qs) (now w)]> (quizzes w)
       end.
Proof.
  pose proof (process_pptx_run_inv nd_table scale60 env req w) as Hinv.
  destruct (process_pptx nd_table scale60 env (Some req) w) as [w' resp] eqn:Hrun.
  destruct (process_pptx_outcome nd_table scale60 env req w w' resp Hrun)
    as (evs & Ht & Hout).
  destruct Hinv as (evs' & Ht' & Hrest). simpl in *.
  assert (evs' = evs) as -> by (rewrite Ht in Ht'; by apply app_inv_head in Ht').
  exists evs. split; [by apply new_events_app|]. split; [done|]. split; [done|].
  exact Hrest.
Qed.

(** X21: a request without a job id, a storage path or a user id, or with
    one of them empty, is answered 400 and leaves the world as it was: no
    status update, no download, no call of the model. *)
Theorem invalid_request_changes_nothing (req : Request) (w : World) :
  missing (jobId req) \/ missing (storagePath req) \/ missing (userId req) ->
  process_pptx nd_table scale60 env (Some req) w
  = (w, json_error 400 (u "Missing required fields")).
Proof.
  intros H. apply process_pptx_rejected. unfold missing, truthy_field in *.
  destruct H as [[->| ->]|[[->| ->]|[->| ->]]]; simpl;
    rewrite ?andb_false_r; done.
Qed.


(** X23: a run creates and removes no job record and writes to no record
    but that of its own job: every status update is addressed to the job id
    of the request. *)
Theorem run_writes_only_its_job_record (req : Request) (w : World) :
  dom (quizJobs (process_pptx nd_table scale60 env (Some req) w).1) = dom (quizJobs w)
  /\ (forall j, jobId req ≠ Some j ->
        quizJobs (process_pptx nd_table scale60 env (Some req) w).1 !! j
        = quizJobs w !! j)
  /\ Forall (fun jd => jobId req = Some jd.1)
       (job_updates (new_events w (process_pptx nd_table scale60 env (Some req) w).1)).
Proof.
  destruct (run_summary req w)
    as (evs & -> & _ & _ & _ & _ & _ & _ & Hdom & Hj & Hu & _).
  done.
Qed.

(** X25: a run answered 200 has written exactly one quiz, under the new
    identifier: the document built from the request, with the questions
    generated up to the requested count, of which there is at least one;
    the response gives their number and the job's record shows completed
    at 100.  [blob.delete()] has been called once, for the blob of the
    request: when the call succeeded that blob is gone from the bucket, and
    when it raised the bucket is as it was and the run has answered 200 all
    the same. *)
Theorem successful_run_result (req : Request) (w : World) :
  status_code (process_pptx nd_table scale60 env (Some req) w).2 = 200 ->
  exists job sp user slides,
    jobId req = Some job /\ storagePath req = Some sp /\ userId req = Some user
    /\ slice_to (concat (generated
                   (new_events w (process_pptx nd_table scale60 env (Some req) w).1)))
                (default 10 (questionCount req)) ≠ []
    /\ quizzes (process_pptx nd_table scale60 env (Some req) w).1
       = <[auto_id env :=
             quiz_data req user slides
               (slice_to (concat (generated
                   (new_events w (process_pptx nd_table scale60 env (Some req) w).1)))
                  (default 10 (questionCount req)))
               (now w)]> (quizzes w)
    /\ quiz_writes (new_events w (process_pptx nd_table scale60 env (Some req) w).1)
       = [auto_id env]
    /\ (process_pptx nd_table scale60 env (Some req) w).2
       = {| status_code := 200;
            payload := QuizJson (auto_id env)
              (Z.of_nat (length (slice_to (concat (generated
                   (new_events w (process_pptx nd_table scale60 env (Some req) w).1)))
                  (default 10 (questionCount req))))) |}
    /\ deletions (new_events w (process_pptx nd_table scale60 env (Some req) w).1) = [sp]
    /\ bucket (process_pptx nd_table scale60 env (Some req) w).1
       = match delete_error env with
         | None => delete sp (bucket w)
         | Some _ => bucket w
         end
    /\ job_shows (process_pptx nd_table scale60 env (Some req) w).1 job completed 100.
Proof.
  destruct (run_summary req w)
    as (evs & -> & _ & Hout & _ & _ & Hb & Hd & _ & _ & _ & Hq).
  destruct (outcome_digest env _ _ _ _ _ _ Hout)
    as [[(Hne & _)|(job & sp & Hjob & Hw & Hdel & Hshows & Hfinal
                    & (doc & Hstored & Hdoc) & Hresp)] _];
    [done|].
  intros _. rewrite Hw in Hq. destruct Hq as (user & slides & q & qs & Huser & Hq).
  rewrite Hdel in Hb, Hd. apply Forall_inv in Hd.
  exists job, sp, user, slides. repeat (split; [done|]).
  split; [|done]. rewrite Hq. do 2 f_equal.
  rewrite Hq in Hstored. apply (f_equal (fun m => m !! auto_id env)) in Hstored.
  rewrite !lookup_insert_eq in Hstored. injection Hstored as Hstored.
  apply (f_equal questions) in Hstored. cbn [questions quiz_data] in Hstored.
  rewrite Hdoc in Hstored. by apply imap_inj in Hstored; [|apply quiz_question_inj].
Qed.

(** X26: the model is called at most once per chunk: a run over a
    presentation with n records makes at most (n + 2) / 3 calls, a run that
    extracts nothing makes none, and the count of calls grows by the number
    of calls made. *)
Theorem generation_calls_bounded (req : Request) (w : World) :
  llm_calls (process_pptx nd_table scale60 env (Some req) w).1
  = (llm_calls w
     + length (generated
         (new_events w (process_pptx nd_table scale60 env (Some req) w).1)))%nat
  /\ (forall slides,
        Extracted slides
          ∈ new_events w (process_pptx nd_table scale60 env (Some req) w).1 ->
        Z.of_nat (length (generated
           (new_events w (process_pptx nd_table scale60 env (Some req) w).1)))
        <= (Z.of_nat (length slides) + 2) / 3)
  /\ ((forall slides,
         Extracted slides
           ∉ new_events w (process_pptx nd_table scale60 env (Some req) w).1) ->
      generated (new_events w (process_pptx nd_table scale60 env (Some req) w).1) = []).
Proof.
  destruct (run_summary req w) as (evs & -> & _ & Hout & _ & Hl & _).
  destruct (outcome_digest env _ _ _ _ _ _ Hout) as (_ & H1 & H2).
  done.
Qed.

End RunTheorems.

Section ScratchFacts.

Import Py Extractor Generator Firestore Http Scratch Pipeline Notions.

Variable nd_table : char -> bool.
Variable scale60 : nat -> nat -> Z.
Variable env : Env.

(** The steps of the inner block leave the scratch files alone. *)
Lemma job_update_scratch (job status : text) (progress : Z) (kwargs : document) :
  keeps same_scratch (job_update job status progress kwargs).
Proof.
  intros w w' r. unfold job_update.
  destruct (JobTracker.update_job_status _ _ _ _ _ _); by intros [= <- _].
Qed.

Lemma process_file_scratch (req : Request) (job sp user : text) (file : PptxFile) :
  keeps same_scratch (process_file nd_table scale60 env req job sp user file).
Proof.
  apply process_file_keeps.
  - done.
  - unfold same_scratch. congruence.
  - intros. apply job_update_scratch.
  - intros c d k w w' r. unfold generate. by intros [= <- _].
  - intros f w w' r. destruct f; simpl; by intros [= <- _].
  - intros slides q qs w w' r. unfold quiz_set. by intros [= <- _].
  - intros w w' r. unfold blob_delete. by intros [= <- _].
Qed.

(** X24: once the presentation has been downloaded, the temporary file is
    removed before the handler returns, whether the run then succeeds,
    answers an error or raises; and the run touches no other scratch path. *)
Theorem temporary_file_removed_after_download (req : Request) (w : World)
    (job sp : text) :
  truthy_field (jobId req) && truthy_field (storagePath req) && truthy_field (userId req)
  = true ->
  jobId req = Some job -> storagePath req = Some sp ->
  is_Some (quizJobs w !! job) -> is_Some (bucket w !! sp) ->
  scratch (process_pptx nd_table scale60 env (Some req) w).1
  = scratch w ∖ {[TmpPptx (tmp_stem env)]}.
Proof.
  intros Hf Hjob Hsp [doc Hdoc] [file Hfile].
  unfold process_pptx, process_request. rewrite Hjob, Hsp in *.
  destruct (userId req) as [user|]; [|by rewrite andb_false_r in Hf].
  unfold truthy_field in Hf. rewrite Hf.
  apply andb_true_iff in Hf as [[Hj _]%andb_true_iff _]. cbn [truthy_field]. rewrite Hj.
  unfold Pipeline.bind at 1.
  unfold job_update at 1, JobTracker.update_job_status, update. rewrite Hdoc.
  unfold Pipeline.bind at 1. unfold download at 1. cbn [bucket set_jobs add_event].
  rewrite Hfile. unfold try_finally.
  match goal with
  | |- context [process_file _ _ _ _ _ _ _ _ ?w1] =>
    destruct (process_file nd_table scale60 env req job sp user file w1)
      as [w2 r] eqn:Hrun;
    pose proof (process_file_scratch req job sp user file _ _ _ Hrun) as Hs
  end.
  unfold same_scratch in Hs. cbn [scratch set_scratch set_jobs add_event] in Hs.
  assert (Hfin : scratch (unlink_tmp env w2) = scratch w ∖ {[TmpPptx (tmp_stem env)]}).
  { unfold unlink_tmp, remove_if_exists. cbn [scratch set_scratch]. rewrite Hs.
    set_solver. }
  destruct r as [resp|e]; [done|].
  cbn [from_option id].
  destruct (job_update job failed 0 (error (exn_text e)) (unlink_tmp env w2))
    as [w3 [[]|e']] eqn:Hup;
    apply job_update_scratch in Hup; unfold same_scratch in Hup; simpl;
    by rewrite Hup.
Qed.

End ScratchFacts.

Section MissingJob.

Import Py Extractor Generator Firestore Http Scratch Pipeline Notions.

Variable nd_table : char -> bool.
Variable scale60 : nat -> nat -> Z.
Variable env : Env.

(** X27: a run for a job that has no record is answered with the server's
    own 500: the first status update raises NotFound, the update that should
    report the failure raises in turn, and nothing else has happened: no
    record is created, nothing is downloaded, generated or written. *)
Theorem missing_job_record_aborts (req : Request) (w : World) (job : text) :
  truthy_field (jobId req) && truthy_field (storagePath req) && truthy_field (userId req)
  = true ->
  jobId req = Some job -> quizJobs w !! job = None ->
  (process_pptx nd_table scale60 env (Some req) w).2
  = {| status_code := 500; payload := ServerError |}
  /\ quizJobs (process_pptx nd_table scale60 env (Some req) w).1 = quizJobs w
  /\ quizzes (process_pptx nd_table scale60 env (Some req) w).1 = quizzes w
  /\ bucket (process_pptx nd_table scale60 env (Some req) w).1 = bucket w
  /\ scratch (process_pptx nd_table scale60 env (Some req) w).1 = scratch w
  /\ llm_calls (process_pptx nd_table scale60 env (Some req) w).1 = llm_calls w
  /\ exists m,
       new_events w (process_pptx nd_table scale60 env (Some req) w).1
       = [ JobUpdate job (JobTracker.update_data processing 5
                            (message (u "PPTX 다운로드 중...")));
           JobUpdate job (JobTracker.update_data failed 0 (error m)) ].
Proof.
  intros Hf Hjob Hdoc.
  assert (Hrun : process_pptx nd_table scale60 env (Some req) w
    = (add_event (JobUpdate job (JobTracker.update_data failed 0 (error job)))
         (add_event (JobUpdate job (JobTracker.update_data processing 5
                                      (message (u "PPTX 다운로드 중...")))) w),
       {| status_code := 500; payload := ServerError |})).
  { unfold process_pptx, process_request. rewrite Hjob in *.
    destruct (storagePath req) as [sp|]; [|by rewrite andb_false_r in Hf].
    destruct (userId req) as [user|]; [|by rewrite andb_false_r in Hf].
    unfold truthy_field in Hf. rewrite Hf.
    apply andb_true_iff in Hf as [[Hj _]%andb_true_iff _]. cbn [truthy_field]. rewrite Hj.
    unfold Pipeline.bind at 1.
    unfold job_update at 1. rewrite update_job_status_missing by done.
    cbn [from_option id exn_text].
    unfold job_update at 1. rewrite update_job_status_missing by done.
    done. }
  rewrite Hrun. cbn. repeat (split; [done|]). exists job.
  unfold new_events. cbn. rewrite <- app_assoc, drop_app_length. done.
Qed.

End MissingJob.

Section RunSamples.

Import Py Extractor Generator Firestore Http Scratch Pipeline Notions.
Import Samples.

Lemma invalid_request_changes_nothing_witness :
  process_pptx ascii_only exact_scale60 sample_env (Some anonymous_request) sample_world
  = (sample_world, json_error 400 (u "Missing required fields")).
Proof.
  apply (invalid_request_changes_nothing ascii_only exact_scale60 sample_env
           anonymous_request sample_world).
  left. right. reflexivity.
Defined.


Lemma temporary_file_removed_after_download_witness :
  scratch (process_pptx ascii_only exact_scale60 sample_env
             (Some (sample_request "deck.pptx" 4)) sample_world).1
  = scratch sample_world ∖ {[TmpPptx (tmp_stem sample_env)]}.
Proof.
  apply (temporary_file_removed_after_download ascii_only exact_scale60 sample_env
           (sample_request "deck.pptx" 4) sample_world (u "job1") (u "deck.pptx")).
  - reflexivity.
  - reflexivity.
  - reflexivity.
  - vm_compute. eexists. reflexivity.
  - vm_compute. eexists. reflexivity.
Defined.

(** The run on the sample deck, with a bucket that lets the blob go and
    with one that does not. *)
Lemma successful_run_result_witness :
  (exists job sp user slides,
     jobId (sample_request "deck.pptx" 4) = Some job
     /\ storagePath (sample_request "deck.pptx" 4) = Some sp
     /\ userId (sample_request "deck.pptx" 4) = Some user
     /\ slice_to (concat (generated (new_events sample_world
             (process_pptx ascii_only exact_scale60 sample_env
                (Some (sample_request "deck.pptx" 4)) sample_world).1)))
           (default 10 (questionCount (sample_request "deck.pptx" 4))) ≠ []
     /\ quizzes (process_pptx ascii_only exact_scale60 sample_env
                (Some (sample_request "deck.pptx" 4)) sample_world).1
        = <[auto_id sample_env :=
              quiz_data (sample_request "deck.pptx" 4) user slides
                (slice_to (concat (generated (new_events sample_world
                    (process_pptx ascii_only exact_scale60 sample_env
                (Some (sample_request "deck.pptx" 4)) sample_world).1)))
                   (default 10 (questionCount (sample_request "deck.pptx" 4))))
                (now sample_world)]> (quizzes sample_world)
     /\ quiz_writes (new_events sample_world
             (process_pptx ascii_only exact_scale60 sample_env
                (Some (sample_request "deck.pptx" 4)) sample_world).1)
        = [auto_id sample_env]
     /\ (process_pptx ascii_only exact_scale60 sample_env
                (Some (sample_request "deck.pptx" 4)) sample_world).2
        = {| status_code := 200;
             payload := QuizJson (auto_id sample_env)
               (Z.of_nat (length (slice_to (concat (generated (new_events sample_world
                    (process_pptx ascii_only exact_scale60 sample_env
                (Some (sample_request "deck.pptx" 4)) sample_world).1)))
                   (default 10 (questionCount (sample_request "deck.pptx" 4)))))) |}
     /\ deletions (new_events sample_world
             (process_pptx ascii_only exact_scale60 sample_env
                (Some (sample_request "deck.pptx" 4)) sample_world).1) = [sp]
     /\ bucket (process_pptx ascii_only exact_scale60 sample_env
                (Some (sample_request "deck.pptx" 4)) sample_world).1
        = delete sp (bucket sample_world)
     /\ job_shows (process_pptx ascii_only exact_scale60 sample_env
                (Some (sample_request "deck.pptx" 4)) sample_world).1
          job completed 100)
  /\
  (exists job sp user slides,
     jobId (sample_request "deck.pptx" 4) = Some job
     /\ storagePath (sample_request "deck.pptx" 4) = Some sp
     /\ userId (sample_request "deck.pptx" 4) = Some user
     /\ slice_to (concat (generated (new_events sample_world
             (process_pptx ascii_only exact_scale60 locked_env
                (Some (sample_request "deck.pptx" 4)) sample_world).1)))
           (default 10 (questionCount (sample_request "deck.pptx" 4))) ≠ []
     /\ quizzes (process_pptx ascii_only exact_scale60 locked_env
                (Some (sample_request "deck.pptx" 4)) sample_world).1
        = <[auto_id locked_env :=
              quiz_data (sample_request "deck.pptx" 4) user slides
                (slice_to (concat (generated (new_events sample_world
                    (process_pptx ascii_only exact_scale60 locked_env
                (Some (sample_request "deck.pptx" 4)) sample_world).1)))
                   (default 10 (questionCount (sample_request "deck.pptx" 4))))
                (now sample_world)]> (quizzes sample_world)
     /\ quiz_writes (new_events sample_world
             (process_pptx ascii_only exact_scale60 locked_env
                (Some (sample_request "deck.pptx" 4)) sample_world).1)
        = [auto_id locked_env]
     /\ (process_pptx ascii_only exact_scale60 locked_env
                (Some (sample_request "deck.pptx" 4)) sample_world).2
        = {| status_code := 200;
             payload := QuizJson (auto_id locked_env)
               (Z.of_nat (length (slice_to (concat (generated (new_events sample_world
                    (process_pptx ascii_only exact_scale60 locked_env
                (Some (sample_request "deck.pptx" 4)) sample_world).1)))
                   (default 10 (questionCount (sample_request "deck.pptx" 4)))))) |}
     /\ deletions (new_events sample_world
             (process_pptx ascii_only exact_scale60 locked_env
                (Some (sample_request "deck.pptx" 4)) sample_world).1) = [sp]
     /\ bucket (process_pptx ascii_only exact_scale60 locked_env
                (Some (sample_request "deck.pptx" 4)) sample_world).1
        = bucket sample_world
     /\ job_shows (process_pptx ascii_only exact_scale60 locked_env
                (Some (sample_request "deck.pptx" 4)) sample_world).1
          job completed 100).
Proof.
  split.
  - apply (successful_run_result ascii_only exact_scale60 sample_env
             (sample_request "deck.pptx" 4) sample_world).
    vm_compute. reflexivity.
  - apply (successful_run_result ascii_only exact_scale60 locked_env
             (sample_request "deck.pptx" 4) sample_world).
    vm_compute. reflexivity.
Defined.

End RunSamples.

Section MissingJobSamples.

Import Py Extractor Generator Firestore Http Scratch Pipeline Notions.
Import Samples.

Lemma missing_job_record_aborts_witness :
  (process_pptx ascii_only exact_scale60 sample_env (Some stray_request) sample_world).2
  = {| status_code := 500; payload := ServerError |}
  /\ quizJobs (process_pptx ascii_only exact_scale60 sample_env (Some stray_request)
                 sample_world).1 = quizJobs sample_world
  /\ quizzes (process_pptx ascii_only exact_scale60 sample_env (Some stray_request)
                sample_world).1 = quizzes sample_world
  /\ bucket (process_pptx ascii_only exact_scale60 sample_env (Some stray_request)
               sample_world).1 = bucket sample_world
  /\ scratch (process_pptx ascii_only exact_scale60 sample_env (Some stray_request)
                sample_world).1 = scratch sample_world
  /\ llm_calls (process_pptx ascii_only exact_scale60 sample_env (Some stray_request)
                  sample_world).1 = llm_calls sample_world
  /\ exists m,
       new_events sample_world
         (process_pptx ascii_only exact_scale60 sample_env (Some stray_request)
            sample_world).1
       = [ JobUpdate (u "job9") (JobTracker.update_data processing 5
                                   (message (u "PPTX 다운로드 중...")));
           JobUpdate (u "job9") (JobTracker.update_data failed 0 (error m)) ].
Proof.
  apply (missing_job_record_aborts ascii_only exact_scale60 sample_env stray_request
           sample_world (u "job9")); reflexivity.
Defined.

End MissingJobSamples.
